(** * Brand Forge: the asset generation pipeline of [services/geminiService.ts]

    A shallow embedding of the orchestration code (media fetching, logo
    resolution, prompt composition, draft fan-out, editing, video polling) and
    of the brand form's save handler, with the properties the specification
    states about them; then of the rest of the pipeline (finalizing, the
    phases of the second revision) and of the components that call it (the
    logo field, the studio, the gallery, the editor's preview, the
    application), with properties read off the code.

    Conventions.
    - JavaScript strings are byte strings ([string]).  Host functions whose
      result depends on Unicode or on the URL standard ([toLowerCase],
      [encodeURIComponent], [new URL(x).hostname], [String.length]) are fields
      of the [Host] record, next to the remote services.
    - A value of type [string | undefined | null] is a [jstr].
    - Asynchronous code is written in the monad [IO]: a computation threads
      the [World] (console output and the list of outbound calls issued so
      far) and either returns a value or throws.  A rejected promise that is
      awaited is a throw.
    - The remote services are oracles of the [Host]: the answer to a call may
      depend on every call issued before it.
    - The repository holds three revisions of the service file.  [V1] is the
      first text of [services/geminiService.ts], [V2] the second text of the
      same file, [V3] the revision that adds [analyzeAnnotations] and
      [generateRealWorldPreview]. *)

From Stdlib Require Import String Ascii List Arith Bool Lia DecimalString.
From Equations Require Import Equations.
From Equations.Prop Require Import Logic.
Import ListNotations.
Open Scope list_scope.
Open Scope string_scope.

(** ** JavaScript values and string helpers *)

(** The double quote and the line feed, which a literal cannot hold here. *)
Definition dq : string := String (ascii_of_nat 34) EmptyString.
Definition nl : string := String (ascii_of_nat 10) EmptyString.

(** [string | undefined | null]. *)
Inductive jstr : Type :=
| undefined
| null
| str (s : string).

(** [!!v]: a string is truthy unless it is empty. *)
Definition truthy (v : jstr) : bool :=
  match v with
  | str s => negb (s =? "")
  | _ => false
  end.

(** [v || d] where [d] is a string. *)
Definition or_else (v : jstr) (d : string) : string :=
  match v with
  | str s => if s =? "" then d else s
  | _ => d
  end.

(** [`${v}`]: what a template literal prints for [v]. *)
Definition show (v : jstr) : string :=
  match v with
  | undefined => "undefined"
  | null => "null"
  | str s => s
  end.

(** [a[i]] on an array of strings. *)
Definition index (a : list string) (i : nat) : jstr :=
  match nth_error a i with
  | Some s => str s
  | None => undefined
  end.

(** [a.join(sep)]. *)
Fixpoint join (sep : string) (a : list string) : string :=
  match a with
  | [] => ""
  | [x] => x
  | x :: rest => x ++ sep ++ join sep rest
  end.

(** [a.slice(0, n)]. *)
Definition slice0 (n : nat) (a : list string) : list string := firstn n a.

(** [s.split(c)] for a separator of one character. *)
Fixpoint split (c : ascii) (s : string) : list string :=
  match s with
  | EmptyString => [EmptyString]
  | String x rest =>
      if Ascii.eqb x c then EmptyString :: split c rest
      else match split c rest with
           | [] => [String x EmptyString]
           | h :: t => String x h :: t
           end
  end.

(** [s.split(',')[1]]: the payload of a data URL. *)
Definition payload (s : string) : jstr := index (split "," s) 1.

(** [s.startsWith(p)]. *)
Definition startsWith (s p : string) : bool := String.prefix p s.

(** [s.includes(p)]. *)
Fixpoint includes (s p : string) : bool :=
  String.prefix p s ||
  match s with
  | EmptyString => false
  | String _ rest => includes rest p
  end.

(** [contains s p]: [p] occurs in [s]. *)
Definition contains (s p : string) : Prop :=
  exists before after, s = before ++ p ++ after.

(** ** Errors *)

Inductive exn : Type :=
| Error (message : string)
| TypeError (message : string).

(** A settled promise, or the result of a call that may throw. *)
Inductive Outcome (A : Type) : Type :=
| Value (a : A)
| Throw (e : exn).
Arguments Value {A} a.
Arguments Throw {A} e.

(** ** The generative service's data *)

Record InlineData : Type := mkInlineData {
  mimeType : string;
  data : jstr
}.

(** A part of a request or of a response: text, inline bytes, both or neither. *)
Record Part : Type := mkPart {
  text : option string;
  inlineData : option InlineData
}.

Definition textPart (s : string) : Part := mkPart (Some s) None.
Definition imagePart (image : string) : Part :=
  mkPart None (Some (mkInlineData "image/png" (payload image))).

Record ImageConfig : Type := mkImageConfig {
  aspectRatio : option string;
  imageSize : option string
}.

Record GenRequest : Type := mkGenRequest {
  model : string;
  contents : list Part;
  config : option ImageConfig
}.

Record Content : Type := mkContent { parts : option (list Part) }.
Record Candidate : Type := mkCandidate { content : option Content }.
Record GenResponse : Type := mkGenResponse { candidates : option (list Candidate) }.

(** [res.candidates?.[0]?.content?.parts]. *)
Definition firstParts (res : GenResponse) : option (list Part) :=
  match candidates res with
  | Some (c :: _) =>
      match content c with
      | Some ct => parts ct
      | None => None
      end
  | _ => None
  end.

(** ** Video operations *)

Record Video : Type := mkVideo { uri : option string }.
Record GeneratedVideo : Type := mkGeneratedVideo { video : option Video }.
Record VideosResponse : Type := mkVideosResponse {
  generatedVideos : option (list GeneratedVideo)
}.

(** The operation handle: [done] is falsy until the service reports completion. *)
Record Operation : Type := mkOperation {
  done : bool;
  response : option VideosResponse
}.

Record VideoRequest : Type := mkVideoRequest {
  v_model : string;
  prompt : string;
  imageBytes : jstr;
  v_mimeType : string;
  numberOfVideos : nat;
  resolution : string;
  v_aspectRatio : string
}.

(** [operation.response?.generatedVideos?.[0]?.video?.uri]. *)
Definition videoUriOf (op : Operation) : jstr :=
  match response op with
  | Some r =>
      match generatedVideos r with
      | Some (g :: _) =>
          match video g with
          | Some v => match uri v with Some u => str u | None => undefined end
          | None => undefined
          end
      | _ => undefined
      end
  | None => undefined
  end.

(** ** HTTP *)

(** What [FileReader.readAsDataURL] hands to [onloadend]: the data URL, or
    [null] when the read failed. *)
Record Blob : Type := mkBlob { dataURL : jstr }.

Record Response : Type := mkResponse {
  ok : bool;
  contentType : jstr;          (* headers.get("content-type"): string or null *)
  blob : Outcome Blob          (* response.blob() *)
}.

(** ** Outbound calls and the world *)

Inductive Call : Type :=
| Fetch (url : string)
| GenerateContent (req : GenRequest)
| GenerateVideos (req : VideoRequest)
| GetVideosOperation (op : Operation)
| SetTimeout (ms : nat).

(** An argument of [console.log]; [AObj] is an object literal, field by field. *)
Inductive LogVal : Type :=
| VStr (s : string)
| VJstr (v : jstr)
| VNat (n : nat)
| VBool (b : bool)
| VList (l : list string)
| VExn (e : exn).

Inductive LogArg : Type :=
| AVal (v : LogVal)
| AObj (fields : list (string * LogVal)).

Definition AStr (s : string) : LogArg := AVal (VStr s).
Definition AJstr (v : jstr) : LogArg := AVal (VJstr v).
Definition ANat (n : nat) : LogArg := AVal (VNat n).
Definition AExn (e : exn) : LogArg := AVal (VExn e).

Inductive Level : Type := Log | Warn | Err.

Record LogEntry : Type := mkLog { level : Level; args : list LogArg }.

Record World : Type := mkWorld {
  console : list LogEntry;
  calls : list Call
}.

Definition emptyWorld : World := mkWorld [] [].

(** The environment the code runs in. *)
Record Host : Type := mkHost {
  API_KEY : jstr;                                   (* process.env.API_KEY *)
  toLowerCase : string -> string;
  encodeURIComponent : string -> string;
  hostname : string -> option string;               (* new URL(x).hostname; None: it throws *)
  strlen : string -> nat;                           (* s.length *)
  fetch : list Call -> string -> Outcome Response;
  generateContent : list Call -> GenRequest -> Outcome GenResponse;
  generateVideos : list Call -> VideoRequest -> Outcome Operation;
  getVideosOperation : list Call -> Operation -> Outcome Operation
}.

(** ** The monad of asynchronous code *)

Definition IO (A : Type) : Type := World -> Outcome A * World.

Definition ret {A} (a : A) : IO A := fun w => (Value a, w).

Definition bind {A B} (m : IO A) (k : A -> IO B) : IO B :=
  fun w =>
    match m w with
    | (Value a, w') => k a w'
    | (Throw e, w') => (Throw e, w')
    end.

Definition throw {A} (e : exn) : IO A := fun w => (Throw e, w).

(** [try { body } catch (e) { handler }]. *)
Definition try_catch {A} (body : IO A) (handler : exn -> IO A) : IO A :=
  fun w =>
    match body w with
    | (Value a, w') => (Value a, w')
    | (Throw e, w') => handler e w'
    end.

Declare Scope io_scope.
Delimit Scope io_scope with io.
Notation "x <- m ;; k" := (bind m (fun x => k))
  (at level 100, m at next level, right associativity) : io_scope.
Notation "m ;; k" := (bind m (fun _ => k))
  (at level 100, right associativity) : io_scope.
Open Scope io_scope.

Definition emit (lv : Level) (a : list LogArg) : IO unit :=
  fun w => (Value tt, mkWorld (console w ++ [mkLog lv a]) (calls w)).

Definition console_log := emit Log.
Definition console_warn := emit Warn.
Definition console_error := emit Err.

(** Issue a call: it is recorded, and the oracle answers from the calls
    issued before it. *)
Definition issue {A} (c : Call) (answer : list Call -> Outcome A) : IO A :=
  fun w => (answer (calls w), mkWorld (console w) (calls w ++ [c])).

(** [await new Promise(resolve => setTimeout(resolve, ms))]. *)
Definition sleep (ms : nat) : IO unit :=
  issue (SetTimeout ms) (fun _ => Value tt).

(** Await a promise that is already settled. *)
Definition await {A} (p : Outcome A) : IO A := fun w => (p, w).

Definition result {A} (r : Outcome A * World) : Outcome A := fst r.
Definition world {A} (r : Outcome A * World) : World := snd r.

Section Service.

Variable h : Host.

(** ** getClient *)

(** [getClient()]: the key is [process.env.API_KEY]; the client is the
    host's services, so only the check is left. *)
Definition getClient : IO unit :=
  if truthy (API_KEY h) then ret tt
  else throw (Error "API Key not found. Please select a key.").

(** ** fetchImageToBase64 *)

Definition proxied (url : string) : string :=
  "https://corsproxy.io/?" ++ encodeURIComponent h url.

(** The promise returned from the [try] block is not awaited there; it is
    built from [resolve] alone and settles with [reader.result]. *)
Definition fetchImageToBase64 (url : string) : IO jstr :=
  try_catch
    (response <- issue (Fetch (proxied url)) (fun past => fetch h past (proxied url)) ;;
     if negb (ok response) then ret undefined
     else
       let contentType := contentType response in
       if negb (truthy contentType) || negb (startsWith (show contentType) "image/")
       then
         console_warn [AStr "Fetched URL is not an image:"; AJstr contentType] ;;
         ret undefined
       else
         blob <- await (blob response) ;;
         ret (dataURL blob))
    (fun e =>
       console_warn [AStr "Failed to fetch logo image"; AExn e] ;;
       ret undefined).

(** ** fetchLogoFromUrl *)

Definition sources (domain : string) : list string :=
  [ "https://www.google.com/s2/favicons?domain=" ++ domain ++ "&sz=128";
    "https://icons.duckduckgo.com/ip3/" ++ domain ++ ".ico";
    "https://logo.clearbit.com/" ++ domain ].

(** [for (const logoUrl of sources) { ... }] followed by the fall-through. *)
Fixpoint trySources (domain : string) (l : list string) : IO jstr :=
  match l with
  | [] =>
      console_warn [AStr "All logo sources failed for domain:"; AStr domain] ;;
      ret undefined
  | logoUrl :: rest =>
      console_log [AStr ("Trying logo source: " ++ logoUrl)] ;;
      result <- fetchImageToBase64 logoUrl ;;
      if truthy result then
        console_log [AStr ("Successfully fetched logo from: " ++ logoUrl)] ;;
        ret result
      else trySources domain rest
  end.

Definition fetchLogoFromUrl (websiteUrl : string) : IO jstr :=
  try_catch
    (match hostname h websiteUrl with
     | None => throw (TypeError "Invalid URL")
     | Some domain => trySources domain (sources domain)
     end)
    (fun e =>
       console_warn [AStr "Invalid URL for logo fetching"; AExn e] ;;
       ret undefined).

End Service.

(** ** The brand's data ([types.ts]) *)

Inductive AssetType : Type := MERCHANDISE | MARKETING | DIGITAL | VIDEO.

Definition showType (t : AssetType) : string :=
  match t with
  | MERCHANDISE => "MERCHANDISE"
  | MARKETING => "MARKETING"
  | DIGITAL => "DIGITAL"
  | VIDEO => "VIDEO"
  end.

Record BrandDNA : Type := mkBrandDNA {
  name : string;
  description : string;
  websiteUrl : jstr;
  colors : list string;
  typography : string;
  visualEssence : string;
  designSystem : string;
  keywords : list string;
  logoImage : jstr
}.

Record Inspiration : Type := mkInspiration {
  id : string;
  imageUrl : string;
  note : string;                 (* the field [description] of an inspiration *)
  extractedCues : list string
}.

(** [n] in decimal, as a template literal prints it. *)
Definition showNat (n : nat) : string := NilZero.string_of_uint (Nat.to_uint n).

(** ** Prompt composition *)

Section Prompt.

Variable h : Host.

(** [inspirations.map(i => i.extractedCues.join(", ")).join("; ")]. *)
Definition cuesOf (inspirations : list Inspiration) : string :=
  join "; " (map (fun i => join ", " (extractedCues i)) inspirations).

Definition logoInstructionOf (dna : BrandDNA) : string :=
  if truthy (logoImage dna)
  then "IMPORTANT: Incorporate the provided Logo image into the design. It should be clearly visible, undistorted, and placed appropriately for this item."
  else "The design incorporates the brand name " ++ dq ++ name dna ++ dq ++ " stylized as a logo.".

(** [specificInstruction ? `Instruction: ${specificInstruction}` : ''] *)
Definition instructionLineOf (specificInstruction : jstr) : string :=
  if truthy specificInstruction then "Instruction: " ++ show specificInstruction else "".

Definition getGarmentDetails (subtype : string) : string :=
  let st := toLowerCase h subtype in
  if includes st "hoodie" then
    "A pullover hoodie with a drawstring hood, kangaroo front pocket, and ribbed cuffs and hem. This is specifically a HOODIE with long sleeves and a hood, NOT a t-shirt."
  else if includes st "t-shirt" || includes st "tshirt" then
    "A short-sleeved t-shirt with a crew neck. This is specifically a T-SHIRT with short sleeves and no hood, NOT a hoodie."
  else if includes st "cap" || includes st "hat" then
    "A baseball cap with curved brim and adjustable back strap."
  else if includes st "tote" then
    "A canvas tote bag with sturdy handles."
  else if includes st "mug" then
    "A ceramic coffee mug with a handle."
  else "A " ++ subtype.

(** The closing template, shared by the revisions. *)
Definition finalPromptOf (dna : BrandDNA) (basePrompt instructionLine inspirationCues : string) : string :=
  nl ++
  "    " ++ basePrompt ++ nl ++
  "    " ++ instructionLine ++ nl ++
  "    " ++ nl ++
  "    BRAND DNA CONTEXT:" ++ nl ++
  "    - Keywords: " ++ join ", " (keywords dna) ++ nl ++
  "    " ++ nl ++
  "    INSPIRATION CUES (Apply these artistic styles to the graphic design/layout):" ++ nl ++
  "    " ++ inspirationCues ++ nl ++
  "    " ++ nl ++
  "    REQUIREMENTS:" ++ nl ++
  "    - Realism: Photorealistic (unless specified otherwise)." ++ nl ++
  "    - Quality: Production ready, sharp focus." ++ nl ++
  "    - Consistency: Adhere strictly to the color palette." ++ nl ++
  "  ".

Definition marketingPrompt (dna : BrandDNA) (subtype logoInstruction : string) : string :=
  nl ++
  "        A professional " ++ subtype ++ " design for the brand " ++ dq ++ name dna ++ dq ++ "." ++ nl ++
  "        Layout: Modern, clean, and high-impact." ++ nl ++
  "        " ++ logoInstruction ++ nl ++
  "        Visuals: Incorporate the brand colors (" ++ join ", " (colors dna) ++ ") and typography (" ++ typography dna ++ ")." ++ nl ++
  "        Content: It should convey the vibe: " ++ visualEssence dna ++ "." ++ nl ++
  "      ".

Definition digitalPrompt (dna : BrandDNA) (subtype logoInstruction : string) : string :=
  nl ++
  "        A digital asset: " ++ subtype ++ " for the brand " ++ dq ++ name dna ++ dq ++ "." ++ nl ++
  "        Style: Optimized for screens, UI/UX friendly, digital art style." ++ nl ++
  "        " ++ logoInstruction ++ nl ++
  "        Colors: " ++ join ", " (colors dna) ++ "." ++ nl ++
  "        Vibe: " ++ visualEssence dna ++ "." ++ nl ++
  "      ".

Definition defaultPrompt (dna : BrandDNA) (subtype : string) : string :=
  "A creative brand asset (" ++ subtype ++ ") for " ++ dq ++ name dna ++ dq ++ ".".

End Prompt.

(** ** Requests in flight *)

(** Start a call without awaiting it: the call is issued and its promise,
    whose settlement the oracle fixes from the calls issued before it, is
    handed back. *)
Definition spawn {A} (c : Call) (answer : list Call -> Outcome A) : IO (Outcome A) :=
  fun w => (Value (answer (calls w)), mkWorld (console w) (calls w ++ [c])).

(** The settlement of [Promise.all]: every value, or a rejection.  Of several
    rejections the one that stands first in the array is kept. *)
Fixpoint settleAll {A} (promises : list (Outcome A)) : Outcome (list A) :=
  match promises with
  | [] => Value []
  | Throw e :: _ => Throw e
  | Value a :: rest =>
      match settleAll rest with
      | Value l => Value (a :: l)
      | Throw e => Throw e
      end
  end.

(** [await Promise.all(promises)]. *)
Definition Promise_all {A} (promises : list (Outcome A)) : IO (list A) :=
  await (settleAll promises).

Section Generation.

Variable h : Host.

Definition generate (req : GenRequest) : IO GenResponse :=
  issue (GenerateContent req) (fun past => generateContent h past req).

(** [items.map(x => ai.models.generateContent(...))] where building the
    request of an item may write to the console. *)
Fixpoint spawnEach {X} (request : nat -> X -> IO GenRequest) (idx : nat) (items : list X)
  : IO (list (Outcome GenResponse)) :=
  match items with
  | [] => ret []
  | x :: rest =>
      req <- request idx x ;;
      p <- spawn (GenerateContent req) (fun past => generateContent h past req) ;;
      ps <- spawnEach request (S idx) rest ;;
      ret (p :: ps)
  end.

(** [`data:image/png;base64,${part.inlineData.data}`] *)
Definition dataUrl (d : InlineData) : string := "data:image/png;base64," ++ show (data d).

(** [parts.forEach(part => { if (part.inlineData) { images.push(...); log } })] *)
Fixpoint forEachPart (onImage : IO unit) (l : list Part) (images : list string) : IO (list string) :=
  match l with
  | [] => ret images
  | part :: rest =>
      match inlineData part with
      | Some d => onImage ;; forEachPart onImage rest (images ++ [dataUrl d])
      | None => forEachPart onImage rest images
      end
  end.

(** [res.candidates?.length || 0] *)
Definition candidateCount (res : GenResponse) : nat :=
  match candidates res with
  | Some l => length l
  | None => 0
  end.

(** [responses.forEach((res, idx) => ...)] *)
Fixpoint forEachResponse (onImage : nat -> IO unit) (idx : nat) (responses : list GenResponse)
    (images : list string) : IO (list string) :=
  match responses with
  | [] => ret images
  | res :: rest =>
      console_log [AStr ("🎨 [DRAFT " ++ showNat (idx + 1) ++ "] Candidates:"); ANat (candidateCount res)] ;;
      images' <- match firstParts res with
                 | Some l => forEachPart (onImage idx) l images
                 | None => ret images
                 end ;;
      forEachResponse onImage (S idx) rest images'
  end.

(** [for (const part of parts || []) { if (part.inlineData) return ... }] *)
Fixpoint firstImage (l : list Part) : option string :=
  match l with
  | [] => None
  | part :: rest =>
      match inlineData part with
      | Some d => Some (dataUrl d)
      | None => firstImage rest
      end
  end.

Definition firstImageOf (res : GenResponse) : option string :=
  match firstParts res with
  | Some l => firstImage l
  | None => None
  end.

(** *** Video generation *)

Definition visualizationPrompt (subtype : string) : string :=
  if includes (toLowerCase h subtype) "hoodie" || includes (toLowerCase h subtype) "shirt" then
    "A cinematic video of a fashion model walking down a city street wearing this exact clothing item. Realistic fabric physics, 4k."
  else if includes (toLowerCase h subtype) "billboard" then
    "A cinematic video from a moving car driving past a large highway billboard displaying this exact advertisement. Realistic lighting, 4k."
  else
    "A cinematic commercial showcase of this product, rotating slowly in a studio environment.".

Definition videoRequest (model prompt assetImage : string) : VideoRequest :=
  mkVideoRequest model prompt (payload assetImage) "image/png" 1 "720p" "16:9".

Definition startVideo (req : VideoRequest) : IO Operation :=
  issue (GenerateVideos req) (fun past => generateVideos h past req).

(** One turn of a polling loop: sleep five seconds, fetch the handle again. *)
Definition pollOnce (operation : Operation) : IO Operation :=
  sleep 5000 ;;
  issue (GetVideosOperation operation) (fun past => getVideosOperation h past operation).

Definition pollLine (tag : string) (pollCount : nat) (operation : Operation) : LogArg :=
  AStr (tag ++ " Poll " ++ showNat pollCount ++ ": " ++
        (if done operation then "COMPLETE" else "In progress...")).

(** [while (!operation.done) { ... }]: the loop has no bound of its own, so
    the model runs it for at most [fuel] turns; [None] says it was still
    polling when the fuel ran out. *)
Fixpoint pollUntilDone (fuel : nat) (operation : Operation) (pollCount : nat)
  : IO (option (Operation * nat)) :=
  if done operation then ret (Some (operation, pollCount))
  else
    match fuel with
    | 0 => ret None
    | S fuel' =>
        operation' <- pollOnce operation ;;
        console_log [pollLine "🎬 [VIDEO]" (S pollCount) operation'] ;;
        pollUntilDone fuel' operation' (S pollCount)
    end.

(** [`${videoUri}&key=${process.env.API_KEY}`] *)
Definition keyed (videoUri : jstr) : string := show videoUri ++ "&key=" ++ show (API_KEY h).

(** [generateVisualizationVideo] of the first and third revisions, which
    differ in the model's name. *)
Definition visualizationVideo (model : string) (fuel : nat) (assetImage subtype : string)
  : IO (option string) :=
  getClient h ;;
  let prompt := visualizationPrompt subtype in
  console_log [AStr ("🎬 [VIDEO] Model: " ++ model)] ;;
  console_log [AStr "🎬 [VIDEO] Prompt:"; AStr prompt] ;;
  console_log [AStr "🎬 [VIDEO] Subtype:"; AStr subtype] ;;
  operation <- startVideo (videoRequest model prompt assetImage) ;;
  console_log [AStr "🎬 [VIDEO] Operation started, polling for completion..."] ;;
  polled <- pollUntilDone fuel operation 0 ;;
  match polled with
  | None => ret None
  | Some (operation, _) =>
      let videoUri := videoUriOf operation in
      if negb (truthy videoUri) then
        console_error [AStr "❌ [VIDEO] No video URI in response"] ;;
        throw (Error "Video generation failed")
      else
        console_log [AStr "✅ [VIDEO] Video generated successfully:"; AJstr videoUri] ;;
        ret (Some (keyed videoUri))
  end.

End Generation.

(** ** First revision of the service file *)

Module V1.
Section Code.

Variable h : Host.

Definition merchandisePrompt (dna : BrandDNA) (subtype garmentDetails primaryColor accentColor logoInstruction : string) : string :=
  nl ++
  "        CRITICAL INSTRUCTION: You MUST generate exactly a " ++ dq ++ subtype ++ dq ++ " and nothing else. Pay careful attention to the garment type." ++ nl ++
  "        " ++ nl ++
  "        " ++ garmentDetails ++ nl ++
  "        " ++ nl ++
  "        PRODUCT DETAILS:" ++ nl ++
  "        - Item: " ++ subtype ++ " (follow the exact specifications above)" ++ nl ++
  "        - Base fabric/material color: " ++ primaryColor ++ nl ++
  "        - Features a bold, eye-catching graphic design printed on the front" ++ nl ++
  "        - Material: High-quality, premium fabric/material with visible texture" ++ nl ++
  "        - Photography style: Professional product photography, studio setting" ++ nl ++
  "        - Background: Clean, neutral (white or light gray)" ++ nl ++
  "        - Lighting: Soft, even studio lighting with subtle shadows" ++ nl ++
  "        - Resolution: 4K quality with highly detailed fabric/material texture" ++ nl ++
  "        " ++ nl ++
  "        DESIGN ELEMENTS:" ++ nl ++
  "        " ++ logoInstruction ++ nl ++
  "        - Design vibe: " ++ visualEssence dna ++ nl ++
  "        - Accent color in design: " ++ accentColor ++ nl ++
  "        - Design should be centered and prominent" ++ nl ++
  "        " ++ nl ++
  "        CRITICAL: This must be a " ++ subtype ++ ", not any other garment type. Verify the garment matches " ++ dq ++ subtype ++ dq ++ " exactly." ++ nl ++
  "      ".

(** The string [buildPrompt] returns. *)
Definition promptText (dna : BrandDNA) (inspirations : list Inspiration)
    (type : AssetType) (subtype : string) (specificInstruction : jstr) : string :=
  let inspirationCues := cuesOf inspirations in
  let primaryColor := or_else (index (colors dna) 0) "white" in
  let accentColor := or_else (index (colors dna) 1) "black" in
  let logoInstruction := logoInstructionOf dna in
  let basePrompt :=
    match type with
    | MERCHANDISE =>
        let garmentDetails := getGarmentDetails h subtype in
        merchandisePrompt dna subtype garmentDetails primaryColor accentColor logoInstruction
    | MARKETING => marketingPrompt dna subtype logoInstruction
    | DIGITAL => digitalPrompt dna subtype logoInstruction
    | VIDEO => defaultPrompt dna subtype
    end in
  finalPromptOf dna basePrompt (instructionLineOf specificInstruction) inspirationCues.

Definition buildPrompt (dna : BrandDNA) (inspirations : list Inspiration)
    (type : AssetType) (subtype : string) (specificInstruction : jstr) : IO string :=
  let finalPrompt := promptText dna inspirations type subtype specificInstruction in
  console_log [AStr "📝 [PROMPT BUILDER]";
               AObj [("type", VStr (showType type));
                     ("subtype", VStr subtype);
                     ("brandName", VStr (name dna));
                     ("colors", VList (colors dna));
                     ("hasLogo", VBool (truthy (logoImage dna)));
                     ("inspirationCount", VNat (length inspirations));
                     ("promptLength", VNat (strlen h finalPrompt))]] ;;
  console_log [AStr "📝 [FULL PROMPT]:"; AStr finalPrompt] ;;
  ret finalPrompt.

Definition draftRequest (parts : list Part) : GenRequest :=
  mkGenRequest "gemini-3-pro-image-preview" parts (Some (mkImageConfig (Some "1:1") None)).

Definition draftLogged (idx : nat) : IO unit :=
  console_log [AStr ("✅ [DRAFT " ++ showNat (idx + 1) ++ "] Image generated successfully")].

(** Phase 1: four requests with the same parts. *)
Definition generateDrafts (dna : BrandDNA) (inspirations : list Inspiration)
    (type : AssetType) (subtype : string) : IO (list string) :=
  getClient h ;;
  promptText <- buildPrompt dna inspirations type subtype (str "Create 4 distinct variations.") ;;
  console_log [AStr "🎨 [DRAFT GENERATION] Starting...";
               AObj [("type", VStr (showType type)); ("subtype", VStr subtype);
                     ("hasLogo", VBool (truthy (logoImage dna)))]] ;;
  parts <- (if truthy (logoImage dna) then
              console_log [AStr "🖼️  [DRAFT GENERATION] Adding logo to parts"] ;;
              ret [textPart promptText;
                   imagePart (show (logoImage dna));
                   textPart "Use the image above as the Brand Logo referenced in the prompt. Place it naturally on the product."]
            else ret [textPart promptText]) ;;
  console_log [AStr "🎨 [DRAFT GENERATION] Using model: gemini-3-pro-image-preview"] ;;
  promises <- spawnEach h (fun _ _ => ret (draftRequest parts)) 0 (repeat 0 4) ;;
  responses <- Promise_all promises ;;
  images <- forEachResponse draftLogged 0 responses [] ;;
  console_log [AStr ("🎨 [DRAFT GENERATION] Complete. Generated " ++ showNat (length images) ++ " images")] ;;
  ret images.

(** Phase 2: the instruction is sent as it is. *)
Definition editRequest (originalImage : string) (maskImage : jstr) (instruction : string) : GenRequest :=
  mkGenRequest "gemini-3-pro-image-preview"
    ([imagePart originalImage; textPart instruction] ++
     (if truthy maskImage then
        [imagePart (show maskImage);
         textPart "Use the second image as a sketch/mask guidance for the changes."]
      else []))%list
    None.

Definition editAsset (originalImage : string) (maskImage : jstr) (instruction : string) : IO string :=
  getClient h ;;
  console_log [AStr "✏️  [EDIT ASSET] Instruction:"; AStr instruction] ;;
  console_log [AStr "✏️  [EDIT ASSET] Has mask:"; AVal (VBool (truthy maskImage))] ;;
  console_log [AStr "✏️  [EDIT ASSET] Using model: gemini-3-pro-image-preview"] ;;
  response <- generate h (editRequest originalImage maskImage instruction) ;;
  console_log [AStr "✏️  [EDIT ASSET] Response received"] ;;
  match firstImageOf response with
  | Some image => ret image
  | None => throw (Error "Editing failed")
  end.

(** Phase 4. *)
Definition generateVisualizationVideo : nat -> string -> string -> IO (option string) :=
  visualizationVideo h "veo-2.0-generate-exp".

End Code.
End V1.

(** ** Second revision of the service file *)

(** [buildPrompt] of this revision; its other functions are in [V2Service]
    below. *)

Module V2.
Section Code.

Variable h : Host.

Definition merchandisePrompt (dna : BrandDNA) (subtype primaryColor accentColor logoInstruction : string) : string :=
  nl ++
  "        A professional, photorealistic product photography shot of a physical " ++ subtype ++ "." ++ nl ++
  "        The " ++ subtype ++ " is made of high-quality material." ++ nl ++
  "        The base color of the item is " ++ primaryColor ++ "." ++ nl ++
  "        It features a prominent graphic design printed on it." ++ nl ++
  "        " ++ logoInstruction ++ nl ++
  "        The design reflects this vibe: " ++ visualEssence dna ++ "." ++ nl ++
  "        The design uses the accent color: " ++ accentColor ++ "." ++ nl ++
  "        Lighting: Clean studio lighting, neutral background, 4k, highly detailed fabric texture." ++ nl ++
  "      ".

(** This revision writes nothing to the console. *)
Definition buildPrompt (dna : BrandDNA) (inspirations : list Inspiration)
    (type : AssetType) (subtype : string) (specificInstruction : jstr) : IO string :=
  let inspirationCues := cuesOf inspirations in
  let primaryColor := or_else (index (colors dna) 0) "white" in
  let accentColor := or_else (index (colors dna) 1) "black" in
  let logoInstruction := logoInstructionOf dna in
  let basePrompt :=
    match type with
    | MERCHANDISE => merchandisePrompt dna subtype primaryColor accentColor logoInstruction
    | MARKETING => marketingPrompt dna subtype logoInstruction
    | DIGITAL => digitalPrompt dna subtype logoInstruction
    | VIDEO => defaultPrompt dna subtype
    end in
  ret (finalPromptOf dna basePrompt (instructionLineOf specificInstruction) inspirationCues).

End Code.
End V2.

(** ** Third revision of the service file *)

Module V3.

(** The scene of a real-world preview, chosen from the subtype. *)
Inductive Scene : Type := Apparel | Billboard | Poster | Headwear | Bag | Showcase.

Record Variation : Type := mkVariation { v_name : string; instruction : string }.

Section Code.

Variable h : Host.

(** [JSON.stringify(promptJson, null, 2)] for the object literal of a scene:
    the text of the six literals plays no part in the control flow and is
    left to this function. *)
Variable sceneJson : Scene -> string -> BrandDNA -> string.

(** The text of [buildPrompt] is that of the first revision. *)
Definition buildPrompt := V1.buildPrompt h.

Definition variations (dna : BrandDNA) (inspirations : list Inspiration) : list Variation :=
  [ mkVariation "Minimal"
      "Create a minimal, clean design with simple elements. Focus on typography and negative space. Keep it understated and elegant.";
    mkVariation "Bold"
      ("Use the primary keywords: " ++ join ", " (slice0 2 (keywords dna)) ++
       ". Make it bold and striking with strong visual elements.");
    mkVariation "Artistic"
      (match inspirations with
       | first :: _ =>
           "Apply these visual styles heavily: " ++ join ", " (slice0 3 (extractedCues first)) ++
           ". Be creative and experimental."
       | [] =>
           "Creative interpretation of " ++ visualEssence dna ++
           ". Add artistic flair and unique styling."
       end);
    mkVariation "Vibrant"
      ("Emphasize the brand colors " ++ join ", " (colors dna) ++
       ". Create a vibrant, energetic design with maximum visual impact.") ].

Definition draftRequest (parts : list Part) : GenRequest :=
  mkGenRequest "gemini-3-pro-image-preview" parts
    (Some (mkImageConfig (Some "1:1") (Some "512"))).

(** [variations[idx].name] in the success line. *)
Definition draftLogged (vs : list Variation) (idx : nat) : IO unit :=
  match nth_error vs idx with
  | Some v =>
      console_log [AStr ("✅ [DRAFT " ++ showNat (idx + 1) ++ "] " ++ v_name v ++ " image generated")]
  | None => throw (TypeError "Cannot read properties of undefined (reading 'name')")
  end.

(** Phase 1: four requests, one creative angle each. *)
Definition generateDrafts (dna : BrandDNA) (inspirations : list Inspiration)
    (type : AssetType) (subtype : string) : IO (list string) :=
  getClient h ;;
  console_log [AStr "🎨 [DRAFT GENERATION] Starting...";
               AObj [("type", VStr (showType type)); ("subtype", VStr subtype);
                     ("hasLogo", VBool (truthy (logoImage dna)))]] ;;
  let vs := variations dna inspirations in
  parts <- (if truthy (logoImage dna) then
              console_log [AStr "🖼️  [DRAFT GENERATION] Adding logo to parts"] ;;
              ret [imagePart (show (logoImage dna));
                   textPart "Use the image above as the Brand Logo. Incorporate it into the design."]
            else ret []) ;;
  console_log [AStr "🎨 [DRAFT GENERATION] Using model: gemini-3-pro-image-preview with low resolution"] ;;
  promises <- spawnEach h
                (fun idx variation =>
                   promptText <- buildPrompt dna inspirations type subtype (str (instruction variation)) ;;
                   console_log [AStr ("🎨 [DRAFT " ++ showNat (idx + 1) ++ "] " ++ v_name variation ++ " variant")] ;;
                   ret (draftRequest (parts ++ [textPart promptText])%list))
                0 vs ;;
  responses <- Promise_all promises ;;
  images <- forEachResponse (draftLogged vs) 0 responses [] ;;
  console_log [AStr ("🎨 [DRAFT GENERATION] Complete. Generated " ++ showNat (length images) ++ " images")] ;;
  ret images.

(** *** analyzeAnnotations *)

Definition annotationPrompt (userInstruction : string) : string :=
  "The user has annotated this image with bright green highlights to indicate areas they want to modify. User's instruction: " ++ dq ++ userInstruction ++ dq ++ nl ++
  nl ++
  "Analyze the annotated regions and the user's instruction, then create a detailed, specific prompt for image editing that:" ++ nl ++
  "1. Identifies what objects/areas are highlighted" ++ nl ++
  "2. Understands what the user wants to change based on the instruction and context" ++ nl ++
  "3. Provides clear editing instructions" ++ nl ++
  nl ++
  "Respond with ONLY the improved editing prompt, nothing else.".

Definition annotationRequest (annotatedImage userInstruction : string) : GenRequest :=
  mkGenRequest "gemini-2.0-flash-exp"
    [imagePart annotatedImage; textPart (annotationPrompt userInstruction)] None.

(** [response.candidates?.[0]?.content?.parts?.[0]?.text] *)
Definition firstText (res : GenResponse) : jstr :=
  match firstParts res with
  | Some (part :: _) =>
      match text part with
      | Some t => str t
      | None => undefined
      end
  | _ => undefined
  end.

Definition analyzeAnnotations (annotatedImage userInstruction : string) : IO string :=
  getClient h ;;
  console_log [AStr "🔍 [ANALYZE ANNOTATIONS] Analyzing user annotations..."] ;;
  response <- generate h (annotationRequest annotatedImage userInstruction) ;;
  let improvedPrompt := or_else (firstText response) userInstruction in
  console_log [AStr "🔍 [ANALYZE ANNOTATIONS] Improved prompt:"; AStr improvedPrompt] ;;
  ret improvedPrompt.

(** *** editAsset *)

Definition maskedEditText (finalInstruction : string) : string :=
  "Edit this image based on the following instruction. The bright green annotations show the areas to modify: " ++ finalInstruction ++ ". " ++ nl ++
  nl ++
  "IMPORTANT: " ++ nl ++
  "- PRESERVE all original details, elements, colors, text, and composition EXACTLY as they are" ++ nl ++
  "- ONLY modify the specific areas marked with bright green annotations" ++ nl ++
  "- DO NOT remove or change anything unless explicitly instructed to do so" ++ nl ++
  "- Remove all green annotations from the final result and return a clean edited image" ++ nl ++
  "- Keep the same style, quality, and overall look of the original".

Definition plainEditText (finalInstruction : string) : string :=
  finalInstruction ++ nl ++
  nl ++
  "IMPORTANT:" ++ nl ++
  "- PRESERVE all original details, elements, colors, text, and composition EXACTLY as they are  " ++ nl ++
  "- ONLY make the specific changes requested in the instruction" ++ nl ++
  "- DO NOT remove or change anything unless explicitly instructed to do so" ++ nl ++
  "- Keep the same style, quality, and overall look of the original".

Definition editRequest (imageToUse : string) (maskImage : jstr) (finalInstruction : string) : GenRequest :=
  mkGenRequest "gemini-3-pro-image-preview"
    [imagePart imageToUse;
     textPart (if truthy maskImage then maskedEditText finalInstruction
               else plainEditText finalInstruction)]
    (Some (mkImageConfig None (Some "512"))).

Definition editAsset (originalImage : string) (maskImage : jstr) (instruction : string) : IO string :=
  getClient h ;;
  console_log [AStr "✏️  [EDIT ASSET] Instruction:"; AStr instruction] ;;
  console_log [AStr "✏️  [EDIT ASSET] Has mask:"; AVal (VBool (truthy maskImage))] ;;
  prepared <- (if truthy maskImage then
                 finalInstruction <- analyzeAnnotations (show maskImage) instruction ;;
                 ret (finalInstruction, show maskImage)
               else ret (instruction, originalImage)) ;;
  let '(finalInstruction, imageToUse) := prepared in
  console_log [AStr "✏️  [EDIT ASSET] Using model: gemini-3-pro-image-preview with low resolution"] ;;
  response <- generate h (editRequest imageToUse maskImage finalInstruction) ;;
  console_log [AStr "✏️  [EDIT ASSET] Response received"] ;;
  match firstImageOf response with
  | Some image => ret image
  | None => throw (Error "Editing failed")
  end.

(** *** generateRealWorldPreview *)

Definition sceneOf (subtype : string) : Scene :=
  let st := toLowerCase h subtype in
  if includes st "hoodie" || includes st "shirt" || includes st "tshirt" || includes st "t-shirt" then Apparel
  else if includes st "billboard" then Billboard
  else if includes st "banner" || includes st "poster" then Poster
  else if includes st "cap" || includes st "hat" then Headwear
  else if includes st "tote" || includes st "bag" then Bag
  else Showcase.

Definition previewPrompt (subtype : string) (brandDNA : BrandDNA) : string :=
  "Generate video based on this scene direction:" ++ nl ++ nl ++
  sceneJson (sceneOf subtype) subtype brandDNA ++ nl ++ nl ++
  "Brand: " ++ name brandDNA.

(** The polls the loop below may still make. *)
Definition pollsLeft (pollCount : nat) : nat := 60 - pollCount.
Arguments pollsLeft : simpl never.

(** [while (!operation.done && pollCount < 60) { ... }] *)
Equations? previewLoop (operation : Operation) (pollCount : nat) (w : World)
  : Outcome (Operation * nat) * World by wf (pollsLeft pollCount) lt :=
previewLoop operation pollCount w with inspect (negb (done operation) && (pollCount <? 60)%nat) := {
  | exist _ false _ := (Value (operation, pollCount), w) ;
  | exist _ true more with pollOnce h operation w := {
      | (Throw e, w') := (Throw e, w') ;
      | (Value operation', w') :=
          previewLoop operation' (S pollCount)
            (world (console_log [pollLine "🎬 [PREVIEW]" (S pollCount) operation'] w')) } }.
Proof.
  apply andb_prop in more. destruct more as [_ more].
  apply Nat.ltb_lt in more. unfold pollsLeft. lia.
Qed.

Definition generateRealWorldPreview (assetImage subtype : string) (brandDNA : BrandDNA) : IO string :=
  getClient h ;;
  let prompt := previewPrompt subtype brandDNA in
  console_log [AStr "🎬 [PREVIEW] Model: veo-3.1-generate-preview"] ;;
  console_log [AStr "🎬 [PREVIEW] JSON Prompt:"; AStr (sceneJson (sceneOf subtype) subtype brandDNA)] ;;
  console_log [AStr "🎬 [PREVIEW] Subtype:"; AStr subtype] ;;
  operation <- startVideo h (videoRequest "veo-3.1-generate-preview" prompt assetImage) ;;
  console_log [AStr "🎬 [PREVIEW] Operation started, polling..."] ;;
  polled <- previewLoop operation 0 ;;
  let videoUri := videoUriOf (fst polled) in
  if negb (truthy videoUri) then
    console_error [AStr "❌ [PREVIEW] No video URI in response"] ;;
    throw (Error "Preview generation failed")
  else
    console_log [AStr "✅ [PREVIEW] Video generated successfully:"; AJstr videoUri] ;;
    ret (keyed h videoUri).

(** Phase 4. *)
Definition generateVisualizationVideo : nat -> string -> string -> IO (option string) :=
  visualizationVideo h "veo-3.1-generate-preview".

End Code.
End V3.

(** ** The brand form ([components/BrandManager.tsx]) *)

Module BrandManager.

Record FormData : Type := mkFormData {
  f_name : string;
  f_description : string;
  url : string
}.

(** The component's state. *)
Record State : Type := mkState {
  isEditing : bool;
  isGenerating : bool;
  isFetchingLogo : bool;
  loadingStatus : string;
  logoError : option string;
  formData : FormData;
  logoPreview : jstr            (* the uploaded logo, or one fetched when the URL field lost focus *)
}.

(** What a handler did besides updating the state. *)
Record Effects : Type := mkEffects {
  saved : list BrandDNA;        (* the calls of [onSave] *)
  alerts : list string;
  errors : list exn             (* console.error *)
}.

(** [a || b] *)
Definition jor (a b : jstr) : jstr := if truthy a then a else b.

(** [{ ...result, logoImage }] *)
Definition withLogo (result : BrandDNA) (logo : jstr) : BrandDNA :=
  mkBrandDNA (name result) (description result) (websiteUrl result) (colors result)
             (typography result) (visualEssence result) (designSystem result)
             (keywords result) logo.

Definition extractionWarning : string :=
  "⚠️ Auto-extraction failed. Please upload logo manually to prevent random generation.".

Section Handlers.

(** [generateBrandDNA(name, description, url, onStatusUpdate)]: the statuses
    it reports, in order, and how it settles. *)
Variable generateBrandDNA : string -> string -> string -> list string * Outcome BrandDNA.

(** [handleSubmit]: the handler reads [formData] and [logoPreview] of the
    render it was created in. *)
Definition handleSubmit (s : State) : State * Effects :=
  let form := formData s in
  (* setLogoError(null); setIsGenerating(true); setLoadingStatus(...) *)
  let '(statuses, outcome) := generateBrandDNA (f_name form) (f_description form) (url form) in
  let status := last statuses "Initializing Agent..." in
  match outcome with
  | Value result =>
      if negb (url form =? "") && negb (truthy (logoImage result)) && negb (truthy (logoPreview s))
      then
        (* setLogoError(...); setIsGenerating(false); return; finally *)
        (mkState (isEditing s) false (isFetchingLogo s) status (Some extractionWarning)
                 form (logoPreview s),
         mkEffects [] [] [])
      else
        let finalDNA := withLogo result (jor (logoPreview s) (logoImage result)) in
        (* onSave(finalDNA); setLogoPreview(finalDNA.logoImage); setIsEditing(false); finally *)
        (mkState false false (isFetchingLogo s) status None form (logoImage finalDNA),
         mkEffects [finalDNA] [] [])
  | Throw e =>
      (* console.error(e); alert(...); finally *)
      (mkState (isEditing s) false (isFetchingLogo s) status None form (logoPreview s),
       mkEffects [] ["Failed to create Brand DNA. Please try again."] [e])
  end.

End Handlers.

End BrandManager.

(** ** A concrete host for examples *)

Module Demo.

Definition lowerAscii (c : ascii) : ascii :=
  let n := nat_of_ascii c in
  if ((65 <=? n) && (n <=? 90))%nat then ascii_of_nat (n + 32) else c.

Fixpoint lower (s : string) : string :=
  match s with
  | EmptyString => EmptyString
  | String c rest => String (lowerAscii c) (lower rest)
  end.

Definition hexDigit (n : nat) : ascii :=
  if (n <? 10)%nat then ascii_of_nat (48 + n) else ascii_of_nat (55 + n).

(** The characters [encodeURIComponent] leaves alone. *)
Definition unreserved (c : ascii) : bool :=
  let n := nat_of_ascii c in
  (((65 <=? n) && (n <=? 90)) || ((97 <=? n) && (n <=? 122)) ||
   ((48 <=? n) && (n <=? 57)))%nat ||
  existsb (Nat.eqb n) [45; 95; 46; 33; 126; 42; 39; 40; 41].

Fixpoint encode (s : string) : string :=
  match s with
  | EmptyString => EmptyString
  | String c rest =>
      if unreserved c then String c (encode rest)
      else
        let n := nat_of_ascii c in
        String "%" (String (hexDigit (n / 16)) (String (hexDigit (n mod 16)) (encode rest)))
  end.

Fixpoint untilDelimiter (s : string) : string :=
  match s with
  | EmptyString => EmptyString
  | String c rest =>
      if existsb (Ascii.eqb c) ["/"%char; "?"%char; "#"%char; ":"%char] then EmptyString
      else String c (untilDelimiter rest)
  end.

Definition afterScheme (s : string) : option string :=
  if String.prefix "https://" s then Some (substring 8 (String.length s - 8) s)
  else if String.prefix "http://" s then Some (substring 7 (String.length s - 7) s)
  else None.

(** The host name of an absolute http(s) URL; a string with no scheme is
    not a URL, and [new URL] throws on it. *)
Definition hostOf (s : string) : option string :=
  match afterScheme s with
  | Some rest =>
      let d := lower (untilDelimiter rest) in
      if d =? "" then None else Some d
  | None => None
  end.

Definition png (name : string) : Response :=
  mkResponse true (str "image/png") (Value (mkBlob (str ("data:image/png;base64," ++ name)))).

Definition html : Response :=
  mkResponse true (str "text/html; charset=utf-8") (Value (mkBlob (str "data:text/html;base64,PGh0bWw+"))).

Definition notFound : Response :=
  mkResponse false (str "text/plain") (Value (mkBlob (str "data:text/plain;base64,"))).

Definition noHeader : Response :=
  mkResponse true null (Value (mkBlob (str "data:application/octet-stream;base64,AAAA"))).

Definition offline : exn := TypeError "Failed to fetch".

(** A host with a key whose services answer as given. *)
Definition host
  (fetch : list Call -> string -> Outcome Response)
  (generateContent : list Call -> GenRequest -> Outcome GenResponse)
  (generateVideos : list Call -> VideoRequest -> Outcome Operation)
  (getVideosOperation : list Call -> Operation -> Outcome Operation) : Host :=
  mkHost (str "KEY") lower encode hostOf String.length
         fetch generateContent generateVideos getVideosOperation.

Definition noContent : list Call -> GenRequest -> Outcome GenResponse :=
  fun _ _ => Value (mkGenResponse None).
Definition noVideos : list Call -> VideoRequest -> Outcome Operation :=
  fun _ _ => Value (mkOperation false None).
Definition noProgress : list Call -> Operation -> Outcome Operation :=
  fun _ _ => Value (mkOperation false None).

(** A host that only serves HTTP. *)
Definition web (fetch : list Call -> string -> Outcome Response) : Host :=
  host fetch noContent noVideos noProgress.

(** A host whose video jobs never complete. *)
Definition stalled : Host := web (fun _ _ => Throw offline).

Definition finished (videoUri : option string) : Operation :=
  mkOperation true (Some (mkVideosResponse (Some [mkGeneratedVideo (Some (mkVideo videoUri))]))).

(** A host whose video jobs are complete at once, with the given result. *)
Definition completing (videoUri : option string) : Host :=
  host (fun _ _ => Throw offline) noContent (fun _ _ => Value (finished videoUri)) noProgress.

(** A host whose video jobs complete on the second poll. *)
Definition rendering (videoUri : string) : Host :=
  host (fun _ _ => Throw offline) noContent noVideos
       (fun past _ => if (length past <? 4)%nat then Value (mkOperation false None)
                      else Value (finished (Some videoUri))).

Definition scene : V3.Scene -> string -> BrandDNA -> string := fun _ _ _ => "{}".

Definition acme : BrandDNA :=
  mkBrandDNA "Acme" "Rocket skates" undefined [] "Inter" "bold and fast" "rules"
             ["fast"; "clean"] undefined.

Definition image (payload : string) : Part :=
  mkPart None (Some (mkInlineData "image/png" (str payload))).

Definition answer (l : list Part) : GenResponse :=
  mkGenResponse (Some [mkCandidate (Some (mkContent (Some l)))]).

End Demo.

(** ** Vocabulary of the properties *)

(** The ways a fetch fails to deliver an image. *)
Inductive FetchFailure : Outcome Response -> Prop :=
| NetworkException e : FetchFailure (Throw e)
| NotOk r : ok r = false -> FetchFailure (Value r)
| NoContentType r : truthy (contentType r) = false -> FetchFailure (Value r)
| NotAnImage r ct :
    contentType r = str ct -> startsWith ct "image/" = false -> FetchFailure (Value r)
| BodyFailed r e : blob r = Throw e -> FetchFailure (Value r).

(** What fetching [source] yields when the calls [past] were issued before. *)
Definition resolved (h : Host) (past : list Call) (source : string) : jstr :=
  match result (fetchImageToBase64 h source (mkWorld [] past)) with
  | Value v => v
  | Throw _ => undefined
  end.

(** The three logo sources, by priority. *)
Definition favicon (domain : string) : string :=
  "https://www.google.com/s2/favicons?domain=" ++ domain ++ "&sz=128".
Definition iconByDomain (domain : string) : string :=
  "https://icons.duckduckgo.com/ip3/" ++ domain ++ ".ico".
Definition brandLogo (domain : string) : string :=
  "https://logo.clearbit.com/" ++ domain.

(** The chain seen from outside: the value and the calls issued once the
    sources [l] have been tried in order. *)
Fixpoint firstResolved (h : Host) (past : list Call) (l : list string) : jstr * list Call :=
  match l with
  | [] => (undefined, past)
  | s :: rest =>
      let past' := (past ++ [Fetch (proxied h s)])%list in
      if truthy (resolved h past s) then (resolved h past s, past')
      else firstResolved h past' rest
  end.

(** The settlements of the requests [reqs] when they are issued one after
    the other, none awaited, after the calls [past]. *)
Fixpoint answers (h : Host) (past : list Call) (reqs : list GenRequest)
  : list (Outcome GenResponse) :=
  match reqs with
  | [] => []
  | r :: rest => generateContent h past r :: answers h (past ++ [GenerateContent r])%list rest
  end.

(** The images of a response: the inline parts of its first candidate. *)
Definition imagesOf (res : GenResponse) : list string :=
  match firstParts res with
  | Some l =>
      flat_map (fun part => match inlineData part with
                            | Some d => [dataUrl d]
                            | None => []
                            end) l
  | None => []
  end.

(** A draft generator fans out: without a key it throws before any call;
    with a key it issues four requests whatever their outcome, throws when
    one of them is rejected, and otherwise returns the images of the four
    responses in the order of the requests. *)
Definition FansOut (h : Host) (generateDrafts : IO (list string)) : Prop :=
  forall w,
    let run := generateDrafts w in
    if truthy (API_KEY h) then
      exists reqs,
        length reqs = 4 /\
        calls (world run) = (calls w ++ map GenerateContent reqs)%list /\
        match settleAll (answers h (calls w) reqs) with
        | Throw e => result run = Throw e
        | Value responses =>
            result run = Value (flat_map imagesOf responses) /\
            ((forall res, In res responses -> length (imagesOf res) <= 1) ->
             length (flat_map imagesOf responses) <= 4)
        end
    else
      result run = Throw (Error "API Key not found. Please select a key.") /\
      calls (world run) = calls w.

(** [m] returns [a], and only writes to the console on the way. *)
Definition OnlyLogs {A} (m : IO A) (a : A) : Prop :=
  forall w, exists logs, m w = (Value a, mkWorld (console w ++ logs) (calls w)).

(** What is left of a draft generator once its four requests are issued. *)
Definition collect (h : Host) (onImage : nat -> IO unit) (final : list string -> LogArg)
    (promises : list (Outcome GenResponse)) : IO (list string) :=
  responses <- Promise_all promises ;;
  images <- forEachResponse onImage 0 responses [] ;;
  console_log [final images] ;;
  ret images.

(** The calls of one turn of a polling loop. *)
Definition pollCalls (op : Operation) : list Call := [SetTimeout 5000; GetVideosOperation op].

(** The number of polls among the calls [l]. *)
Definition polls (l : list Call) : nat :=
  length (filter (fun c => match c with GetVideosOperation _ => true | _ => false end) l).

(** The service never reports completion: every poll answers with a handle
    that is not done and carries no result. *)
Definition Stalled (h : Host) : Prop :=
  forall past op, exists op',
    getVideosOperation h past op = Value op' /\ done op' = false /\ videoUriOf op' = undefined.

(** The handles a job goes through.  [Polled h past op ops final]: polling
    the handle [op] after the calls [past], poll after poll, the service
    answers with handles that end in [final]; [ops] are the handles polled
    on the way, in order, none of them done.  Each poll is put to the
    service after the calls made so far and a sleep of five seconds. *)
Inductive Polled (h : Host) : list Call -> Operation -> list Operation -> Operation -> Prop :=
| PolledNone past op : Polled h past op [] op
| PolledOnce past op op' ops final :
    done op = false ->
    getVideosOperation h (past ++ [SetTimeout 5000]) op = Value op' ->
    Polled h (past ++ pollCalls op) op' ops final ->
    Polled h past op (op :: ops) final.

(** [url] is the video URI the handle [final] carries, with the process key
    appended as [&key=]; neither is empty. *)
Definition KeyedUriOf (h : Host) (final : Operation) (url : string) : Prop :=
  exists uri key,
    videoUriOf final = str uri /\ truthy (str uri) = true /\
    API_KEY h = str key /\ truthy (str key) = true /\
    url = uri ++ "&key=" ++ key.

(** The job [req], submitted after the calls [past], delivers [url]: the
    service accepts the request with a handle, its answers to the polls of
    that handle lead to a handle [final] at which the loop stops
    ([stops final n], after [n] polls), and [url] is the URI of [final] with
    the key appended. *)
Definition Delivers (h : Host) (past : list Call) (req : VideoRequest)
    (stops : Operation -> nat -> Prop) (url : string) : Prop :=
  exists op0 ops final,
    generateVideos h past req = Value op0 /\
    Polled h (past ++ [GenerateVideos req]) op0 ops final /\
    stops final (length ops) /\
    KeyedUriOf h final url.

(** Where the loops stop: the unbounded one at the first handle that is
    done, which the model reaches when it is granted [fuel] polls or more;
    the bounded one at the first handle that is done or after sixty polls. *)
Definition doneWithin (fuel : nat) (final : Operation) (n : nat) : Prop :=
  done final = true /\ n <= fuel.
Definition doneOrSixty (final : Operation) (n : nat) : Prop :=
  n <= 60 /\ (done final = true \/ n = 60).

(** The directive of an edit without a mask. *)
Definition ConservativeEdit (txt : string) : Prop :=
  contains txt "PRESERVE all original details, elements, colors, text, and composition EXACTLY as they are" /\
  contains txt "ONLY make the specific changes requested in the instruction" /\
  contains txt "DO NOT remove or change anything unless explicitly instructed to do so".

(** The directive of an edit guided by an annotated image. *)
Definition MaskedEdit (txt : string) : Prop :=
  contains txt "PRESERVE all original details, elements, colors, text, and composition EXACTLY as they are" /\
  contains txt "ONLY modify the specific areas marked with bright green annotations" /\
  contains txt "DO NOT remove or change anything unless explicitly instructed to do so" /\
  contains txt "Remove all green annotations from the final result and return a clean edited image".

(** What the service's answer to an edit request becomes. *)
Definition edited (answer : Outcome GenResponse) : Outcome string :=
  match answer with
  | Value response =>
      match firstImageOf response with
      | Some image => Value image
      | None => Throw (Error "Editing failed")
      end
  | Throw e => Throw e
  end.

(** The text part of an edit request. *)
Definition editText (req : GenRequest) : string :=
  match contents req with
  | [_; part] => match text part with Some t => t | None => "" end
  | _ => ""
  end.

(** * The rest of the pipeline and the components that call it *)

(** ** finalizeAsset *)

Section Finalize.

Variable h : Host.

Definition finalizePrompt (dna : BrandDNA) (subtype : string) : string :=
  nl ++
  "    Re-create this concept in extremely high resolution and production quality." ++ nl ++
  "    Item: " ++ subtype ++ " for brand " ++ name dna ++ "." ++ nl ++
  "    Maintain the composition and colors of the reference image exactly, but improve texture, lighting, and detail." ++ nl ++
  "    Resolution: 4K." ++ nl ++
  "  ".

Definition finalizeRequest (size : string) (dna : BrandDNA) (draftImage subtype : string) : GenRequest :=
  mkGenRequest "gemini-3-pro-image-preview"
    ([imagePart draftImage; textPart (finalizePrompt dna subtype)] ++
     (if truthy (logoImage dna) then
        [imagePart (show (logoImage dna));
         textPart "Ensure the logo (provided as the second image) is rendered with perfect clarity and fidelity."]
      else []))%list
    (Some (mkImageConfig None (Some size))).

(** Phase 3.  [finalizeAsset] of the first and third revisions, which differ
    in the image size they ask for ("1K" and "2K"). *)
Definition finalizeAsset (size : string) (dna : BrandDNA) (draftImage subtype : string) : IO string :=
  getClient h ;;
  let prompt := finalizePrompt dna subtype in
  console_log [AStr "🎯 [FINALIZE] Model: gemini-3-pro-image-preview"] ;;
  console_log [AStr "🎯 [FINALIZE] Prompt:"; AStr prompt] ;;
  console_log [AStr "🎯 [FINALIZE] Subtype:"; AStr subtype] ;;
  console_log [AStr "🎯 [FINALIZE] Has logo:"; AVal (VBool (truthy (logoImage dna)))] ;;
  response <- generate h (finalizeRequest size dna draftImage subtype) ;;
  console_log [AStr "🎯 [FINALIZE] Response candidates:"; ANat (candidateCount response)] ;;
  match firstImageOf response with
  | Some image =>
      console_log [AStr "✅ [FINALIZE] High-res image generated successfully"] ;;
      ret image
  | None =>
      console_error [AStr "❌ [FINALIZE] No image data in response"] ;;
      throw (Error "Finalization failed")
  end.

End Finalize.

(** ** The phases of the second revision *)

(** The second text of [services/geminiService.ts] writes nothing to the
    console and names other models. *)
Module V2Service.
Section Code.

Variable h : Host.

Definition draftRequest (parts : list Part) : GenRequest :=
  mkGenRequest "gemini-2.5-flash-image" parts (Some (mkImageConfig (Some "1:1") None)).

(** [parts.forEach(part => { if (part.inlineData) images.push(...) })] *)
Fixpoint pushParts (l : list Part) (images : list string) : list string :=
  match l with
  | [] => images
  | part :: rest =>
      match inlineData part with
      | Some d => pushParts rest (images ++ [dataUrl d])
      | None => pushParts rest images
      end
  end.

(** [responses.forEach(res => ...)] *)
Fixpoint pushResponses (responses : list GenResponse) (images : list string) : list string :=
  match responses with
  | [] => images
  | res :: rest =>
      pushResponses rest
        (match firstParts res with
         | Some l => pushParts l images
         | None => images
         end)
  end.

(** Phase 1. *)
Definition generateDrafts (dna : BrandDNA) (inspirations : list Inspiration)
    (type : AssetType) (subtype : string) : IO (list string) :=
  getClient h ;;
  promptText <- V2.buildPrompt dna inspirations type subtype (str "Create 4 distinct variations.") ;;
  let parts :=
    (textPart promptText ::
     if truthy (logoImage dna) then
       [imagePart (show (logoImage dna));
        textPart "Use the image above as the Brand Logo referenced in the prompt. Place it naturally on the product."]
     else [])%list in
  promises <- spawnEach h (fun _ _ => ret (draftRequest parts)) 0 (repeat 0 4) ;;
  responses <- Promise_all promises ;;
  ret (pushResponses responses []).

(** Phase 2. *)
Definition editRequest (originalImage : string) (maskImage : jstr) (instruction : string) : GenRequest :=
  mkGenRequest "gemini-2.5-flash-image"
    ([imagePart originalImage; textPart instruction] ++
     (if truthy maskImage then
        [imagePart (show maskImage);
         textPart "Use the second image as a sketch/mask guidance for the changes."]
      else []))%list
    None.

Definition editAsset (originalImage : string) (maskImage : jstr) (instruction : string) : IO string :=
  getClient h ;;
  response <- generate h (editRequest originalImage maskImage instruction) ;;
  match firstImageOf response with
  | Some image => ret image
  | None => throw (Error "Editing failed")
  end.

(** Phase 3. *)
Definition finalizeAsset (dna : BrandDNA) (draftImage subtype : string) : IO string :=
  getClient h ;;
  response <- generate h (finalizeRequest "1K" dna draftImage subtype) ;;
  match firstImageOf response with
  | Some image => ret image
  | None => throw (Error "Finalization failed")
  end.

(** [while (!operation.done) { ... }], for at most [fuel] turns. *)
Fixpoint pollUntilDone (fuel : nat) (operation : Operation) : IO (option Operation) :=
  if done operation then ret (Some operation)
  else
    match fuel with
    | 0 => ret None
    | S fuel' =>
        operation' <- pollOnce h operation ;;
        pollUntilDone fuel' operation'
    end.

(** Phase 4. *)
Definition generateVisualizationVideo (fuel : nat) (assetImage subtype : string)
  : IO (option string) :=
  getClient h ;;
  let prompt := visualizationPrompt h subtype in
  operation <- startVideo h (videoRequest "veo-3.1-fast-generate-preview" prompt assetImage) ;;
  polled <- pollUntilDone fuel operation ;;
  match polled with
  | None => ret None
  | Some operation =>
      let videoUri := videoUriOf operation in
      if negb (truthy videoUri) then throw (Error "Video generation failed")
      else ret (Some (keyed h videoUri))
  end.

End Code.
End V2Service.

(** ** The page's state ([types.ts] and the browser) *)

Record GeneratedAsset : Type := mkGeneratedAsset {
  a_id : string;
  a_type : AssetType;
  a_subtype : string;
  a_url : string;
  promptUsed : string;
  createdAt : nat;
  isDraft : bool;
  baseImage : option string
}.

(** What a handler gets from the browser in one run: how the key dialog of
    AI Studio settles, [crypto.randomUUID()] and [Date.now()]. *)
Record Browser : Type := mkBrowser {
  hasSelectedApiKey : Outcome bool;      (* await window.aistudio.hasSelectedApiKey() *)
  openSelectKey : Outcome unit;          (* await window.aistudio.openSelectKey() *)
  randomUUID : string;
  now : nat
}.

(** [(e as Error).message] *)
Definition messageOf (e : exn) : string :=
  match e with
  | Error m => m
  | TypeError m => m
  end.

(** [a[i]] on an array that may hold [undefined]. *)
Definition at_index (a : list jstr) (i : nat) : jstr := nth i a undefined.

(** [a[i] = v]: an index past the end extends the array, and the slots in
    between, which JavaScript leaves empty, read as [undefined]. *)
Fixpoint setAt (a : list jstr) (i : nat) (v : jstr) : list jstr :=
  match i, a with
  | 0, [] => [v]
  | 0, _ :: rest => v :: rest
  | S i', [] => undefined :: setAt [] i' v
  | S i', x :: rest => x :: setAt rest i' v
  end.

(** ** The logo field of the brand form ([components/BrandManager.tsx]) *)

Section LogoField.

Variable h : Host.

(** [handleUrlBlur]: the state once the handler has run to its end, when
    nothing else updates the form in between. *)
Definition handleUrlBlur (s : BrandManager.State) : IO BrandManager.State :=
  if negb (BrandManager.url (BrandManager.formData s) =? "")
     && negb (truthy (BrandManager.logoPreview s))
  then
    (* setIsFetchingLogo(true) *)
    logo <- fetchLogoFromUrl h (BrandManager.url (BrandManager.formData s)) ;;
    if truthy logo then
      (* setLogoPreview(logo); setLogoError(null); setIsFetchingLogo(false) *)
      ret (BrandManager.mkState (BrandManager.isEditing s) (BrandManager.isGenerating s) false
             (BrandManager.loadingStatus s) None (BrandManager.formData s) logo)
    else
      (* setIsFetchingLogo(false) *)
      ret (BrandManager.mkState (BrandManager.isEditing s) (BrandManager.isGenerating s) false
             (BrandManager.loadingStatus s) (BrandManager.logoError s)
             (BrandManager.formData s) (BrandManager.logoPreview s))
  else ret s.

(** [setIsFetchingLogo(true)] *)
Definition fetchingLogo (s : BrandManager.State) : BrandManager.State :=
  BrandManager.mkState (BrandManager.isEditing s) (BrandManager.isGenerating s) true
    (BrandManager.loadingStatus s) (BrandManager.logoError s)
    (BrandManager.formData s) (BrandManager.logoPreview s).

(** [handleLogoUpload] once the file is read:
    [setLogoPreview(reader.result); setLogoError(null)]. *)
Definition logoUploaded (file : string) (s : BrandManager.State) : BrandManager.State :=
  BrandManager.mkState (BrandManager.isEditing s) (BrandManager.isGenerating s)
    (BrandManager.isFetchingLogo s) (BrandManager.loadingStatus s) None
    (BrandManager.formData s) (str file).

(** The setters [handleUrlBlur] calls once [fetchLogoFromUrl] has settled,
    applied to the state of that moment. *)
Definition logoFetched (logo : jstr) (current : BrandManager.State) : BrandManager.State :=
  if truthy logo then
    (* setLogoPreview(logo); setLogoError(null); setIsFetchingLogo(false) *)
    BrandManager.mkState (BrandManager.isEditing current) (BrandManager.isGenerating current) false
      (BrandManager.loadingStatus current) None (BrandManager.formData current) logo
  else
    (* setIsFetchingLogo(false) *)
    BrandManager.mkState (BrandManager.isEditing current) (BrandManager.isGenerating current) false
      (BrandManager.loadingStatus current) (BrandManager.logoError current)
      (BrandManager.formData current) (BrandManager.logoPreview current).

(** [handleUrlBlur] when the state is updated by [meanwhile] while
    [fetchLogoFromUrl] is awaited: the test reads [formData] and [logoPreview]
    of the render the handler was created in, and the setters after the
    [await] act on the state of that moment. *)
Definition handleUrlBlurWhile (meanwhile : BrandManager.State -> BrandManager.State)
    (s : BrandManager.State) : IO BrandManager.State :=
  if negb (BrandManager.url (BrandManager.formData s) =? "")
     && negb (truthy (BrandManager.logoPreview s))
  then
    logo <- fetchLogoFromUrl h (BrandManager.url (BrandManager.formData s)) ;;
    ret (logoFetched logo (meanwhile (fetchingLogo s)))
  else ret s.

End LogoField.

(** ** The studio ([components/Studio.tsx]) *)

Module Studio.

(** Steps: 0 category, 1 subtype, 2 drafting, 3 selection and editing. *)
Record State : Type := mkState {
  step : nat;
  selectedType : AssetType;
  selectedSubtype : string;
  drafts : list jstr;
  isLoading : bool;
  editingIndex : option nat;
  isProcessingEdit : bool
}.

Definition initial : State := mkState 0 MERCHANDISE "" [] false None false.

(** What a handler did besides updating the state. *)
Record Effects : Type := mkEffects {
  created : list GeneratedAsset;      (* the calls of [onAssetCreated] *)
  alerts : list string
}.

Definition quiet : Effects := mkEffects [] [].

Section Handlers.

(** The props. *)
Variable dna : BrandDNA.
Variable inspirations : list Inspiration.

(** The service, as the component imports it.  The image arguments are
    whatever [drafts[editingIndex]] holds. *)
Variable generateDrafts : BrandDNA -> list Inspiration -> AssetType -> string -> IO (list string).
Variable editAsset : jstr -> jstr -> string -> IO string.
Variable finalizeAsset : BrandDNA -> jstr -> string -> IO string.

Variable b : Browser.

(** [handleGenerateDrafts], with the state of the render it was created in. *)
Definition handleGenerateDrafts (s : State) : IO (State * Effects) :=
  (* setIsLoading(true); setStep(2) *)
  try_catch
    (results <- generateDrafts dna inspirations (selectedType s) (selectedSubtype s) ;;
     (* setDrafts(results); setStep(3); finally *)
     ret (mkState 3 (selectedType s) (selectedSubtype s) (map str results) false
                  (editingIndex s) (isProcessingEdit s),
          quiet))
    (fun e =>
       console_error [AExn e] ;;
       (* alert(...); setStep(1); finally *)
       ret (mkState 1 (selectedType s) (selectedSubtype s) (drafts s) false
                    (editingIndex s) (isProcessingEdit s),
            mkEffects [] ["Failed to generate drafts."])).

(** A click on a category of step 0. *)
Definition selectCategory (id : AssetType) (s : State) : State :=
  mkState 1 id (selectedSubtype s) (drafts s) (isLoading s) (editingIndex s) (isProcessingEdit s).

(** A click on an item of step 1:
    [() => { setSelectedSubtype(item); handleGenerateDrafts(); }].  The
    handler called is the one of the render that drew the button, so it
    reads the subtype of that render; the new subtype is in the state of the
    next render. *)
Definition selectItem (item : string) (s : State) : IO (State * Effects) :=
  r <- handleGenerateDrafts s ;;
  ret (mkState (step (fst r)) (selectedType (fst r)) item (drafts (fst r)) (isLoading (fst r))
               (editingIndex (fst r)) (isProcessingEdit (fst r)),
       snd r).

(** [handleUpdateDraft]. *)
Definition handleUpdateDraft (mask : jstr) (instruction : string) (s : State)
  : IO (State * Effects) :=
  match editingIndex s with
  | None => ret (s, quiet)
  | Some i =>
      (* setIsProcessingEdit(true) *)
      try_catch
        (newImage <- editAsset (at_index (drafts s) i) mask instruction ;;
         (* setDrafts(newDrafts); finally *)
         ret (mkState (step s) (selectedType s) (selectedSubtype s)
                      (setAt (drafts s) i (str newImage)) (isLoading s) (editingIndex s) false,
              quiet))
        (fun e =>
           console_error [AExn e] ;;
           (* alert(...); finally *)
           ret (mkState (step s) (selectedType s) (selectedSubtype s) (drafts s) (isLoading s)
                        (editingIndex s) false,
                mkEffects [] ["Edit failed"]))
  end.

(** The key check of [handleFinalize], whose failure is only logged. *)
Definition keyCheck : IO unit :=
  try_catch
    (hasKey <- await (hasSelectedApiKey b) ;;
     if negb hasKey then await (openSelectKey b) else ret tt)
    (fun e => console_warn [AStr "Key check skipped"; AExn e]).

(** [handleFinalize]. *)
Definition handleFinalize (s : State) : IO (State * Effects) :=
  match editingIndex s with
  | None => ret (s, quiet)
  | Some i =>
      (* setIsProcessingEdit(true) *)
      keyCheck ;;
      try_catch
        (highResUrl <- finalizeAsset dna (at_index (drafts s) i) (selectedSubtype s) ;;
         let newAsset :=
           mkGeneratedAsset (randomUUID b) (selectedType s) (selectedSubtype s) highResUrl
                            "Finalized from draft" (now b) false None in
         (* onAssetCreated(newAsset); setStep(0); setDrafts([]); setEditingIndex(null); finally *)
         ret (mkState 0 (selectedType s) (selectedSubtype s) [] (isLoading s) None false,
              mkEffects [newAsset] []))
        (fun e =>
           console_error [AExn e] ;;
           (* alert(...); finally *)
           ret (mkState (step s) (selectedType s) (selectedSubtype s) (drafts s) (isLoading s)
                        (editingIndex s) false,
                mkEffects [] ["Finalization failed"]))
  end.

End Handlers.

End Studio.

(** ** The gallery ([components/Gallery.tsx]) *)

Module Gallery.

Record Effects : Type := mkEffects {
  opened : list string;               (* window.open(url, '_blank') *)
  alerts : list string
}.

Section Handlers.

Variable h : Host.
Variable b : Browser.

(** [generateVisualizationVideo] as imported; [None]: it is still polling. *)
Variable generateVisualizationVideo : string -> string -> IO (option string).

(** The condition under which an asset gets its "Visualize with Veo" button. *)
Definition canVisualize (asset : GeneratedAsset) : bool :=
  includes (toLowerCase h (a_subtype asset)) "hoodie"
  || includes (toLowerCase h (a_subtype asset)) "billboard".

(** [handleVisualize]: the id of the asset being visualized at the end of
    what has run, and what the page did. *)
Definition handleVisualize (asset : GeneratedAsset) : IO (option string * Effects) :=
  (* setVisualizingId(asset.id) *)
  try_catch
    (hasKey <- await (hasSelectedApiKey b) ;;
     (if negb hasKey then await (openSelectKey b) else ret tt) ;;
     videoUrl <- generateVisualizationVideo (a_url asset) (a_subtype asset) ;;
     match videoUrl with
     | Some url => ret (None, mkEffects [url] [])
     | None => ret (Some (a_id asset), mkEffects [] [])
     end)
    (fun e =>
       console_error [AExn e] ;;
       ret (None, mkEffects [] ["Visualization failed. " ++ messageOf e])).

End Handlers.

End Gallery.

(** ** The editor's preview ([components/AssetEditor.tsx]) *)

Module AssetEditor.

Record State : Type := mkState {
  isGeneratingPreview : bool;
  previewVideoUrl : jstr
}.

Section Handlers.

(** The props. *)
Variable imageUrl : string.
Variable subtype : string.
Variable brandDNA : BrandDNA.

Variable generateRealWorldPreview : string -> string -> BrandDNA -> IO string.

(** [handleRealWorldPreview]: the state at the end and the alerts shown. *)
Definition handleRealWorldPreview (s : State) : IO (State * list string) :=
  (* setIsGeneratingPreview(true) *)
  try_catch
    (videoUrl <- generateRealWorldPreview imageUrl subtype brandDNA ;;
     ret (mkState false (str videoUrl), []))
    (fun e =>
       console_error [AExn e] ;;
       ret (mkState false (previewVideoUrl s), ["Failed to generate preview: " ++ messageOf e])).

End Handlers.

End AssetEditor.

(** ** The application ([App.tsx] and [components/Sidebar.tsx]) *)

Module App.

Record State : Type := mkState {
  dna : option BrandDNA;
  inspirations : list Inspiration;
  assets : list GeneratedAsset;
  activeTab : string
}.

Definition initial : State := mkState None [] [] "identity".

(** The items of the sidebar: the id and whether the item is disabled. *)
Definition items (hasDNA : bool) : list (string * bool) :=
  [ ("identity", false);
    ("inspirations", negb hasDNA);
    ("studio", negb hasDNA);
    ("ads", negb hasDNA) ].

(** [!!dna] *)
Definition hasDNA (s : State) : bool :=
  match dna s with
  | Some _ => true
  | None => false
  end.

(** What can happen to the application. *)
Inductive Event : Type :=
| SaveDNA (newDna : BrandDNA)               (* the brand form's [onSave] *)
| ClickItem (n : nat)                       (* a click on the [n]-th item of the sidebar *)
| AddInspiration (insp : Inspiration)
| RemoveInspiration (id : string)
| AssetCreated (asset : GeneratedAsset).

Definition react (s : State) (e : Event) : State :=
  match e with
  | SaveDNA newDna =>
      (* handleSaveDNA *)
      mkState (Some newDna) (inspirations s) (assets s) "studio"
  | ClickItem n =>
      (* !item.disabled && onTabChange(item.id) *)
      match nth_error (items (hasDNA s)) n with
      | Some (tab, false) => mkState (dna s) (inspirations s) (assets s) tab
      | _ => s
      end
  | AddInspiration insp =>
      (* [...inspirations, insp] *)
      mkState (dna s) (inspirations s ++ [insp]) (assets s) (activeTab s)
  | RemoveInspiration removed =>
      (* inspirations.filter(i => i.id !== id) *)
      mkState (dna s)
              (filter (fun i => negb (id i =? removed)) (inspirations s))
              (assets s) (activeTab s)
  | AssetCreated asset =>
      (* [asset, ...assets] *)
      mkState (dna s) (inspirations s) (asset :: assets s) (activeTab s)
  end.

(** The state after the events [events], the earliest first. *)
Definition run (events : list Event) (s : State) : State := fold_left react events s.


(** The components the view router draws. *)
Inductive View : Type :=
| BrandManagerView
| InspirationsView
| StudioView
| GalleryView.

Definition views (s : State) : list View :=
  (if activeTab s =? "identity" then [BrandManagerView] else []) ++
  (if activeTab s =? "inspirations" then [InspirationsView] else []) ++
  (if (activeTab s =? "studio") && hasDNA s then
     StudioView :: (if (0 <? length (assets s))%nat then [GalleryView] else [])
   else []).

End App.

(** ** More hosts for examples *)

Module Examples.

(** A host like [Demo.stalled] whose environment holds no key. *)
Definition keyless : Host :=
  mkHost undefined Demo.lower Demo.encode Demo.hostOf String.length
         (fun _ _ => Throw Demo.offline) Demo.noContent Demo.noVideos Demo.noProgress.

(** The answer to the poll that [n] polls came before, for a job that
    completes on its [k]-th poll. *)
Definition progress (k : nat) (videoUri : string) (n : nat) : Operation :=
  if (S n <? k)%nat then mkOperation false None else Demo.finished (Some videoUri).

(** A host whose video jobs complete on the [k]-th poll. *)
Definition renderingAfter (k : nat) (videoUri : string) : Host :=
  Demo.host (fun _ _ => Throw Demo.offline) Demo.noContent Demo.noVideos
    (fun past _ =>
       Value (progress k videoUri
                (length (filter (fun c => match c with GetVideosOperation _ => true | _ => false end)
                                past)))).

(** A host whose image model answers every request with the parts [l]. *)
Definition painting (l : list Part) : Host :=
  Demo.host (fun _ _ => Throw Demo.offline) (fun _ _ => Value (Demo.answer l))
            Demo.noVideos Demo.noProgress.

End Examples.

(** ** Vocabulary of the further properties *)

(** The call was refused for want of a key: it threw before anything was
    logged or requested. *)
Definition Refused {A} (w : World) (run : Outcome A * World) : Prop :=
  run = (Throw (Error "API Key not found. Please select a key."), w).

(** [s] holds no comma. *)
Fixpoint noComma (s : string) : bool :=
  match s with
  | EmptyString => true
  | String c rest => negb (Ascii.eqb c ",") && noComma rest
  end.

(** What the phases hand to each other: a data URL with the PNG prefix,
    whose second comma-separated field is therefore defined. *)
Definition PngDataUrl (image : string) : Prop :=
  startsWith image "data:image/png;base64," = true /\ exists b, payload image = str b.

(** The three clips [generateVisualizationVideo] can ask for. *)
Definition fashionClip : string :=
  "A cinematic video of a fashion model walking down a city street wearing this exact clothing item. Realistic fabric physics, 4k.".
Definition billboardClip : string :=
  "A cinematic video from a moving car driving past a large highway billboard displaying this exact advertisement. Realistic lighting, 4k.".
Definition showcaseClip : string :=
  "A cinematic commercial showcase of this product, rotating slowly in a studio environment.".

(** The inline data a request carries, part by part. *)
Definition inlineOf (req : GenRequest) : list jstr :=
  flat_map (fun part => match inlineData part with
                        | Some d => [data d]
                        | None => []
                        end) (contents req).

(** The requests among the calls [l]. *)
Definition requestsOf (l : list Call) : list GenRequest :=
  flat_map (fun c => match c with GenerateContent req => [req] | _ => [] end) l.

(** The video service answers a poll from the number of polls made before
    it: [ans n] is the answer to the poll that [n] polls came before. *)
Definition PollsAnswer (h : Host) (ans : nat -> Operation) : Prop :=
  forall past op, getVideosOperation h past op = Value (ans (polls past)).

(** The job completes on its [k]-th poll, counted from [p] polls made
    earlier, and then carries the video [videoUri], which is not empty. *)
Definition CompletesAt (ans : nat -> Operation) (p k : nat) (videoUri : string) : Prop :=
  0 < k /\
  (forall i, i < k - 1 -> done (ans (p + i)) = false) /\
  done (ans (p + (k - 1))) = true /\
  videoUriOf (ans (p + (k - 1))) = str videoUri /\
  truthy (str videoUri) = true.

(** What the service's answer to a finalize request becomes. *)
Definition finalized (answer : Outcome GenResponse) : Outcome string :=
  match answer with
  | Value response =>
      match firstImageOf response with
      | Some image => Value image
      | None => Throw (Error "Finalization failed")
      end
  | Throw e => Throw e
  end.

(** The answer in hand after [m] polls of a loop that started with [op]. *)
Definition latest (ans : nat -> Operation) (p : nat) (op : Operation) (m : nat) : Operation :=
  match m with
  | 0 => op
  | S m' => ans (p + m')
  end.

(** The brand [dna] under another name. *)
Definition renamed (dna : BrandDNA) (other : string) : BrandDNA :=
  mkBrandDNA other (description dna) (websiteUrl dna) (colors dna) (typography dna)
             (visualEssence dna) (designSystem dna) (keywords dna) (logoImage dna).

(** What every reachable state of the application satisfies. *)
Definition Navigable (s : App.State) : Prop :=
  In (App.activeTab s) ["identity"; "inspirations"; "studio"; "ads"] /\
  (App.activeTab s <> "identity" -> App.hasDNA s = true).

(** * Properties *)

(** ** The monad's equations *)

Ltac run_io :=
  unfold result, world, bind, ret, throw, try_catch, issue, await, spawn, sleep,
    console_log, console_warn, console_error, emit in *;
  simpl in *.

Lemma bind_run {A B} (m : IO A) (k : A -> IO B) (w : World) :
  bind m k w = match m w with
               | (Value a, w') => k a w'
               | (Throw e, w') => (Throw e, w')
               end.
Proof. reflexivity. Qed.

Lemma emit_run (lv : Level) (a : list LogArg) (w : World) :
  emit lv a w = (Value tt, mkWorld (console w ++ [mkLog lv a]) (calls w)).
Proof. reflexivity. Qed.

(** One [console.log] at the head of the computation. *)
Ltac log_step :=
  rewrite bind_run; unfold console_log at 1; rewrite emit_run; cbn [console calls].

(** ** fetchImageToBase64 *)

Lemma fetchImageToBase64_run (h : Host) (url : string) (w : World) :
  exists v logs,
    fetchImageToBase64 h url w =
      (Value v, mkWorld (console w ++ logs) (calls w ++ [Fetch (proxied h url)])).
Proof.
  unfold fetchImageToBase64. run_io.
  destruct (fetch h (calls w) (proxied h url)) as [r | e]; simpl.
  - destruct (ok r); simpl.
    + destruct (negb (truthy (contentType r)) || negb (startsWith (show (contentType r)) "image/")); simpl.
      * eexists; eexists; reflexivity.
      * destruct (blob r); simpl.
        -- exists (dataURL a), []. rewrite app_nil_r. reflexivity.
        -- eexists; eexists; reflexivity.
    + exists undefined, []. rewrite app_nil_r. reflexivity.
  - eexists; eexists; reflexivity.
Qed.

(** The value does not depend on the console. *)
Lemma fetchImageToBase64_resolved (h : Host) (url : string) (w : World) :
  result (fetchImageToBase64 h url w) = Value (resolved h (calls w) url).
Proof.
  unfold resolved, fetchImageToBase64. run_io.
  destruct (fetch h (calls w) (proxied h url)) as [r | e]; simpl; [|reflexivity].
  destruct (ok r); simpl; [|reflexivity].
  destruct (negb (truthy (contentType r)) || negb (startsWith (show (contentType r)) "image/"));
    simpl; [reflexivity|].
  destruct (blob r); reflexivity.
Qed.

(** C5. [fetchImageToBase64] fails closed: whatever the network does the call
    returns a value and never throws, and a network exception, a response
    that is not ok, a missing content type, a content type that is not an
    image, or a body that cannot be read each make it return [undefined]. *)
Theorem fetchImageToBase64_fails_closed (h : Host) (url : string) (w : World) :
  (exists v, result (fetchImageToBase64 h url w) = Value v) /\
  (FetchFailure (fetch h (calls w) (proxied h url)) ->
   result (fetchImageToBase64 h url w) = Value undefined).
Proof.
  split.
  - destruct (fetchImageToBase64_run h url w) as (v & logs & E).
    exists v. rewrite E. reflexivity.
  - unfold fetchImageToBase64. run_io. intros F.
    inversion F as [e E | r Hok E | r Hct E | r ct Hct Himg E | r e Hb E]; clear F; simpl.
    + reflexivity.
    + rewrite Hok. reflexivity.
    + destruct (ok r); simpl; [|reflexivity]. rewrite Hct. reflexivity.
    + destruct (ok r); simpl; [|reflexivity]. rewrite Hct. simpl. rewrite Himg.
      rewrite orb_true_r. reflexivity.
    + destruct (ok r); simpl; [|reflexivity].
      destruct (negb (truthy (contentType r)) || negb (startsWith (show (contentType r)) "image/"));
        simpl; [reflexivity|].
      rewrite Hb. reflexivity.
Qed.

(** An HTML page served with status 200 is not an image. *)
Lemma fetchImageToBase64_fails_closed_witness :
  FetchFailure (fetch (Demo.web (fun _ _ => Value Demo.html)) [] 
                  (proxied (Demo.web (fun _ _ => Value Demo.html)) "https://example.com")) /\
  result (fetchImageToBase64 (Demo.web (fun _ _ => Value Demo.html)) "https://example.com" emptyWorld)
    = Value undefined.
Proof.
  split.
  - eapply NotAnImage; reflexivity.
  - apply (proj2 (fetchImageToBase64_fails_closed
                    (Demo.web (fun _ _ => Value Demo.html)) "https://example.com" emptyWorld)).
    eapply NotAnImage; reflexivity.
Defined.

(** ** fetchLogoFromUrl *)

Lemma trySources_firstResolved (h : Host) (domain : string) (l : list string) :
  forall w, exists logs,
    trySources h domain l w =
      (Value (fst (firstResolved h (calls w) l)),
       mkWorld (console w ++ logs) (snd (firstResolved h (calls w) l))).
Proof.
  induction l as [|s rest IH]; intros w.
  - eexists. cbn [trySources firstResolved fst snd]. rewrite bind_run.
    unfold console_warn. rewrite emit_run. reflexivity.
  - cbn [trySources firstResolved]. rewrite bind_run. unfold console_log at 1.
    rewrite emit_run, bind_run.
    set (w1 := mkWorld _ (calls w)).
    destruct (fetchImageToBase64_run h s w1) as (v & logs & E).
    pose proof (fetchImageToBase64_resolved h s w1) as R.
    rewrite E in R. unfold result in R. simpl in R. injection R as R. subst v.
    rewrite E. unfold w1. cbn [calls console].
    destruct (truthy (resolved h (calls w) s)).
    + rewrite bind_run. unfold console_log. rewrite emit_run. unfold ret. cbn [fst snd calls console].
      rewrite <- !app_assoc. eexists. reflexivity.
    + match goal with |- context [trySources h domain rest ?w2] =>
        destruct (IH w2) as [logs' E'] end.
      rewrite E'. cbn [calls console]. rewrite <- !app_assoc. eexists. reflexivity.
Qed.

(** C4 (as amended). [fetchLogoFromUrl] never throws.  For a reference that
    parses as a URL it tries the favicon service, then the icon-by-domain
    service, then the brand-logo service, each at most once and only while
    the earlier ones failed; it returns the image of the first source that
    resolves, and [undefined] when all three fail.  For a reference that does
    not parse it returns [undefined] without trying any source. *)
Theorem fetchLogoFromUrl_chain (h : Host) (websiteUrl : string) (w : World) :
  let run := fetchLogoFromUrl h websiteUrl w in
  (exists v, result run = Value v) /\
  match hostname h websiteUrl with
  | None => result run = Value undefined /\ calls (world run) = calls w
  | Some domain =>
      let p1 := (calls w ++ [Fetch (proxied h (favicon domain))])%list in
      let p2 := (p1 ++ [Fetch (proxied h (iconByDomain domain))])%list in
      let p3 := (p2 ++ [Fetch (proxied h (brandLogo domain))])%list in
      let r1 := resolved h (calls w) (favicon domain) in
      let r2 := resolved h p1 (iconByDomain domain) in
      let r3 := resolved h p2 (brandLogo domain) in
      sources domain = [favicon domain; iconByDomain domain; brandLogo domain] /\
      (truthy r1 = true -> result run = Value r1 /\ calls (world run) = p1) /\
      (truthy r1 = false -> truthy r2 = true ->
       result run = Value r2 /\ calls (world run) = p2) /\
      (truthy r1 = false -> truthy r2 = false -> truthy r3 = true ->
       result run = Value r3 /\ calls (world run) = p3) /\
      (truthy r1 = false -> truthy r2 = false -> truthy r3 = false ->
       result run = Value undefined /\ calls (world run) = p3)
  end.
Proof.
  cbv zeta. unfold fetchLogoFromUrl, try_catch.
  destruct (hostname h websiteUrl) as [domain|].
  - destruct (trySources_firstResolved h domain (sources domain) w) as [logs E].
    rewrite E. unfold result, world. cbn [fst snd calls].
    split; [eexists; reflexivity|].
    split; [reflexivity|].
    unfold sources. cbn [firstResolved]. fold (favicon domain).
    fold (iconByDomain domain). fold (brandLogo domain).
    repeat split; intros;
      repeat match goal with H : truthy _ = _ |- _ => rewrite H; clear H end; reflexivity.
  - simpl. split; [eexists; reflexivity|]. split; reflexivity.
Qed.

(** The first two services answer 404, the third serves a logo. *)
Lemma fetchLogoFromUrl_chain_witness :
  result (fetchLogoFromUrl
            (Demo.web (fun past _ => if (length past <? 2)%nat then Value Demo.notFound
                                     else Value (Demo.png "LOGO")))
            "https://nike.com/us" emptyWorld)
  = Value (str "data:image/png;base64,LOGO") /\
  calls (world (fetchLogoFromUrl
            (Demo.web (fun past _ => if (length past <? 2)%nat then Value Demo.notFound
                                     else Value (Demo.png "LOGO")))
            "https://nike.com/us" emptyWorld))
  = [Fetch "https://corsproxy.io/?https%3A%2F%2Fwww.google.com%2Fs2%2Ffavicons%3Fdomain%3Dnike.com%26sz%3D128";
     Fetch "https://corsproxy.io/?https%3A%2F%2Ficons.duckduckgo.com%2Fip3%2Fnike.com.ico";
     Fetch "https://corsproxy.io/?https%3A%2F%2Flogo.clearbit.com%2Fnike.com"].
Proof.
  pose proof (fetchLogoFromUrl_chain
                (Demo.web (fun past _ => if (length past <? 2)%nat then Value Demo.notFound
                                         else Value (Demo.png "LOGO")))
                "https://nike.com/us" emptyWorld) as T.
  cbv zeta in T. destruct T as [_ T].
  change (Demo.web _) with
    (Demo.web (fun past _ => if (length past <? 2)%nat then Value Demo.notFound
                             else Value (Demo.png "LOGO"))) in T.
  assert (Hd : hostname (Demo.web (fun past _ => if (length past <? 2)%nat then Value Demo.notFound
                                   else Value (Demo.png "LOGO"))) "https://nike.com/us"
               = Some "nike.com") by reflexivity.
  rewrite Hd in T.
  destruct T as (_ & _ & _ & T3 & _).
  exact (T3 eq_refl eq_refl eq_refl).
Defined.

(** C4, the claim as stated fails: the reference [nike.com] has no scheme,
    [new URL] throws on it, and the resolver answers [undefined] without
    having tried a source, although every source would have resolved. *)
Lemma fetchLogoFromUrl_unparsed_reference :
  result (fetchLogoFromUrl (Demo.web (fun _ _ => Value (Demo.png "LOGO"))) "nike.com" emptyWorld)
    = Value undefined /\
  calls (world (fetchLogoFromUrl (Demo.web (fun _ _ => Value (Demo.png "LOGO"))) "nike.com" emptyWorld))
    = [] /\
  (forall past source,
     resolved (Demo.web (fun _ _ => Value (Demo.png "LOGO"))) past source
     = str "data:image/png;base64,LOGO").
Proof.
  repeat split.
Qed.

(** ** Computations that only write to the console *)

Lemma onlyLogs_ret {A} (a : A) : OnlyLogs (ret a) a.
Proof. intros w. exists []. rewrite app_nil_r. destruct w; reflexivity. Qed.

Lemma onlyLogs_emit lv a : OnlyLogs (emit lv a) tt.
Proof. intros w. eexists. apply emit_run. Qed.

Lemma onlyLogs_bind {A B} (m : IO A) (k : A -> IO B) a b :
  OnlyLogs m a -> OnlyLogs (k a) b -> OnlyLogs (bind m k) b.
Proof.
  intros Hm Hk w. destruct (Hm w) as [l1 E1].
  rewrite bind_run, E1.
  destruct (Hk (mkWorld (console w ++ l1) (calls w))) as [l2 E2].
  rewrite E2. cbn [console calls]. rewrite <- app_assoc. eexists. reflexivity.
Qed.

Lemma bind_onlyLogs {A B} {m : IO A} (k : A -> IO B) {a : A} (w : World) :
  OnlyLogs m a ->
  exists logs, bind m k w = k a (mkWorld (console w ++ logs) (calls w)).
Proof.
  intros Hm. destruct (Hm w) as [l1 E1]. rewrite bind_run, E1. eexists. reflexivity.
Qed.

Lemma buildPrompt_onlyLogs h dna insp type subtype instr :
  OnlyLogs (V1.buildPrompt h dna insp type subtype instr)
           (V1.promptText h dna insp type subtype instr).
Proof.
  unfold V1.buildPrompt.
  eapply onlyLogs_bind; [apply onlyLogs_emit|].
  eapply onlyLogs_bind; [apply onlyLogs_emit|].
  apply onlyLogs_ret.
Qed.

(** ** generateDrafts *)

Lemma spawnEach_run (h : Host) {X} {request : nat -> X -> IO GenRequest} (reqOf : X -> GenRequest) :
  (forall idx x, OnlyLogs (request idx x) (reqOf x)) ->
  forall items idx w, exists logs,
    spawnEach h request idx items w =
      (Value (answers h (calls w) (map reqOf items)),
       mkWorld (console w ++ logs) (calls w ++ map GenerateContent (map reqOf items))).
Proof.
  intros Hreq. induction items as [|x rest IH]; intros idx w.
  - exists []. cbn. rewrite !app_nil_r. destruct w; reflexivity.
  - cbn [spawnEach map answers].
    destruct (bind_onlyLogs (fun req => p <- spawn (GenerateContent req) (fun past => generateContent h past req) ;;
                                        ps <- spawnEach h request (S idx) rest ;; ret (p :: ps)) w (Hreq idx x))
      as [l1 E1].
    rewrite E1. rewrite bind_run. unfold spawn at 1. cbn [console calls].
    rewrite bind_run.
    match goal with |- context [spawnEach h request (S idx) rest ?w2] =>
      destruct (IH (S idx) w2) as [l2 E2] end.
    rewrite E2. unfold ret. cbn [console calls].
    rewrite <- !app_assoc. eexists. reflexivity.
Qed.

Lemma forEachPart_run {onImage : IO unit} :
  OnlyLogs onImage tt ->
  forall l images w, exists logs,
    forEachPart onImage l images w =
      (Value (images ++ flat_map (fun part => match inlineData part with
                                              | Some d => [dataUrl d]
                                              | None => []
                                              end) l)%list,
       mkWorld (console w ++ logs) (calls w)).
Proof.
  intros Hlog. induction l as [|part rest IH]; intros images w.
  - exists []. cbn. rewrite !app_nil_r. destruct w; reflexivity.
  - cbn [forEachPart flat_map]. destruct (inlineData part) as [d|].
    + destruct (bind_onlyLogs (fun _ => forEachPart onImage rest (images ++ [dataUrl d])%list) w Hlog)
        as [l1 E1].
      rewrite E1.
      match goal with |- context [forEachPart onImage rest _ ?w2] =>
        destruct (IH (images ++ [dataUrl d])%list w2) as [l2 E2] end.
      rewrite E2. cbn [console calls]. rewrite <- !app_assoc. eexists. reflexivity.
    + destruct (IH images w) as [l2 E2]. rewrite E2. eexists. reflexivity.
Qed.

Lemma forEachResponse_run {onImage : nat -> IO unit} :
  forall responses idx,
    (forall i, idx <= i < idx + length responses -> OnlyLogs (onImage i) tt) ->
    forall images w, exists logs,
      forEachResponse onImage idx responses images w =
        (Value (images ++ flat_map imagesOf responses)%list,
         mkWorld (console w ++ logs) (calls w)).
Proof.
  induction responses as [|res rest IH]; intros idx Hlog images w.
  - exists []. cbn. rewrite !app_nil_r. destruct w; reflexivity.
  - cbn [forEachResponse flat_map]. rewrite bind_run. unfold console_log at 1.
    rewrite emit_run, bind_run. unfold imagesOf at 1.
    assert (Hi : OnlyLogs (onImage idx) tt) by (apply Hlog; cbn [length]; lia).
    assert (Hrest : forall i, S idx <= i < S idx + length rest -> OnlyLogs (onImage i) tt)
      by (intros i Hr; apply Hlog; cbn [length]; lia).
    destruct (firstParts res) as [l|].
    + match goal with |- context [forEachPart (onImage idx) l images ?w1] =>
        destruct (forEachPart_run Hi l images w1) as [l1 E1] end.
      rewrite E1.
      match goal with |- context [forEachResponse onImage (S idx) rest ?im ?w2] =>
        destruct (IH (S idx) Hrest im w2) as [l2 E2] end.
      rewrite E2. cbn [console calls]. rewrite <- !app_assoc. eexists. reflexivity.
    + unfold ret at 1.
      match goal with |- context [forEachResponse onImage (S idx) rest ?im ?w2] =>
        destruct (IH (S idx) Hrest im w2) as [l2 E2] end.
      rewrite E2. cbn [console calls app]. rewrite <- !app_assoc. eexists. reflexivity.
Qed.

Lemma length_answers h reqs : forall past, length (answers h past reqs) = length reqs.
Proof. induction reqs; intros; cbn; [reflexivity | rewrite IHreqs; reflexivity]. Qed.

Lemma length_settleAll {A} (ps : list (Outcome A)) (l : list A) :
  settleAll ps = Value l -> length l = length ps.
Proof.
  revert l. induction ps as [|p rest IH]; intros l E; cbn in E.
  - injection E as <-. reflexivity.
  - destruct p as [a|e]; [|discriminate].
    destruct (settleAll rest) as [l'|e]; [|discriminate].
    injection E as <-. cbn. rewrite (IH l' eq_refl). reflexivity.
Qed.

Lemma length_flat_map_le {A B} (f : A -> list B) (l : list A) (k : nat) :
  (forall a, In a l -> length (f a) <= k) -> length (flat_map f l) <= k * length l.
Proof.
  induction l as [|a rest IH]; intros H; cbn.
  - lia.
  - rewrite length_app. specialize (H a (or_introl eq_refl)) as Ha.
    assert (length (flat_map f rest) <= k * length rest)
      by (apply IH; intros; apply H; right; assumption).
    lia.
Qed.

Lemma getClient_run h w :
  getClient h w = if truthy (API_KEY h) then (Value tt, w)
                  else (Throw (Error "API Key not found. Please select a key."), w).
Proof. unfold getClient. destruct (truthy (API_KEY h)); reflexivity. Qed.

Ltac logs_step H :=
  match goal with
  | |- context [bind ?m ?k ?w] =>
      let l := fresh "logs" in
      let E := fresh "E" in
      destruct (bind_onlyLogs k w H) as [l E]; rewrite E; clear E; cbn [console calls]
  end.

Lemma collect_run (h : Host) (onImage : nat -> IO unit) (final : list string -> LogArg)
    (reqs : list GenRequest) (past : list Call) (w : World) :
  length reqs = 4 ->
  (forall i, i < 4 -> OnlyLogs (onImage i) tt) ->
  calls (world (collect h onImage final (answers h past reqs) w)) = calls w /\
  match settleAll (answers h past reqs) with
  | Throw e => result (collect h onImage final (answers h past reqs) w) = Throw e
  | Value responses =>
      result (collect h onImage final (answers h past reqs) w)
        = Value (flat_map imagesOf responses) /\
      ((forall res, In res responses -> length (imagesOf res) <= 1) ->
       length (flat_map imagesOf responses) <= 4)
  end.
Proof.
  intros Hlen Hlog. unfold collect. rewrite bind_run. unfold Promise_all, await.
  destruct (settleAll (answers h past reqs)) as [responses|e] eqn:HS.
  - assert (Hr : length responses = 4)
      by (rewrite (length_settleAll _ _ HS), length_answers; exact Hlen).
    rewrite bind_run.
    destruct (forEachResponse_run responses 0 (fun i Hi => Hlog i ltac:(lia)) [] w) as [l1 E1].
    rewrite E1. rewrite bind_run. unfold console_log. rewrite emit_run. unfold ret, result, world.
    cbn [fst snd calls app]. repeat split.
    intros Hone. pose proof (length_flat_map_le imagesOf responses 1 Hone). lia.
  - unfold result, world. cbn. split; reflexivity.
Qed.

Lemma generateDrafts_V1_run (h : Host) (dna : BrandDNA) (inspirations : list Inspiration)
    (type : AssetType) (subtype : string) (w : World) :
  truthy (API_KEY h) = true ->
  exists logs parts final,
    V1.generateDrafts h dna inspirations type subtype w =
      collect h V1.draftLogged final
        (answers h (calls w) (repeat (V1.draftRequest parts) 4))
        (mkWorld (console w ++ logs)
                 (calls w ++ map GenerateContent (repeat (V1.draftRequest parts) 4))).
Proof.
  intros Hkey. unfold V1.generateDrafts.
  rewrite bind_run, getClient_run, Hkey.
  logs_step (buildPrompt_onlyLogs h dna inspirations type subtype (str "Create 4 distinct variations.")).
  set (promptText := V1.promptText h dna inspirations type subtype _).
  log_step.
  set (parts := if truthy (logoImage dna)
                then [textPart promptText; imagePart (show (logoImage dna));
                      textPart "Use the image above as the Brand Logo referenced in the prompt. Place it naturally on the product."]
                else [textPart promptText]).
  assert (Hparts : OnlyLogs
            (if truthy (logoImage dna)
             then console_log [AStr "🖼️  [DRAFT GENERATION] Adding logo to parts"] ;;
                  ret [textPart promptText; imagePart (show (logoImage dna));
                       textPart "Use the image above as the Brand Logo referenced in the prompt. Place it naturally on the product."]
             else ret [textPart promptText]) parts).
  { unfold parts. destruct (truthy (logoImage dna)).
    - eapply onlyLogs_bind; [apply onlyLogs_emit | apply onlyLogs_ret].
    - apply onlyLogs_ret. }
  logs_step Hparts. log_step. rewrite bind_run.
  match goal with |- context [spawnEach h ?rq 0 (repeat 0 4) ?w1] =>
    destruct (@spawnEach_run h nat rq (fun _ => V1.draftRequest parts)
                (fun idx x => onlyLogs_ret _) (repeat 0 4) 0 w1) as [l2 E2] end.
  rewrite E2; clear E2; cbn [console calls]. rewrite <- !app_assoc.
  eexists. exists parts.
  exists (fun images => AStr ("🎨 [DRAFT GENERATION] Complete. Generated " ++ showNat (length images) ++ " images")).
  reflexivity.
Qed.

Lemma draftLogged_V3_onlyLogs (dna : BrandDNA) (inspirations : list Inspiration) (i : nat) :
  i < 4 -> OnlyLogs (V3.draftLogged (V3.variations dna inspirations) i) tt.
Proof.
  intros Hi. unfold V3.draftLogged.
  do 4 (destruct i as [|i]; [apply onlyLogs_emit|]). lia.
Qed.

Lemma generateDrafts_V3_run (h : Host) (dna : BrandDNA) (inspirations : list Inspiration)
    (type : AssetType) (subtype : string) (w : World) :
  truthy (API_KEY h) = true ->
  exists logs reqs final,
    length reqs = 4 /\
    V3.generateDrafts h dna inspirations type subtype w =
      collect h (V3.draftLogged (V3.variations dna inspirations)) final
        (answers h (calls w) reqs)
        (mkWorld (console w ++ logs) (calls w ++ map GenerateContent reqs)).
Proof.
  intros Hkey. unfold V3.generateDrafts.
  rewrite bind_run, getClient_run, Hkey.
  log_step. cbv zeta.
  set (parts := if truthy (logoImage dna)
                then [imagePart (show (logoImage dna));
                      textPart "Use the image above as the Brand Logo. Incorporate it into the design."]
                else []).
  assert (Hparts : OnlyLogs
            (if truthy (logoImage dna)
             then console_log [AStr "🖼️  [DRAFT GENERATION] Adding logo to parts"] ;;
                  ret [imagePart (show (logoImage dna));
                       textPart "Use the image above as the Brand Logo. Incorporate it into the design."]
             else ret []) parts).
  { unfold parts. destruct (truthy (logoImage dna)).
    - eapply onlyLogs_bind; [apply onlyLogs_emit | apply onlyLogs_ret].
    - apply onlyLogs_ret. }
  logs_step Hparts. log_step. rewrite bind_run.
  set (reqOf := fun variation : V3.Variation =>
         V3.draftRequest
           (parts ++ [textPart (V1.promptText h dna inspirations type subtype
                                  (str (V3.instruction variation)))])%list).
  match goal with |- context [spawnEach h ?rq 0 ?vs ?w1] =>
    assert (Hreq : forall idx x, OnlyLogs (rq idx x) (reqOf x));
      [| destruct (spawnEach_run h reqOf Hreq vs 0 w1) as [l2 E2] ]
  end.
  { intros idx x. unfold V3.buildPrompt.
    eapply onlyLogs_bind; [apply buildPrompt_onlyLogs|].
    eapply onlyLogs_bind; [apply onlyLogs_emit | apply onlyLogs_ret]. }
  rewrite E2; clear E2; cbn [console calls]. rewrite <- !app_assoc.
  eexists. exists (map reqOf (V3.variations dna inspirations)).
  exists (fun images => AStr ("🎨 [DRAFT GENERATION] Complete. Generated " ++ showNat (length images) ++ " images")).
  split; reflexivity.
Qed.

(** C1 (as amended). Each draft generator issues exactly four
    image-generation requests before it awaits any of them and awaits them
    together.  When one of the four is rejected the call is rejected.
    Otherwise the call returns, in the order of the requests, one image for
    every inline part of each response's first candidate: a response with no
    image payload adds nothing and the others are kept, the list is empty
    when no response carries a payload, and it holds at most four images when
    no response carries more than one. *)
Theorem generateDrafts_fanout (h : Host) (dna : BrandDNA) (inspirations : list Inspiration)
    (type : AssetType) (subtype : string) :
  FansOut h (V1.generateDrafts h dna inspirations type subtype) /\
  FansOut h (V3.generateDrafts h dna inspirations type subtype).
Proof.
  split; intros w; cbv zeta.
  - destruct (truthy (API_KEY h)) eqn:Hkey.
    + destruct (generateDrafts_V1_run h dna inspirations type subtype w Hkey)
        as (logs & parts & final & E).
      rewrite E. exists (repeat (V1.draftRequest parts) 4).
      split; [reflexivity|].
      match goal with |- context [collect h ?on ?fin ?ps ?w1] =>
        destruct (collect_run h on fin (repeat (V1.draftRequest parts) 4) (calls w) w1
                    eq_refl (fun i _ => onlyLogs_emit _ _)) as [C R] end.
      split; [exact C | exact R].
    + unfold V1.generateDrafts. rewrite bind_run, getClient_run, Hkey. split; reflexivity.
  - destruct (truthy (API_KEY h)) eqn:Hkey.
    + destruct (generateDrafts_V3_run h dna inspirations type subtype w Hkey)
        as (logs & reqs & final & Hlen & E).
      rewrite E. exists reqs.
      split; [exact Hlen|].
      match goal with |- context [collect h ?on ?fin ?ps ?w1] =>
        destruct (collect_run h on fin reqs (calls w) w1
                    Hlen (draftLogged_V3_onlyLogs dna inspirations)) as [C R] end.
      split; [exact C | exact R].
    + unfold V3.generateDrafts. rewrite bind_run, getClient_run, Hkey. split; reflexivity.
Qed.

(** Two of the four responses carry an image. *)
Lemma generateDrafts_fanout_witness :
  exists images,
    result (V3.generateDrafts
              (Demo.host (fun _ _ => Throw Demo.offline)
                 (fun past _ => if Nat.even (length past)
                                then Value (Demo.answer [Demo.image "AAAA"])
                                else Value (mkGenResponse None))
                 Demo.noVideos Demo.noProgress)
              Demo.acme [] MERCHANDISE "Hoodie" emptyWorld)
    = Value images /\
    length images <= 4.
Proof.
  pose proof (proj2 (generateDrafts_fanout
            (Demo.host (fun _ _ => Throw Demo.offline)
               (fun past _ => if Nat.even (length past)
                              then Value (Demo.answer [Demo.image "AAAA"])
                              else Value (mkGenResponse None))
               Demo.noVideos Demo.noProgress)
            Demo.acme [] MERCHANDISE "Hoodie") emptyWorld) as T.
  cbv zeta in T. cbn [API_KEY Demo.host truthy String.eqb negb] in T.
  destruct T as (reqs & Hlen & _ & T).
  destruct reqs as [|r1 [|r2 [|r3 [|r4 [|r5 reqs]]]]]; try discriminate Hlen.
  cbn in T. destruct T as [R B].
  eexists. split; [exact R|].
  apply B. intros res [<-|[<-|[<-|[<-|[]]]]]; cbn; lia.
Defined.

(** C1, the claim as stated fails: when none of the four responses carries
    an image the call returns the empty list and raises nothing; and when
    each response carries two images the call returns eight. *)
Lemma generateDrafts_returns_empty_and_eight :
  result (V1.generateDrafts
            (Demo.host (fun _ _ => Throw Demo.offline) Demo.noContent Demo.noVideos Demo.noProgress)
            Demo.acme [] MERCHANDISE "Hoodie" emptyWorld) = Value [] /\
  result (V3.generateDrafts
            (Demo.host (fun _ _ => Throw Demo.offline) Demo.noContent Demo.noVideos Demo.noProgress)
            Demo.acme [] MERCHANDISE "Hoodie" emptyWorld) = Value [] /\
  result (V1.generateDrafts
            (Demo.host (fun _ _ => Throw Demo.offline)
               (fun _ _ => Value (Demo.answer [Demo.image "AAAA"; Demo.image "BBBB"]))
               Demo.noVideos Demo.noProgress)
            Demo.acme [] MERCHANDISE "Hoodie" emptyWorld)
  = Value ["data:image/png;base64,AAAA"; "data:image/png;base64,BBBB";
           "data:image/png;base64,AAAA"; "data:image/png;base64,BBBB";
           "data:image/png;base64,AAAA"; "data:image/png;base64,BBBB";
           "data:image/png;base64,AAAA"; "data:image/png;base64,BBBB"].
Proof.
  repeat split; vm_compute; reflexivity.
Qed.

(** ** Video polling *)

Lemma pollOnce_run h op w :
  pollOnce h op w =
    (getVideosOperation h (calls w ++ [SetTimeout 5000]) op,
     mkWorld (console w) (calls w ++ pollCalls op)).
Proof.
  unfold pollOnce, sleep, issue. rewrite bind_run. cbn [console calls].
  unfold pollCalls. rewrite <- app_assoc. reflexivity.
Qed.

(** The loop's equation. *)
Lemma previewLoop_unfold (h : Host) (op : Operation) (n : nat) (w : World) :
  V3.previewLoop h op n w =
    if negb (done op) && (n <? 60)%nat then
      match pollOnce h op w with
      | (Throw e, w') => (Throw e, w')
      | (Value op', w') =>
          V3.previewLoop h op' (S n)
            (world (console_log [pollLine "🎬 [PREVIEW]" (S n) op'] w'))
      end
    else (Value (op, n), w).
Proof.
  funelim (V3.previewLoop h op n w); clear Heqcall.
  - rewrite e. reflexivity.
  - rewrite more. unfold pollOnce, sleep, issue, bind. cbn [console calls] in *.
    match goal with G : getVideosOperation _ _ _ = _ |- _ => rewrite G end.
    reflexivity.
  - rewrite more. unfold pollOnce, sleep, issue, bind. cbn [console calls] in *.
    match goal with G : getVideosOperation _ _ _ = _ |- _ => rewrite G end.
    reflexivity.
Qed.

Lemma previewLoop_run (h : Host) (k : nat) :
  forall (n : nat) (op : Operation) (w : World),
    60 - n <= k ->
    exists ops logs,
      n + length ops <= Nat.max n 60 /\
      world (V3.previewLoop h op n w)
        = mkWorld (console w ++ logs) (calls w ++ flat_map pollCalls ops) /\
      match result (V3.previewLoop h op n w) with
      | Throw _ => True
      | Value (final, n') =>
          n' = n + length ops /\ (done final = true \/ 60 <= n')
      end.
Proof.
  unfold result, world.
  induction k as [|k IH]; intros n op w Hk; rewrite previewLoop_unfold.
  - assert (E : (n <? 60)%nat = false) by (apply Nat.ltb_ge; lia).
    rewrite E, andb_false_r. exists [], []. cbn.
    rewrite !app_nil_r. destruct w as [cns cls]; cbn. repeat split; lia.
  - destruct (negb (done op) && (n <? 60)%nat) eqn:C.
    + apply andb_prop in C. destruct C as [_ C]. apply Nat.ltb_lt in C.
      rewrite pollOnce_run.
      destruct (getVideosOperation h (calls w ++ [SetTimeout 5000]) op) as [op'|e] eqn:G.
      * unfold console_log. rewrite emit_run. unfold world. cbn [snd console calls].
        match goal with |- context [V3.previewLoop h op' (S n) ?w1] =>
          destruct (IH (S n) op' w1 ltac:(lia)) as (ops & logs & B & W & R) end.
        exists (op :: ops). eexists. split; [cbn [length]; lia|].
        split.
        -- rewrite W. cbn [console calls flat_map]. rewrite <- !app_assoc. reflexivity.
        -- destruct (fst (V3.previewLoop h op' (S n) _)) as [[final n']|e]; [|exact I].
           destruct R as (R1 & R2). cbn [length]. split; [lia | exact R2].
      * exists [op], []. cbn. rewrite app_nil_r.
        repeat split. lia.
    + exists [], []. cbn.
      rewrite !app_nil_r. destruct w as [cns cls]; cbn. repeat split; try lia.
      destruct (done op); [left; reflexivity|]. right.
      cbn [negb andb] in C. apply Nat.ltb_ge in C. exact C.
Qed.

Lemma previewLoop_stalled (h : Host) (k : nat) :
  Stalled h ->
  forall (n : nat) (op : Operation) (w : World),
    60 - n <= k -> done op = false -> videoUriOf op = undefined ->
    exists final ops logs,
      n + length ops = Nat.max n 60 /\
      V3.previewLoop h op n w =
        (Value (final, Nat.max n 60),
         mkWorld (console w ++ logs) (calls w ++ flat_map pollCalls ops)) /\
      videoUriOf final = undefined.
Proof.
  intros Hst.
  induction k as [|k IH]; intros n op w Hk Hd Hu; rewrite previewLoop_unfold.
  - assert (E : (n <? 60)%nat = false) by (apply Nat.ltb_ge; lia).
    rewrite E, andb_false_r. exists op, [], []. cbn [length flat_map].
    rewrite !app_nil_r. destruct w as [cns cls]; cbn [console calls].
    replace (Nat.max n 60) with n by lia. repeat split; [lia | exact Hu].
  - rewrite Hd. cbn [negb andb]. destruct (n <? 60)%nat eqn:C.
    + apply Nat.ltb_lt in C. rewrite pollOnce_run.
      destruct (Hst (calls w ++ [SetTimeout 5000])%list op) as (op' & G & Hd' & Hu').
      rewrite G. unfold console_log. rewrite emit_run. unfold world. cbn [snd console calls].
      match goal with |- context [V3.previewLoop h op' (S n) ?w1] =>
        destruct (IH (S n) op' w1 ltac:(lia) Hd' Hu') as (final & ops & logs & B & W & U) end.
      exists final, (op :: ops). eexists. split; [cbn [length]; lia|].
      split; [|exact U].
      rewrite W. cbn [console calls flat_map]. rewrite <- !app_assoc.
      replace (Nat.max (S n) 60) with (Nat.max n 60) by lia. reflexivity.
    + apply Nat.ltb_ge in C. exists op, [], []. cbn [length flat_map].
      rewrite !app_nil_r. destruct w as [cns cls]; cbn [console calls].
      replace (Nat.max n 60) with n by lia. repeat split; [lia | exact Hu].
Qed.

(** The preview seen as its loop followed by the reading of the URI. *)
Lemma generateRealWorldPreview_run (h : Host) (sceneJson : V3.Scene -> string -> BrandDNA -> string)
    (assetImage subtype : string) (dna : BrandDNA) (w : World) (op0 : Operation) :
  truthy (API_KEY h) = true ->
  generateVideos h (calls w)
    (videoRequest "veo-3.1-generate-preview" (V3.previewPrompt h sceneJson subtype dna) assetImage)
    = Value op0 ->
  exists w1 logs,
    calls w1 = (calls w ++ [GenerateVideos
                 (videoRequest "veo-3.1-generate-preview"
                    (V3.previewPrompt h sceneJson subtype dna) assetImage)])%list /\
    V3.generateRealWorldPreview h sceneJson assetImage subtype dna w =
      (match result (V3.previewLoop h op0 0 w1) with
       | Throw e => Throw e
       | Value (final, _) =>
           if truthy (videoUriOf final) then Value (keyed h (videoUriOf final))
           else Throw (Error "Preview generation failed")
       end,
       mkWorld (console (world (V3.previewLoop h op0 0 w1)) ++ logs)
               (calls (world (V3.previewLoop h op0 0 w1)))).
Proof.
  intros Hkey Hstart. unfold V3.generateRealWorldPreview.
  rewrite bind_run, getClient_run, Hkey. cbv zeta.
  log_step. log_step. log_step.
  rewrite bind_run. unfold startVideo, issue. cbn [console calls]. rewrite Hstart.
  log_step. rewrite bind_run.
  match goal with |- context [V3.previewLoop h op0 0 ?w1] => exists w1 end.
  unfold result, world.
  destruct (V3.previewLoop h op0 0 _) as [[[final n]|e] w2]; cbn [fst snd].
  - destruct (truthy (videoUriOf final)); cbn [negb].
    + log_step. unfold ret. eexists. split; reflexivity.
    + rewrite bind_run. unfold console_error. rewrite emit_run. unfold throw.
      cbn [console calls]. eexists. split; reflexivity.
  - exists []. rewrite app_nil_r. destruct w2. split; reflexivity.
Qed.

(** C2 (as amended). The polling loop of [generateRealWorldPreview] sleeps
    five seconds before each poll and polls at most sixty times; the call
    always terminates.  When the service never reports completion the loop
    stops after exactly sixty polls and the call fails with the error
    "Preview generation failed", the same error it raises for a completed
    job that carries no URI: a timeout is not told apart from a failure. *)
Theorem generateRealWorldPreview_polling (h : Host)
    (sceneJson : V3.Scene -> string -> BrandDNA -> string)
    (assetImage subtype : string) (dna : BrandDNA) (w : World) :
  let run := V3.generateRealWorldPreview h sceneJson assetImage subtype dna w in
  let req := videoRequest "veo-3.1-generate-preview"
               (V3.previewPrompt h sceneJson subtype dna) assetImage in
  (exists ops,
     length ops <= 60 /\
     (calls (world run) = calls w \/
      calls (world run) = (calls w ++ GenerateVideos req :: flat_map pollCalls ops)%list)) /\
  (truthy (API_KEY h) = true ->
   forall op0, generateVideos h (calls w) req = Value op0 ->
     (done op0 = false -> videoUriOf op0 = undefined -> Stalled h ->
      result run = Throw (Error "Preview generation failed") /\
      exists ops,
        length ops = 60 /\
        calls (world run) = (calls w ++ GenerateVideos req :: flat_map pollCalls ops)%list) /\
     (done op0 = true -> truthy (videoUriOf op0) = false ->
      result run = Throw (Error "Preview generation failed") /\
      calls (world run) = (calls w ++ [GenerateVideos req])%list)).
Proof.
  cbv zeta. split.
  - destruct (truthy (API_KEY h)) eqn:Hkey.
    + destruct (generateVideos h (calls w)
                  (videoRequest "veo-3.1-generate-preview"
                     (V3.previewPrompt h sceneJson subtype dna) assetImage)) as [op0|e] eqn:Hstart.
      * destruct (generateRealWorldPreview_run h sceneJson assetImage subtype dna w op0 Hkey Hstart)
          as (w1 & logs & Hw1 & E).
        rewrite E. unfold world at 1 3. cbn [snd calls].
        destruct (previewLoop_run h 60 0 op0 w1 ltac:(lia)) as (ops & lg & B & W & _).
        exists ops. split; [cbn in B; lia|]. right.
        rewrite W. cbn [calls]. rewrite Hw1, <- app_assoc. reflexivity.
      * exists []. split; [cbn; lia|]. right.
        unfold V3.generateRealWorldPreview.
        rewrite bind_run, getClient_run, Hkey. cbv zeta.
        log_step. log_step. log_step.
        rewrite bind_run. unfold startVideo, issue. cbn [console calls]. rewrite Hstart.
        reflexivity.
    + exists []. split; [cbn; lia|]. left.
      unfold V3.generateRealWorldPreview. rewrite bind_run, getClient_run, Hkey. reflexivity.
  - intros Hkey op0 Hstart.
    destruct (generateRealWorldPreview_run h sceneJson assetImage subtype dna w op0 Hkey Hstart)
      as (w1 & logs & Hw1 & E).
    rewrite E. unfold result at 1 3, world at 1 3 5. cbn [fst snd calls]. clear E.
    split.
    + intros Hd Hu Hst.
      destruct (previewLoop_stalled h 60 Hst 0 op0 w1 ltac:(lia) Hd Hu)
        as (final & ops & lg & B & L & U).
      rewrite L. unfold result, world. cbn [fst snd calls]. rewrite U. cbn [truthy].
      split; [reflexivity|]. exists ops. split; [cbn in B; lia|].
      rewrite Hw1, <- app_assoc. reflexivity.
    + intros Hd Hu. rewrite previewLoop_unfold, Hd. cbn [negb andb].
      unfold result, world. cbn [fst snd]. rewrite Hu. split; [reflexivity | exact Hw1].
Qed.

Lemma stalled_is_stalled : Stalled Demo.stalled.
Proof. intros past op. eexists. repeat split. Qed.

(** A job that never completes is given up after sixty polls. *)
Lemma generateRealWorldPreview_polling_witness :
  result (V3.generateRealWorldPreview Demo.stalled Demo.scene
            "data:image/png;base64,AAAA" "Hoodie" Demo.acme emptyWorld)
    = Throw (Error "Preview generation failed") /\
  exists ops,
    length ops = 60 /\
    calls (world (V3.generateRealWorldPreview Demo.stalled Demo.scene
                    "data:image/png;base64,AAAA" "Hoodie" Demo.acme emptyWorld))
    = (calls emptyWorld ++
       GenerateVideos (videoRequest "veo-3.1-generate-preview"
                         (V3.previewPrompt Demo.stalled Demo.scene "Hoodie" Demo.acme)
                         "data:image/png;base64,AAAA")
       :: flat_map pollCalls ops)%list.
Proof.
  exact (proj1 (proj2 (generateRealWorldPreview_polling Demo.stalled Demo.scene
                         "data:image/png;base64,AAAA" "Hoodie" Demo.acme emptyWorld)
                      eq_refl (mkOperation false None) eq_refl)
               eq_refl eq_refl stalled_is_stalled).
Defined.

(** C2, the claim as stated fails: a job that never completes and a job
    that completes without a result end in the same error, so the timeout is
    reported as an ordinary failure; and the loop of
    [generateVisualizationVideo] is still polling after sixty-one polls. *)
Lemma timeout_reported_as_failure :
  result (V3.generateRealWorldPreview Demo.stalled Demo.scene
            "data:image/png;base64,AAAA" "Hoodie" Demo.acme emptyWorld)
    = Throw (Error "Preview generation failed") /\
  result (V3.generateRealWorldPreview (Demo.completing None) Demo.scene
            "data:image/png;base64,AAAA" "Hoodie" Demo.acme emptyWorld)
    = Throw (Error "Preview generation failed") /\
  result (V1.generateVisualizationVideo Demo.stalled 61
            "data:image/png;base64,AAAA" "Hoodie" emptyWorld) = Value None /\
  polls (calls (world (V1.generateVisualizationVideo Demo.stalled 61
                         "data:image/png;base64,AAAA" "Hoodie" emptyWorld))) = 61.
Proof.
  repeat split; vm_compute; reflexivity.
Qed.

(** The loop of [generateVisualizationVideo] has no bound: against a
    service that never reports completion it is still polling after any
    number of polls. *)
Lemma pollUntilDone_stalled (h : Host) :
  Stalled h ->
  forall (fuel : nat) (op : Operation) (n : nat) (w : World),
    done op = false ->
    exists ops logs,
      length ops = fuel /\
      pollUntilDone h fuel op n w =
        (Value None, mkWorld (console w ++ logs) (calls w ++ flat_map pollCalls ops)).
Proof.
  intros Hst. induction fuel as [|fuel IH]; intros op n w Hd.
  - exists [], []. cbn [pollUntilDone]. rewrite Hd. cbn. rewrite !app_nil_r.
    destruct w; split; reflexivity.
  - cbn [pollUntilDone]. rewrite Hd. rewrite bind_run, pollOnce_run.
    destruct (Hst (calls w ++ [SetTimeout 5000])%list op) as (op' & G & Hd' & _).
    rewrite G. log_step.
    match goal with |- context [pollUntilDone h fuel op' (S n) ?w1] =>
      destruct (IH op' (S n) w1 Hd') as (ops & logs & L & E) end.
    rewrite E. exists (op :: ops). eexists. split; [cbn [length]; lia|].
    cbn [console calls flat_map]. rewrite <- !app_assoc. reflexivity.
Qed.

(** ** The keyed video URL *)

Lemma truthy_str (v : jstr) : truthy v = true -> exists s, v = str s.
Proof. destruct v; cbn; try discriminate. intros _. eexists. reflexivity. Qed.

(** The unbounded loop follows the service's answers: it stops at the first
    handle that is done, when it is granted the polls this takes. *)
Lemma polled_pollUntilDone (h : Host) past op ops final :
  Polled h past op ops final -> done final = true ->
  forall fuel n w, calls w = past -> length ops <= fuel ->
    exists logs,
      pollUntilDone h fuel op n w =
        (Value (Some (final, n + length ops)),
         mkWorld (console w ++ logs) (past ++ flat_map pollCalls ops)).
Proof.
  induction 1 as [past op | past op op' ops final Hd G P IH]; intros Hf fuel n w Hw Hl.
  - exists []. destruct fuel; cbn [pollUntilDone]; rewrite Hf; unfold ret;
      cbn [length flat_map]; rewrite Nat.add_0_r, !app_nil_r; destruct w; cbn in Hw; subst; reflexivity.
  - destruct fuel as [|fuel]; [cbn in Hl; lia|].
    cbn [pollUntilDone]. rewrite Hd, bind_run, pollOnce_run, Hw, G. log_step.
    match goal with |- context [pollUntilDone h fuel op' (S n) ?w1] =>
      destruct (IH Hf fuel (S n) w1 eq_refl ltac:(cbn in Hl; lia)) as [logs E] end.
    rewrite E. cbn [console calls length flat_map]. eexists.
    rewrite <- !app_assoc. replace (S n + length ops) with (n + S (length ops)) by lia.
    reflexivity.
Qed.

(** What the unbounded loop returns is where the service's answers led. *)
Lemma pollUntilDone_polled (h : Host) :
  forall fuel op n w final n' w',
    pollUntilDone h fuel op n w = (Value (Some (final, n')), w') ->
    exists ops,
      Polled h (calls w) op ops final /\ done final = true /\ length ops <= fuel.
Proof.
  induction fuel as [|fuel IH]; intros op n w final n' w' E; cbn [pollUntilDone] in E.
  - destruct (done op) eqn:Hd; [|discriminate]. injection E as <- _ _.
    exists []. split; [constructor|]. split; [exact Hd | cbn; lia].
  - destruct (done op) eqn:Hd.
    + injection E as <- _ _. exists []. split; [constructor|]. split; [exact Hd | cbn; lia].
    + rewrite bind_run, pollOnce_run in E.
      destruct (getVideosOperation h (calls w ++ [SetTimeout 5000]) op) as [op'|e] eqn:G;
        [|discriminate].
      revert E. log_step. intros E.
      destruct (IH _ _ _ _ _ _ E) as (ops & P & Hf & Hl). cbn [calls] in P.
      exists (op :: ops). split; [|split; [exact Hf | cbn [length]; lia]].
      econstructor; eassumption.
Qed.

(** The same for the loop of the second revision. *)
Lemma polled_pollUntilDone_V2 (h : Host) past op ops final :
  Polled h past op ops final -> done final = true ->
  forall fuel w, calls w = past -> length ops <= fuel ->
    V2Service.pollUntilDone h fuel op w =
      (Value (Some final), mkWorld (console w) (past ++ flat_map pollCalls ops)).
Proof.
  induction 1 as [past op | past op op' ops final Hd G P IH]; intros Hf fuel w Hw Hl.
  - destruct fuel; cbn [V2Service.pollUntilDone]; rewrite Hf; unfold ret;
      cbn [flat_map]; rewrite app_nil_r; destruct w; cbn in Hw; subst; reflexivity.
  - destruct fuel as [|fuel]; [cbn in Hl; lia|].
    cbn [V2Service.pollUntilDone]. rewrite Hd, bind_run, pollOnce_run, Hw, G.
    match goal with |- context [V2Service.pollUntilDone h fuel op' ?w1] =>
      rewrite (IH Hf fuel w1 eq_refl ltac:(cbn in Hl; lia)) end.
    cbn [console calls flat_map]. rewrite <- !app_assoc. reflexivity.
Qed.

Lemma pollUntilDone_V2_polled (h : Host) :
  forall fuel op w final w',
    V2Service.pollUntilDone h fuel op w = (Value (Some final), w') ->
    exists ops,
      Polled h (calls w) op ops final /\ done final = true /\ length ops <= fuel.
Proof.
  induction fuel as [|fuel IH]; intros op w final w' E; cbn [V2Service.pollUntilDone] in E.
  - destruct (done op) eqn:Hd; [|discriminate]. injection E as <- _.
    exists []. split; [constructor|]. split; [exact Hd | cbn; lia].
  - destruct (done op) eqn:Hd.
    + injection E as <- _. exists []. split; [constructor|]. split; [exact Hd | cbn; lia].
    + rewrite bind_run, pollOnce_run in E.
      destruct (getVideosOperation h (calls w ++ [SetTimeout 5000]) op) as [op'|e] eqn:G;
        [|discriminate].
      destruct (IH _ _ _ _ E) as (ops & P & Hf & Hl). cbn [calls] in P.
      exists (op :: ops). split; [|split; [exact Hf | cbn [length]; lia]].
      econstructor; eassumption.
Qed.

(** The bounded loop stops at the first handle that is done, or with the
    handle in hand after sixty polls. *)
Lemma polled_previewLoop (h : Host) past op ops final :
  Polled h past op ops final ->
  forall n w, calls w = past -> n + length ops <= 60 ->
    done final = true \/ n + length ops = 60 ->
    exists logs,
      V3.previewLoop h op n w =
        (Value (final, n + length ops),
         mkWorld (console w ++ logs) (past ++ flat_map pollCalls ops)).
Proof.
  induction 1 as [past op | past op op' ops final Hd G P IH]; intros n w Hw Hl Hs;
    rewrite previewLoop_unfold.
  - cbn [length] in *. rewrite Nat.add_0_r in *.
    assert (C : negb (done op) && (n <? 60)%nat = false).
    { destruct Hs as [Hs|Hs]; [rewrite Hs; reflexivity|].
      apply andb_false_iff. right. apply Nat.ltb_ge. lia. }
    rewrite C. exists []. cbn [flat_map]. rewrite !app_nil_r.
    destruct w; cbn in Hw; subst; reflexivity.
  - cbn [length] in *.
    assert (C : (n <? 60)%nat = true) by (apply Nat.ltb_lt; lia).
    rewrite Hd, C. cbn [negb andb]. rewrite pollOnce_run, Hw, G.
    unfold console_log. rewrite emit_run. unfold world. cbn [snd console calls].
    match goal with |- context [V3.previewLoop h op' (S n) ?w1] =>
      destruct (IH (S n) w1 eq_refl ltac:(lia) ltac:(destruct Hs; [left; assumption | right; lia]))
        as [logs E] end.
    rewrite E. cbn [console calls flat_map]. eexists.
    rewrite <- !app_assoc. replace (S n + length ops) with (n + S (length ops)) by lia.
    reflexivity.
Qed.

Lemma previewLoop_polled (h : Host) (k : nat) :
  forall n op w final n' w',
    60 - n <= k -> n <= 60 ->
    V3.previewLoop h op n w = (Value (final, n'), w') ->
    exists ops,
      Polled h (calls w) op ops final /\ n' = n + length ops /\
      n' <= 60 /\ (done final = true \/ n' = 60).
Proof.
  induction k as [|k IH]; intros n op w final n' w' Hk Hn; rewrite previewLoop_unfold.
  - assert (E : (n <? 60)%nat = false) by (apply Nat.ltb_ge; lia).
    rewrite E, andb_false_r. intros R. injection R as <- <- _.
    exists []. cbn [length]. split; [constructor|]. repeat split; lia.
  - destruct (negb (done op) && (n <? 60)%nat) eqn:C.
    + apply andb_prop in C. destruct C as [Hd C]. apply Nat.ltb_lt in C.
      apply negb_true_iff in Hd.
      rewrite pollOnce_run.
      destruct (getVideosOperation h (calls w ++ [SetTimeout 5000]) op) as [op'|e] eqn:G;
        [|discriminate].
      unfold console_log. rewrite emit_run. unfold world. cbn [snd console calls].
      intros R. apply IH in R; [|lia|lia]. destruct R as (ops & P & -> & B & S).
      cbn [calls] in P. exists (op :: ops). cbn [length].
      split; [econstructor; eassumption|]. repeat split; try lia. exact S.
    + intros R. injection R as <- <- _.
      exists []. cbn [length]. split; [constructor|]. repeat split; try lia.
      apply andb_false_iff in C. destruct C as [C|C].
      * left. apply negb_false_iff. exact C.
      * right. apply Nat.ltb_ge in C. lia.
Qed.

(** [keyed] on a handle that carries a URI, under a key. *)
Lemma keyed_KeyedUriOf (h : Host) (final : Operation) (url : string) :
  truthy (API_KEY h) = true -> truthy (videoUriOf final) = true ->
  (url = keyed h (videoUriOf final) <-> KeyedUriOf h final url).
Proof.
  intros Hkey Huri.
  destruct (truthy_str _ Hkey) as [key Ek]. destruct (truthy_str _ Huri) as [u Eu].
  unfold keyed, KeyedUriOf. rewrite Ek, Eu in *. cbn [show]. split.
  - intros ->. exists u, key. repeat split; assumption.
  - intros (u' & key' & E1 & _ & E2 & _ & ->). injection E1 as <-. injection E2 as <-.
    reflexivity.
Qed.

Lemma KeyedUriOf_truthy (h : Host) (final : Operation) (url : string) :
  KeyedUriOf h final url ->
  truthy (API_KEY h) = true /\ truthy (videoUriOf final) = true.
Proof.
  intros (u & key & E1 & T1 & E2 & T2 & _). rewrite E1, E2. split; assumption.
Qed.

(** The clip seen as its loop followed by the reading of the URI. *)
Lemma visualizationVideo_run (h : Host) (model : string) (fuel : nat)
    (assetImage subtype : string) (w : World) (op0 : Operation) :
  truthy (API_KEY h) = true ->
  generateVideos h (calls w) (videoRequest model (visualizationPrompt h subtype) assetImage)
    = Value op0 ->
  exists w1,
    calls w1 = (calls w ++ [GenerateVideos
                 (videoRequest model (visualizationPrompt h subtype) assetImage)])%list /\
    result (visualizationVideo h model fuel assetImage subtype w) =
      match result (pollUntilDone h fuel op0 0 w1) with
      | Throw e => Throw e
      | Value None => Value None
      | Value (Some (final, _)) =>
          if truthy (videoUriOf final) then Value (Some (keyed h (videoUriOf final)))
          else Throw (Error "Video generation failed")
      end.
Proof.
  intros Hkey Hstart. unfold visualizationVideo.
  rewrite bind_run, getClient_run, Hkey. cbv zeta.
  log_step. log_step. log_step.
  rewrite bind_run. unfold startVideo, issue. cbn [console calls]. rewrite Hstart.
  log_step. rewrite bind_run.
  match goal with |- context [pollUntilDone h fuel op0 0 ?w1] => exists w1 end.
  split; [reflexivity|]. unfold result.
  destruct (pollUntilDone h fuel op0 0 _) as [[[[final n]|]|e] w2]; cbn [fst]; try reflexivity.
  destruct (truthy (videoUriOf final)); cbn [negb].
  - log_step. reflexivity.
  - rewrite bind_run. unfold console_error. rewrite emit_run. reflexivity.
Qed.

(** When each function hands back a URL. *)
Lemma visualizationVideo_delivers (h : Host) (model : string) (fuel : nat)
    (assetImage subtype : string) (w : World) (url : string) :
  result (visualizationVideo h model fuel assetImage subtype w) = Value (Some url) <->
  Delivers h (calls w) (videoRequest model (visualizationPrompt h subtype) assetImage)
    (doneWithin fuel) url.
Proof.
  split.
  - intros R.
    destruct (truthy (API_KEY h)) eqn:Hkey.
    2:{ revert R. unfold visualizationVideo. rewrite bind_run, getClient_run, Hkey. discriminate. }
    destruct (generateVideos h (calls w)
                (videoRequest model (visualizationPrompt h subtype) assetImage))
      as [op0|e] eqn:Hstart.
    2:{ revert R. unfold visualizationVideo. rewrite bind_run, getClient_run, Hkey. cbv zeta.
        log_step. log_step. log_step.
        rewrite bind_run. unfold startVideo, issue. cbn [console calls]. rewrite Hstart.
        discriminate. }
    destruct (visualizationVideo_run h model fuel assetImage subtype w op0 Hkey Hstart)
      as (w1 & Hw1 & E).
    rewrite E in R. unfold result in R.
    destruct (pollUntilDone h fuel op0 0 w1) as [[[[final n]|]|e] w2] eqn:L; cbn [fst] in R;
      try discriminate R.
    destruct (truthy (videoUriOf final)) eqn:Huri; [|discriminate R].
    injection R as <-.
    destruct (pollUntilDone_polled h _ _ _ _ _ _ _ L) as (ops & P & Hd & Hl).
    rewrite Hw1 in P.
    exists op0, ops, final. split; [exact Hstart|]. split; [exact P|].
    split; [split; assumption|]. apply keyed_KeyedUriOf; [assumption..|reflexivity].
  - intros (op0 & ops & final & Hstart & P & [Hd Hl] & K).
    destruct (KeyedUriOf_truthy _ _ _ K) as [Hkey Huri].
    destruct (visualizationVideo_run h model fuel assetImage subtype w op0 Hkey Hstart)
      as (w1 & Hw1 & E).
    rewrite E.
    destruct (polled_pollUntilDone h _ _ _ _ P Hd fuel 0 w1 Hw1 Hl) as [logs L].
    rewrite L. unfold result. cbn [fst]. rewrite Huri.
    apply (keyed_KeyedUriOf h final url Hkey Huri) in K. rewrite K. reflexivity.
Qed.

Lemma generateVisualizationVideo_V2_delivers (h : Host) (fuel : nat)
    (assetImage subtype : string) (w : World) (url : string) :
  result (V2Service.generateVisualizationVideo h fuel assetImage subtype w) = Value (Some url) <->
  Delivers h (calls w)
    (videoRequest "veo-3.1-fast-generate-preview" (visualizationPrompt h subtype) assetImage)
    (doneWithin fuel) url.
Proof.
  unfold V2Service.generateVisualizationVideo. rewrite bind_run, getClient_run. cbv zeta.
  split.
  - destruct (truthy (API_KEY h)) eqn:Hkey; [|discriminate].
    rewrite bind_run. unfold startVideo, issue. cbn [console calls].
    destruct (generateVideos h (calls w) _) as [op0|e] eqn:Hstart; [|discriminate].
    rewrite bind_run.
    destruct (V2Service.pollUntilDone h fuel op0 _) as [[[final|]|e] w2] eqn:L;
      try discriminate.
    destruct (truthy (videoUriOf final)) eqn:Huri; cbn [negb]; [|discriminate].
    unfold ret, result. cbn [fst]. intros R. injection R as <-.
    destruct (pollUntilDone_V2_polled h _ _ _ _ _ L) as (ops & P & Hd & Hl).
    cbn [calls] in P.
    exists op0, ops, final. split; [exact Hstart|]. split; [exact P|].
    split; [split; assumption|]. apply keyed_KeyedUriOf; [assumption..|reflexivity].
  - intros (op0 & ops & final & Hstart & P & [Hd Hl] & K).
    destruct (KeyedUriOf_truthy _ _ _ K) as [Hkey Huri].
    rewrite Hkey, bind_run. unfold startVideo, issue. cbn [console calls]. rewrite Hstart.
    rewrite bind_run.
    match goal with |- context [V2Service.pollUntilDone h fuel op0 ?w1] =>
      rewrite (polled_pollUntilDone_V2 h _ _ _ _ P Hd fuel w1 eq_refl Hl) end.
    rewrite Huri. cbn [negb]. unfold ret, result. cbn [fst].
    apply (keyed_KeyedUriOf h final url Hkey Huri) in K. rewrite K. reflexivity.
Qed.

Lemma generateRealWorldPreview_delivers (h : Host)
    (sceneJson : V3.Scene -> string -> BrandDNA -> string)
    (assetImage subtype : string) (dna : BrandDNA) (w : World) (url : string) :
  result (V3.generateRealWorldPreview h sceneJson assetImage subtype dna w) = Value url <->
  Delivers h (calls w)
    (videoRequest "veo-3.1-generate-preview" (V3.previewPrompt h sceneJson subtype dna) assetImage)
    doneOrSixty url.
Proof.
  split.
  - intros R.
    destruct (truthy (API_KEY h)) eqn:Hkey.
    2:{ revert R. unfold V3.generateRealWorldPreview.
        rewrite bind_run, getClient_run, Hkey. discriminate. }
    destruct (generateVideos h (calls w)
                (videoRequest "veo-3.1-generate-preview"
                   (V3.previewPrompt h sceneJson subtype dna) assetImage)) as [op0|e] eqn:Hstart.
    2:{ revert R. unfold V3.generateRealWorldPreview.
        rewrite bind_run, getClient_run, Hkey. cbv zeta.
        log_step. log_step. log_step.
        rewrite bind_run. unfold startVideo, issue. cbn [console calls]. rewrite Hstart.
        discriminate. }
    destruct (generateRealWorldPreview_run h sceneJson assetImage subtype dna w op0 Hkey Hstart)
      as (w1 & logs & Hw1 & E).
    rewrite E in R. unfold result in R. cbn [fst] in R.
    destruct (V3.previewLoop h op0 0 w1) as [[[final n]|e] w2] eqn:L; cbn [fst] in R;
      [|discriminate R].
    destruct (truthy (videoUriOf final)) eqn:Huri; [|discriminate R].
    injection R as <-.
    destruct (previewLoop_polled h 60 0 op0 w1 final n w2 ltac:(lia) ltac:(lia) L)
      as (ops & P & -> & B & S).
    rewrite Hw1 in P. cbn in B, S.
    exists op0, ops, final. split; [exact Hstart|]. split; [exact P|].
    split; [split; assumption|]. apply keyed_KeyedUriOf; [assumption..|reflexivity].
  - intros (op0 & ops & final & Hstart & P & [Hl Hs] & K).
    destruct (KeyedUriOf_truthy _ _ _ K) as [Hkey Huri].
    destruct (generateRealWorldPreview_run h sceneJson assetImage subtype dna w op0 Hkey Hstart)
      as (w1 & logs & Hw1 & E).
    rewrite E.
    destruct (polled_previewLoop h _ _ _ _ P 0 w1 Hw1 ltac:(cbn; lia) ltac:(cbn; tauto))
      as [lg L].
    rewrite L. unfold result. cbn [fst]. rewrite Huri.
    apply (keyed_KeyedUriOf h final url Hkey Huri) in K. rewrite K. reflexivity.
Qed.

(** C10. A video URL is handed back exactly when the service delivers a
    video, and it is then the video URI of the job's last handle followed by
    [&key=] and the process API key.  For [generateVisualizationVideo] in the
    three revisions and for [generateRealWorldPreview]: the call returns
    [url] if and only if the key is set, the service accepts the function's
    own request, its answers to the polls of that job lead to the handle at
    which the function's loop stops, this handle carries a URI, and [url] is
    the URI with the key appended.  The loop of [generateVisualizationVideo]
    stops at the first handle that is done, whatever number of polls this
    takes: the URL is returned as soon as the model is granted that many.
    The loop of [generateRealWorldPreview] stops at the first handle that is
    done or with the handle in hand after sixty polls. *)
Theorem video_url_carries_key (h : Host) (assetImage subtype : string) (w : World)
    (url : string) :
  let clip model := videoRequest model (visualizationPrompt h subtype) assetImage in
  (forall fuel,
     result (V1.generateVisualizationVideo h fuel assetImage subtype w) = Value (Some url) <->
     Delivers h (calls w) (clip "veo-2.0-generate-exp") (doneWithin fuel) url) /\
  (forall fuel,
     result (V2Service.generateVisualizationVideo h fuel assetImage subtype w) = Value (Some url) <->
     Delivers h (calls w) (clip "veo-3.1-fast-generate-preview") (doneWithin fuel) url) /\
  (forall fuel,
     result (V3.generateVisualizationVideo h fuel assetImage subtype w) = Value (Some url) <->
     Delivers h (calls w) (clip "veo-3.1-generate-preview") (doneWithin fuel) url) /\
  (forall sceneJson dna,
     result (V3.generateRealWorldPreview h sceneJson assetImage subtype dna w) = Value url <->
     Delivers h (calls w)
       (videoRequest "veo-3.1-generate-preview" (V3.previewPrompt h sceneJson subtype dna)
          assetImage)
       doneOrSixty url).
Proof.
  cbv zeta. split; [|split; [|split]].
  - intros fuel. apply visualizationVideo_delivers.
  - intros fuel. apply generateVisualizationVideo_V2_delivers.
  - intros fuel. apply visualizationVideo_delivers.
  - intros sceneJson dna. apply generateRealWorldPreview_delivers.
Qed.

(** The service of [Demo.rendering] delivers its video on the second poll. *)
Lemma rendering_delivers (req : VideoRequest) (stops : Operation -> nat -> Prop) :
  stops (Demo.finished (Some "https://videos.example/v1?alt=media")) 2 ->
  Delivers (Demo.rendering "https://videos.example/v1?alt=media") [] req stops
    "https://videos.example/v1?alt=media&key=KEY".
Proof.
  intros S.
  exists (mkOperation false None), [mkOperation false None; mkOperation false None],
         (Demo.finished (Some "https://videos.example/v1?alt=media")).
  split; [reflexivity|]. split.
  - apply PolledOnce with (op' := mkOperation false None); [reflexivity..|].
    apply PolledOnce with (op' := Demo.finished (Some "https://videos.example/v1?alt=media"));
      [reflexivity..|].
    apply PolledNone.
  - split; [exact S|].
    exists "https://videos.example/v1?alt=media", "KEY". repeat split.
Qed.

(** A job that completes on the second poll: each of the four functions
    hands back the service's URI with the key. *)
Lemma video_url_carries_key_witness :
  result (V1.generateVisualizationVideo (Demo.rendering "https://videos.example/v1?alt=media")
            2 "data:image/png;base64,AAAA" "Hoodie" emptyWorld)
    = Value (Some "https://videos.example/v1?alt=media&key=KEY") /\
  result (V2Service.generateVisualizationVideo
            (Demo.rendering "https://videos.example/v1?alt=media")
            2 "data:image/png;base64,AAAA" "Hoodie" emptyWorld)
    = Value (Some "https://videos.example/v1?alt=media&key=KEY") /\
  result (V3.generateVisualizationVideo (Demo.rendering "https://videos.example/v1?alt=media")
            7 "data:image/png;base64,AAAA" "Hoodie" emptyWorld)
    = Value (Some "https://videos.example/v1?alt=media&key=KEY") /\
  result (V3.generateRealWorldPreview (Demo.rendering "https://videos.example/v1?alt=media")
            Demo.scene "data:image/png;base64,AAAA" "Hoodie" Demo.acme emptyWorld)
    = Value "https://videos.example/v1?alt=media&key=KEY".
Proof.
  destruct (video_url_carries_key (Demo.rendering "https://videos.example/v1?alt=media")
              "data:image/png;base64,AAAA" "Hoodie" emptyWorld
              "https://videos.example/v1?alt=media&key=KEY") as (T1 & T2 & T3 & T4).
  split; [|split; [|split]].
  - apply T1. apply rendering_delivers. split; [reflexivity | lia].
  - apply T2. apply rendering_delivers. split; [reflexivity | lia].
  - apply T3. apply rendering_delivers. split; [reflexivity | lia].
  - apply T4. apply rendering_delivers. split; [lia | left; reflexivity].
Defined.

(** ** Substrings *)

Lemma append_assoc (a b c : string) : (a ++ b) ++ c = a ++ b ++ c.
Proof. induction a as [|x a IH]; cbn; [reflexivity | rewrite IH; reflexivity]. Qed.

Lemma prefix_split (p s : string) : String.prefix p s = true -> exists r, s = p ++ r.
Proof.
  revert s. induction p as [|x p IH]; intros s H.
  - exists s. reflexivity.
  - destruct s as [|y s]; cbn in H; [discriminate|].
    destruct (Ascii.ascii_dec x y) as [->|N]; [|discriminate].
    destruct (IH s H) as [r ->]. exists r. reflexivity.
Qed.

Lemma includes_contains (s p : string) : includes s p = true -> contains s p.
Proof.
  induction s as [|x s IH]; cbn [includes]; intros H.
  - rewrite orb_false_r in H. destruct (prefix_split _ _ H) as [r E].
    exists "", r. exact E.
  - apply orb_prop in H. destruct H as [H|H].
    + destruct (prefix_split _ _ H) as [r E]. exists "", r. exact E.
    + destruct (IH H) as (b & a & ->). exists (String x b), a. reflexivity.
Qed.

Lemma contains_app_l (a b p : string) : contains a p -> contains (a ++ b) p.
Proof.
  intros (x & y & ->). exists x, (y ++ b). rewrite !append_assoc. reflexivity.
Qed.

Lemma contains_app_r (a b p : string) : contains b p -> contains (a ++ b) p.
Proof.
  intros (x & y & ->). exists (a ++ x), y. rewrite !append_assoc. reflexivity.
Qed.

Lemma contains_mid (a v b : string) : contains (a ++ v ++ b) v.
Proof. exists a, b. reflexivity. Qed.

(** Find a closed string in a concatenation of literals and variables. *)
Ltac find_text :=
  first [ solve [apply includes_contains; vm_compute; reflexivity]
        | solve [apply contains_app_l; apply includes_contains; vm_compute; reflexivity]
        | apply contains_app_r; find_text
        | apply contains_app_l; find_text ].

(** ** analyzeAnnotations *)

Lemma or_else_falsy (v : jstr) (d : string) : truthy v = false -> or_else v d = d.
Proof.
  destruct v as [| |s]; cbn; try reflexivity.
  destruct (s =? ""); [reflexivity | discriminate].
Qed.

Lemma getClient_throws (h : Host) {A} (k : unit -> IO A) (w : World) :
  truthy (API_KEY h) = false ->
  bind (getClient h) k w = (Throw (Error "API Key not found. Please select a key."), w).
Proof. intros Hk. rewrite bind_run, getClient_run, Hk. reflexivity. Qed.

Lemma analyzeAnnotations_run (h : Host) (annotatedImage userInstruction : string) (w : World) :
  truthy (API_KEY h) = true ->
  exists logs,
    V3.analyzeAnnotations h annotatedImage userInstruction w =
      (match generateContent h (calls w) (V3.annotationRequest annotatedImage userInstruction) with
       | Value res => Value (or_else (V3.firstText res) userInstruction)
       | Throw e => Throw e
       end,
       mkWorld (console w ++ logs)
               (calls w ++ [GenerateContent (V3.annotationRequest annotatedImage userInstruction)])).
Proof.
  intros Hkey. unfold V3.analyzeAnnotations.
  rewrite bind_run, getClient_run, Hkey. log_step.
  rewrite bind_run. unfold generate, issue. cbn [console calls].
  destruct (generateContent h (calls w) _) as [res|e].
  - cbv zeta. log_step. unfold ret. rewrite <- app_assoc. eexists. reflexivity.
  - eexists. reflexivity.
Qed.

(** C8 (as amended). With a credential, [analyzeAnnotations] issues one
    request; when the service answers, the result is a string: the first
    part's text of the first candidate when that text is not empty, and the
    user's instruction unchanged otherwise.  When the service call is
    rejected, or when no credential is set, the error is thrown to the
    caller. *)
Theorem analyzeAnnotations_result (h : Host) (annotatedImage userInstruction : string) (w : World) :
  let run := V3.analyzeAnnotations h annotatedImage userInstruction w in
  let req := V3.annotationRequest annotatedImage userInstruction in
  if truthy (API_KEY h) then
    calls (world run) = (calls w ++ [GenerateContent req])%list /\
    match generateContent h (calls w) req with
    | Value res =>
        result run = Value (or_else (V3.firstText res) userInstruction) /\
        (truthy (V3.firstText res) = false -> result run = Value userInstruction)
    | Throw e => result run = Throw e
    end
  else
    result run = Throw (Error "API Key not found. Please select a key.") /\
    calls (world run) = calls w.
Proof.
  cbv zeta. destruct (truthy (API_KEY h)) eqn:Hkey.
  - destruct (analyzeAnnotations_run h annotatedImage userInstruction w Hkey) as [logs E].
    rewrite E. unfold result, world. cbn [fst snd calls]. split; [reflexivity|].
    destruct (generateContent h (calls w) _) as [res|e]; [|reflexivity].
    split; [reflexivity|]. intros F. rewrite (or_else_falsy _ _ F). reflexivity.
  - unfold V3.analyzeAnnotations. rewrite getClient_throws by exact Hkey. split; reflexivity.
Qed.

(** The service answers without any text. *)
Lemma analyzeAnnotations_result_witness :
  result (V3.analyzeAnnotations Demo.stalled "data:image/png;base64,MASK" "make the logo blue"
            emptyWorld) = Value "make the logo blue".
Proof.
  exact (proj2 (proj2 (analyzeAnnotations_result Demo.stalled "data:image/png;base64,MASK"
                         "make the logo blue" emptyWorld)) eq_refl).
Defined.

(** C8, the claim as stated fails: when the service call is rejected the
    function throws and the user's instruction is not returned. *)
Lemma analyzeAnnotations_propagates_error :
  result (V3.analyzeAnnotations
            (Demo.host (fun _ _ => Throw Demo.offline)
                       (fun _ _ => Throw (Error "503 Service Unavailable"))
                       Demo.noVideos Demo.noProgress)
            "data:image/png;base64,MASK" "make the logo blue" emptyWorld)
  = Throw (Error "503 Service Unavailable").
Proof. reflexivity. Qed.

(** ** editAsset *)

Lemma plainEditText_conservative (i : string) :
  contains (V3.plainEditText i) i /\ ConservativeEdit (V3.plainEditText i).
Proof.
  unfold ConservativeEdit, V3.plainEditText. split; [exists ""; eexists; reflexivity|].
  repeat split; find_text.
Qed.

Lemma maskedEditText_masked (i : string) :
  contains (V3.maskedEditText i) i /\ MaskedEdit (V3.maskedEditText i).
Proof.
  unfold MaskedEdit, V3.maskedEditText. split; [apply contains_mid|].
  repeat split; find_text.
Qed.

Lemma editAsset_run (h : Host) (originalImage : string) (maskImage : jstr)
    (instruction : string) (w : World) :
  truthy (API_KEY h) = true ->
  let analysis := V3.annotationRequest (show maskImage) instruction in
  let plain := V3.editRequest originalImage maskImage instruction in
  exists logs,
    V3.editAsset h originalImage maskImage instruction w =
      if truthy maskImage then
        match generateContent h (calls w) analysis with
        | Throw e =>
            (Throw e, mkWorld (console w ++ logs) (calls w ++ [GenerateContent analysis]))
        | Value res =>
            let edit := V3.editRequest (show maskImage) maskImage
                          (or_else (V3.firstText res) instruction) in
            (edited (generateContent h (calls w ++ [GenerateContent analysis]) edit),
             mkWorld (console w ++ logs)
                     (calls w ++ [GenerateContent analysis; GenerateContent edit]))
        end
      else
        (edited (generateContent h (calls w) plain),
         mkWorld (console w ++ logs) (calls w ++ [GenerateContent plain])).
Proof.
  intros Hkey. cbv zeta. unfold V3.editAsset, edited.
  rewrite bind_run, getClient_run, Hkey. log_step. log_step. rewrite bind_run.
  destruct (truthy maskImage) eqn:Hmask.
  - rewrite bind_run.
    match goal with |- context [V3.analyzeAnnotations h ?a ?i ?w1] =>
      destruct (analyzeAnnotations_run h a i w1 Hkey) as [logs E] end.
    rewrite E. clear E. cbn [calls console].
    destruct (generateContent h (calls w) _) as [res|e].
    + unfold ret at 1. cbv iota beta. log_step. rewrite bind_run.
      unfold generate, issue. cbn [console calls].
      destruct (generateContent h _ (V3.editRequest _ _ _)) as [res2|e2].
      * log_step.
        destruct (firstImageOf res2); unfold ret, throw;
          rewrite <- !app_assoc; eexists; reflexivity.
      * rewrite <- !app_assoc. eexists. reflexivity.
    + rewrite <- !app_assoc. eexists. reflexivity.
  - unfold ret at 1. cbv iota beta. log_step. rewrite bind_run.
    unfold generate, issue. cbn [console calls].
    destruct (generateContent h _ (V3.editRequest _ _ _)) as [res2|e2].
    + log_step. destruct (firstImageOf res2); unfold ret, throw;
        rewrite <- !app_assoc; eexists; reflexivity.
    + rewrite <- !app_assoc. eexists. reflexivity.
Qed.

(** C3 (as amended). In the revision that has the annotation interpreter,
    every call of [editAsset] that reaches the service restates the
    conservative-edit directive.  With a mask the instruction first goes
    through [analyzeAnnotations]; the edit request then carries the
    interpreter's instruction and tells the model to preserve everything,
    to modify only the annotated areas and to remove the annotations from
    the result, and no edit request is issued when the interpreter's call is
    rejected.  Without a mask the single request carries the instruction
    followed by the directive that only the requested changes may be made
    and everything else is preserved. *)
Theorem editAsset_directives (h : Host) (originalImage : string) (maskImage : jstr)
    (instruction : string) (w : World) :
  let run := V3.editAsset h originalImage maskImage instruction w in
  if truthy (API_KEY h) then
    if truthy maskImage then
      let analysis := V3.annotationRequest (show maskImage) instruction in
      match generateContent h (calls w) analysis with
      | Throw e =>
          result run = Throw e /\
          calls (world run) = (calls w ++ [GenerateContent analysis])%list
      | Value res =>
          let finalInstruction := or_else (V3.firstText res) instruction in
          exists edit,
            calls (world run) = (calls w ++ [GenerateContent analysis; GenerateContent edit])%list /\
            contains (editText edit) finalInstruction /\
            MaskedEdit (editText edit)
      end
    else
      exists edit,
        calls (world run) = (calls w ++ [GenerateContent edit])%list /\
        contains (editText edit) instruction /\
        ConservativeEdit (editText edit)
  else
    result run = Throw (Error "API Key not found. Please select a key.") /\
    calls (world run) = calls w.
Proof.
  cbv zeta. destruct (truthy (API_KEY h)) eqn:Hkey.
  - destruct (editAsset_run h originalImage maskImage instruction w Hkey) as [logs R].
    cbv zeta in R. rewrite R. clear R.
    destruct (truthy maskImage) eqn:Hmask.
    + destruct (generateContent h (calls w) _) as [res|e]; [|split; reflexivity].
      eexists. split; [reflexivity|].
      unfold editText, V3.editRequest. cbn [contents text textPart]. rewrite Hmask.
      apply maskedEditText_masked.
    + eexists. split; [reflexivity|].
      unfold editText, V3.editRequest. cbn [contents text textPart]. rewrite Hmask.
      apply plainEditText_conservative.
  - unfold V3.editAsset. rewrite getClient_throws by exact Hkey. split; reflexivity.
Qed.

(** An edit without a mask. *)
Lemma editAsset_directives_witness :
  exists edit,
    calls (world (V3.editAsset Demo.stalled "data:image/png;base64,AAAA" null
                    "make the logo blue" emptyWorld))
      = [GenerateContent edit] /\
    contains (editText edit) "make the logo blue" /\
    ConservativeEdit (editText edit).
Proof.
  exact (editAsset_directives Demo.stalled "data:image/png;base64,AAAA" null
           "make the logo blue" emptyWorld).
Defined.

(** C3, the claim as stated fails: in the first revision [editAsset] sends
    the instruction as it is, without any directive, and a mask is attached
    without going through an interpreter. *)
Lemma editAsset_sends_bare_instruction :
  calls (world (V1.editAsset Demo.stalled "data:image/png;base64,AAAA" null
                  "make the logo blue" emptyWorld))
    = [GenerateContent
         (mkGenRequest "gemini-3-pro-image-preview"
            [imagePart "data:image/png;base64,AAAA"; textPart "make the logo blue"] None)] /\
  includes "make the logo blue" "PRESERVE" = false /\
  calls (world (V1.editAsset Demo.stalled "data:image/png;base64,AAAA"
                  (str "data:image/png;base64,MASK") "make the logo blue" emptyWorld))
    = [GenerateContent
         (mkGenRequest "gemini-3-pro-image-preview"
            [imagePart "data:image/png;base64,AAAA"; textPart "make the logo blue";
             imagePart "data:image/png;base64,MASK";
             textPart "Use the second image as a sketch/mask guidance for the changes."] None)].
Proof. repeat split. Qed.

(** ** buildPrompt *)

(** C6 (as amended). For a brand whose colour list is empty, the
    merchandise prompt names the defaults: the base colour clause reads
    "white" and the accent colour clause reads "black", in every revision. *)
Theorem buildPrompt_default_colors (h : Host) (dna : BrandDNA) (inspirations : list Inspiration)
    (subtype : string) (specificInstruction : jstr) (w : World) :
  colors dna = [] ->
  (exists prompt,
     result (V1.buildPrompt h dna inspirations MERCHANDISE subtype specificInstruction w)
       = Value prompt /\
     result (V3.buildPrompt h dna inspirations MERCHANDISE subtype specificInstruction w)
       = Value prompt /\
     contains prompt ("- Base fabric/material color: white" ++ nl) /\
     contains prompt ("- Accent color in design: black" ++ nl)) /\
  (exists prompt,
     result (V2.buildPrompt dna inspirations MERCHANDISE subtype specificInstruction w)
       = Value prompt /\
     contains prompt ("The base color of the item is white." ++ nl) /\
     contains prompt ("The design uses the accent color: black." ++ nl)).
Proof.
  intros Hcolors. split.
  - exists (V1.promptText h dna inspirations MERCHANDISE subtype specificInstruction).
    destruct (buildPrompt_onlyLogs h dna inspirations MERCHANDISE subtype specificInstruction w)
      as [logs E].
    unfold V3.buildPrompt. rewrite E. unfold result. cbn [fst].
    split; [reflexivity|]. split; [reflexivity|].
    unfold V1.promptText, finalPromptOf, V1.merchandisePrompt. rewrite Hcolors.
    cbn [index nth_error or_else String.eqb Ascii.eqb Bool.eqb].
    split; find_text.
  - eexists. unfold V2.buildPrompt, ret, result. cbn [fst]. split; [reflexivity|].
    unfold finalPromptOf, V2.merchandisePrompt. rewrite Hcolors.
    cbn [index nth_error or_else String.eqb Ascii.eqb Bool.eqb].
    split; find_text.
Qed.

(** A brand without colours, a hoodie. *)
Lemma buildPrompt_default_colors_witness :
  colors Demo.acme = [] /\
  exists prompt,
    result (V1.buildPrompt Demo.stalled Demo.acme [] MERCHANDISE "Hoodie" undefined emptyWorld)
      = Value prompt /\
    contains prompt ("- Base fabric/material color: white" ++ nl) /\
    contains prompt ("- Accent color in design: black" ++ nl).
Proof.
  split; [reflexivity|].
  destruct (proj1 (buildPrompt_default_colors Demo.stalled Demo.acme [] "Hoodie" undefined
                     emptyWorld eq_refl)) as (prompt & E & _ & B & A).
  exists prompt. repeat split; assumption.
Defined.

(** C6, the claim as stated fails: for the same brand the marketing prompt
    reads "brand colors ()" and the digital prompt reads "Colors: .", and
    neither names a default colour. *)
Lemma buildPrompt_empty_color_clause :
  colors Demo.acme = [] /\
  (let prompt := V1.promptText Demo.stalled Demo.acme [] MARKETING "Poster" undefined in
   result (V1.buildPrompt Demo.stalled Demo.acme [] MARKETING "Poster" undefined emptyWorld)
     = Value prompt /\
   includes prompt "Visuals: Incorporate the brand colors () and typography" = true /\
   includes prompt "white" = false /\ includes prompt "black" = false) /\
  (let prompt := V1.promptText Demo.stalled Demo.acme [] DIGITAL "Banner" undefined in
   result (V1.buildPrompt Demo.stalled Demo.acme [] DIGITAL "Banner" undefined emptyWorld)
     = Value prompt /\
   includes prompt ("Colors: ." ++ nl) = true /\
   includes prompt "white" = false /\ includes prompt "black" = false).
Proof.
  cbv zeta. repeat split; vm_compute; reflexivity.
Qed.

(** C9 (as amended). [buildPrompt] is deterministic: the string it returns
    is a function of its arguments, whatever the state of the world, and it
    issues no call.  In the first and third revisions each invocation also
    writes two entries to the console, the same two for the same arguments;
    the second revision has no effect at all. *)
Theorem buildPrompt_deterministic (h : Host) (dna : BrandDNA) (inspirations : list Inspiration)
    (type : AssetType) (subtype : string) (specificInstruction : jstr) :
  (exists prompt summary full,
     forall w,
       V1.buildPrompt h dna inspirations type subtype specificInstruction w
         = (Value prompt, mkWorld (console w ++ [summary; full]) (calls w)) /\
       V3.buildPrompt h dna inspirations type subtype specificInstruction w
         = (Value prompt, mkWorld (console w ++ [summary; full]) (calls w))) /\
  (exists prompt,
     forall w,
       V2.buildPrompt dna inspirations type subtype specificInstruction w = (Value prompt, w)).
Proof.
  split.
  - do 3 eexists. intros w. unfold V3.buildPrompt, V1.buildPrompt. cbv zeta.
    split; log_step; log_step; unfold ret; rewrite <- app_assoc; reflexivity.
  - eexists. intros w. reflexivity.
Qed.

(** C9, the claim as stated fails: an invocation of the first revision
    leaves two entries on the console, the second of which is the whole
    prompt. *)
Lemma buildPrompt_writes_console :
  console (world (V1.buildPrompt Demo.stalled Demo.acme [] MERCHANDISE "Hoodie" undefined emptyWorld))
  = [mkLog Log [AStr "📝 [PROMPT BUILDER]";
                AObj [("type", VStr "MERCHANDISE"); ("subtype", VStr "Hoodie");
                      ("brandName", VStr "Acme"); ("colors", VList []);
                      ("hasLogo", VBool false); ("inspirationCount", VNat 0);
                      ("promptLength",
                       VNat (String.length
                               (V1.promptText Demo.stalled Demo.acme [] MERCHANDISE "Hoodie"
                                  undefined)))]];
     mkLog Log [AStr "📝 [FULL PROMPT]:";
                AStr (V1.promptText Demo.stalled Demo.acme [] MERCHANDISE "Hoodie" undefined)]].
Proof. vm_compute. reflexivity. Qed.

(** ** The brand form's save handler *)

Import BrandManager.

(** C7 (as amended). When brand synthesis succeeds, a logo already held by
    the form (an upload) is saved in preference to the extracted one; with
    no logo in the form the extracted one is saved.  When neither exists the
    save is blocked with a warning and nothing is committed, provided a
    website URL was entered; with an empty URL field the brand is saved
    without a logo. *)
Theorem handleSubmit_logo_precedence
    (generateBrandDNA : string -> string -> string -> list string * Outcome BrandDNA)
    (s : State) (statuses : list string) (extracted : BrandDNA) :
  generateBrandDNA (f_name (formData s)) (f_description (formData s)) (url (formData s))
    = (statuses, Value extracted) ->
  let after := fst (handleSubmit generateBrandDNA s) in
  let effects := snd (handleSubmit generateBrandDNA s) in
  (truthy (logoPreview s) = true ->
   saved effects = [withLogo extracted (logoPreview s)] /\ logoError after = None) /\
  (truthy (logoPreview s) = false -> truthy (logoImage extracted) = true ->
   saved effects = [withLogo extracted (logoImage extracted)] /\ logoError after = None) /\
  (truthy (logoPreview s) = false -> truthy (logoImage extracted) = false ->
   url (formData s) <> "" ->
   saved effects = [] /\ logoError after = Some extractionWarning /\
   isEditing after = isEditing s /\ logoPreview after = logoPreview s) /\
  (truthy (logoPreview s) = false -> truthy (logoImage extracted) = false ->
   url (formData s) = "" ->
   saved effects = [withLogo extracted (logoImage extracted)] /\ logoError after = None).
Proof.
  intros G. cbv zeta. unfold handleSubmit, jor. rewrite G.
  destruct (truthy (logoPreview s)) eqn:Hp;
    destruct (truthy (logoImage extracted)) eqn:Hx;
    destruct (url (formData s) =? "") eqn:Hu;
    cbn [negb andb fst snd saved logoError isEditing logoPreview];
    repeat split; intros; try discriminate; try reflexivity.
  all: try (apply String.eqb_eq in Hu; contradiction).
  all: apply String.eqb_neq in Hu; contradiction.
Qed.

(** A logo was uploaded and another one was extracted. *)
Lemma handleSubmit_logo_precedence_witness :
  saved (snd (handleSubmit
                (fun _ _ _ => ([], Value (withLogo Demo.acme (str "data:image/png;base64,EXTRACTED"))))
                (mkState true false false "" None
                   (mkFormData "Acme" "Rocket skates" "https://acme.example")
                   (str "data:image/png;base64,UPLOADED"))))
  = [withLogo Demo.acme (str "data:image/png;base64,UPLOADED")].
Proof.
  exact (proj1 (proj1 (handleSubmit_logo_precedence
           (fun _ _ _ => ([], Value (withLogo Demo.acme (str "data:image/png;base64,EXTRACTED"))))
           (mkState true false false "" None
              (mkFormData "Acme" "Rocket skates" "https://acme.example")
              (str "data:image/png;base64,UPLOADED"))
           [] (withLogo Demo.acme (str "data:image/png;base64,EXTRACTED")) eq_refl) eq_refl)).
Defined.

(** C7, the claim as stated fails: with an empty URL field, no upload and no
    extracted logo, the brand is saved, without a logo and without a
    warning. *)
Lemma handleSubmit_saves_without_logo :
  handleSubmit (fun _ _ _ => ([], Value Demo.acme))
    (mkState true false false "" None (mkFormData "Acme" "Rocket skates" "") undefined)
  = (mkState false false false "Initializing Agent..." None
       (mkFormData "Acme" "Rocket skates" "") undefined,
     mkEffects [Demo.acme] [] []).
Proof. reflexivity. Qed.

(** * Further properties *)

(** ** The key check *)

Lemma refused_bind (h : Host) {A} (k : unit -> IO A) (w : World) :
  truthy (API_KEY h) = false -> Refused w (bind (getClient h) k w).
Proof. intros Hk. unfold Refused. rewrite bind_run, getClient_run, Hk. reflexivity. Qed.

(** X1. Without a key in the environment, every function of the service that
    needs the client is refused: drafting, editing, the annotation
    interpreter, finalizing and both video functions throw "API Key not
    found. Please select a key." before they write to the console or send
    anything. *)
Theorem service_refuses_without_key (h : Host) (w : World) :
  truthy (API_KEY h) = false ->
  (forall dna inspirations type subtype,
     Refused w (V1.generateDrafts h dna inspirations type subtype w) /\
     Refused w (V3.generateDrafts h dna inspirations type subtype w)) /\
  (forall originalImage maskImage instruction,
     Refused w (V1.editAsset h originalImage maskImage instruction w) /\
     Refused w (V3.editAsset h originalImage maskImage instruction w)) /\
  (forall annotatedImage userInstruction,
     Refused w (V3.analyzeAnnotations h annotatedImage userInstruction w)) /\
  (forall size dna draftImage subtype,
     Refused w (finalizeAsset h size dna draftImage subtype w)) /\
  (forall fuel assetImage subtype,
     Refused w (V1.generateVisualizationVideo h fuel assetImage subtype w) /\
     Refused w (V3.generateVisualizationVideo h fuel assetImage subtype w)) /\
  (forall sceneJson assetImage subtype dna,
     Refused w (V3.generateRealWorldPreview h sceneJson assetImage subtype dna w)).
Proof.
  intros Hk. repeat split; intros; apply refused_bind; exact Hk.
Qed.

(** A host whose environment holds no key. *)
Lemma service_refuses_without_key_witness :
  Refused emptyWorld (V1.generateDrafts Examples.keyless Demo.acme [] MERCHANDISE "Hoodie" emptyWorld) /\
  Refused emptyWorld (finalizeAsset Examples.keyless "1K" Demo.acme "data:image/png;base64,AAAA" "Hoodie" emptyWorld) /\
  Refused emptyWorld (V3.generateRealWorldPreview Examples.keyless Demo.scene
                        "data:image/png;base64,AAAA" "Hoodie" Demo.acme emptyWorld).
Proof.
  pose proof (service_refuses_without_key Examples.keyless emptyWorld eq_refl)
    as (D & _ & _ & F & _ & P).
  split; [exact (proj1 (D Demo.acme [] MERCHANDISE "Hoodie"))|].
  split; [exact (F "1K" Demo.acme "data:image/png;base64,AAAA" "Hoodie")|].
  exact (P Demo.scene "data:image/png;base64,AAAA" "Hoodie" Demo.acme).
Defined.

(** ** What fetchImageToBase64 sends and accepts *)

(** X2. Whatever the network answers, [fetchImageToBase64] sends exactly one
    request, to the CORS proxy with the address percent-encoded in its query,
    and writes at most one line to the console, a warning. *)
Theorem fetchImageToBase64_one_fetch (h : Host) (url : string) (w : World) :
  let run := fetchImageToBase64 h url w in
  calls (world run) =
    (calls w ++ [Fetch ("https://corsproxy.io/?" ++ encodeURIComponent h url)])%list /\
  (console (world run) = console w \/
   exists a, console (world run) = (console w ++ [mkLog Warn a])%list).
Proof.
  cbv zeta. unfold fetchImageToBase64, try_catch. rewrite bind_run.
  unfold issue, proxied, world. cbn [console calls].
  destruct (fetch h (calls w) _) as [r|e]; cbn [snd].
  - destruct (ok r); cbn [negb].
    + destruct (negb (truthy (contentType r)) || negb (startsWith (show (contentType r)) "image/")).
      * rewrite bind_run. unfold console_warn, ret. rewrite emit_run. cbn.
        split; [reflexivity|]. right. eexists. reflexivity.
      * rewrite bind_run. unfold await. destruct (blob r) as [b|e]; cbn.
        -- split; [reflexivity|]. left. reflexivity.
        -- split; [reflexivity|]. right. eexists. reflexivity.
    + cbn. split; [reflexivity|]. left. reflexivity.
  - rewrite bind_run. unfold console_warn. rewrite emit_run. cbn.
    split; [reflexivity|]. right. eexists. reflexivity.
Qed.

(** X3. [fetchImageToBase64] lets only images through: when it returns a
    non-empty string, the proxy answered with an ok response whose content
    type starts with "image/", the body could be read, the string is what the
    reader made of the body, and nothing was written to the console. *)
Theorem fetchImageToBase64_only_images (h : Host) (url : string) (w : World) (v : jstr) :
  result (fetchImageToBase64 h url w) = Value v ->
  truthy v = true ->
  exists r ct b,
    fetch h (calls w) (proxied h url) = Value r /\
    ok r = true /\
    contentType r = str ct /\ startsWith ct "image/" = true /\
    blob r = Value b /\ v = dataURL b /\
    console (world (fetchImageToBase64 h url w)) = console w.
Proof.
  unfold fetchImageToBase64, try_catch. rewrite bind_run.
  unfold issue, result, world. cbn [console calls].
  destruct (fetch h (calls w) _) as [r|e]; cbn [fst snd].
  - destruct (ok r) eqn:Hok; cbn [negb].
    + destruct (negb (truthy (contentType r)) || negb (startsWith (show (contentType r)) "image/")) eqn:Hct.
      * rewrite bind_run. unfold console_warn, ret. rewrite emit_run. cbn.
        intros E T. injection E as <-. discriminate.
      * apply orb_false_elim in Hct. destruct Hct as [H1 H2].
        apply negb_false_iff in H1. apply negb_false_iff in H2.
        destruct (truthy_str _ H1) as [ct Hs]. rewrite Hs in H2. cbn [show] in H2.
        rewrite bind_run. unfold await. destruct (blob r) as [b|e] eqn:Hb; cbn.
        -- intros E T. injection E as <-. exists r, ct, b. repeat split; assumption || reflexivity.
        -- intros E T. injection E as <-. discriminate.
    + cbn. intros E T. injection E as <-. discriminate.
  - rewrite bind_run. unfold console_warn. rewrite emit_run. cbn.
    intros E T. injection E as <-. discriminate.
Qed.

(** A PNG served by the brand-logo service. *)
Lemma fetchImageToBase64_only_images_witness :
  exists r ct b,
    fetch (Demo.web (fun _ _ => Value (Demo.png "LOGO"))) [] 
          (proxied (Demo.web (fun _ _ => Value (Demo.png "LOGO"))) "https://logo.clearbit.com/nike.com")
      = Value r /\
    ok r = true /\
    contentType r = str ct /\ startsWith ct "image/" = true /\
    blob r = Value b /\ str "data:image/png;base64,LOGO" = dataURL b /\
    console (world (fetchImageToBase64 (Demo.web (fun _ _ => Value (Demo.png "LOGO")))
                      "https://logo.clearbit.com/nike.com" emptyWorld)) = [].
Proof.
  exact (fetchImageToBase64_only_images (Demo.web (fun _ _ => Value (Demo.png "LOGO")))
           "https://logo.clearbit.com/nike.com" emptyWorld (str "data:image/png;base64,LOGO")
           eq_refl eq_refl).
Defined.

(** ** Data URLs between the phases *)

Lemma split_noComma (s : string) : noComma s = true -> split "," s = [s].
Proof.
  induction s as [|c rest IH]; cbn [noComma split]; [reflexivity|].
  intros H. apply andb_prop in H. destruct H as [Hc Hr].
  apply negb_true_iff in Hc. rewrite Hc, (IH Hr). reflexivity.
Qed.

Lemma split_cons (s : string) : exists first others, split "," s = first :: others.
Proof.
  induction s as [|c rest IH]; cbn [split]; [eexists; eexists; reflexivity|].
  destruct (Ascii.eqb c ","); [eexists; eexists; reflexivity|].
  destruct IH as (f & o & E). rewrite E. eexists; eexists; reflexivity.
Qed.

Lemma split_prefix (a b : string) :
  noComma a = true -> split "," (a ++ String "," b) = a :: split "," b.
Proof.
  induction a as [|c rest IH]; cbn [noComma]; intros H.
  - cbn [append split]. rewrite Ascii.eqb_refl. reflexivity.
  - apply andb_prop in H. destruct H as [Hc Hr]. apply negb_true_iff in Hc.
    cbn [append split]. rewrite Hc, (IH Hr). reflexivity.
Qed.

Lemma payload_after_prefix (b : string) :
  exists first, payload ("data:image/png;base64," ++ b) = str first /\
                (noComma b = true -> first = b).
Proof.
  unfold payload.
  change ("data:image/png;base64," ++ b) with ("data:image/png;base64" ++ String "," b).
  rewrite split_prefix by reflexivity.
  destruct (split_cons b) as (f & o & E). exists f. unfold index. rewrite E. cbn [nth_error].
  split; [reflexivity|]. intros H. rewrite (split_noComma b H) in E. congruence.
Qed.

Lemma dataUrl_PngDataUrl (d : InlineData) : PngDataUrl (dataUrl d).
Proof.
  unfold PngDataUrl, dataUrl. split.
  - unfold startsWith. cbn. destruct (show (data d)); reflexivity.
  - destruct (payload_after_prefix (show (data d))) as (f & E & _). exists f. exact E.
Qed.

(** X4. The bytes of an image survive the way from one phase to the next:
    the data URL a phase builds from an inline part gives back, through
    [split(',')[1]], the part's base64 text when that text holds no comma, so
    the next request carries the same bytes, labelled image/png whatever the
    part's own type was.  An image reference with no comma in it, such as a
    plain web address, gives [undefined]: the request then carries no bytes
    at all. *)
Theorem payload_of_dataUrl :
  (forall d b, data d = str b -> noComma b = true ->
     payload (dataUrl d) = str b /\
     imagePart (dataUrl d) = mkPart None (Some (mkInlineData "image/png" (str b)))) /\
  (forall image, noComma image = true ->
     payload image = undefined /\
     imagePart image = mkPart None (Some (mkInlineData "image/png" undefined))).
Proof.
  split.
  - intros d b Hd Hb. unfold imagePart, dataUrl. rewrite Hd. cbn [show].
    destruct (payload_after_prefix b) as (f & E & F). rewrite E, (F Hb). split; reflexivity.
  - intros image H. unfold imagePart, payload. rewrite (split_noComma image H).
    split; reflexivity.
Qed.

Lemma payload_of_dataUrl_witness :
  payload (dataUrl (mkInlineData "image/jpeg" (str "iVBORw0KGgo="))) = str "iVBORw0KGgo=" /\
  imagePart (dataUrl (mkInlineData "image/jpeg" (str "iVBORw0KGgo=")))
    = mkPart None (Some (mkInlineData "image/png" (str "iVBORw0KGgo="))) /\
  payload "https://example.com/logo.png" = undefined.
Proof.
  destruct payload_of_dataUrl as [A B].
  destruct (A (mkInlineData "image/jpeg" (str "iVBORw0KGgo=")) "iVBORw0KGgo=" eq_refl eq_refl)
    as [A1 A2].
  destruct (B "https://example.com/logo.png" eq_refl) as [B1 _].
  split; [exact A1|]. split; [exact A2 | exact B1].
Defined.

Lemma imagesOf_png (res : GenResponse) : Forall PngDataUrl (imagesOf res).
Proof.
  unfold imagesOf. destruct (firstParts res) as [l|]; [|constructor].
  induction l as [|part rest IH]; cbn [flat_map]; [constructor|].
  destruct (inlineData part) as [d|]; cbn [app]; [|exact IH].
  constructor; [apply dataUrl_PngDataUrl | exact IH].
Qed.

Lemma flat_map_imagesOf_png (responses : list GenResponse) :
  Forall PngDataUrl (flat_map imagesOf responses).
Proof.
  induction responses as [|res rest IH]; cbn [flat_map]; [constructor|].
  apply Forall_app. split; [apply imagesOf_png | exact IH].
Qed.

Lemma firstImage_png (l : list Part) (image : string) :
  firstImage l = Some image -> PngDataUrl image.
Proof.
  induction l as [|part rest IH]; cbn [firstImage]; [discriminate|].
  destruct (inlineData part) as [d|]; [|exact IH].
  intros E. injection E as <-. apply dataUrl_PngDataUrl.
Qed.

Lemma firstImageOf_png (res : GenResponse) (image : string) :
  firstImageOf res = Some image -> PngDataUrl image.
Proof.
  unfold firstImageOf. destruct (firstParts res); [apply firstImage_png | discriminate].
Qed.

Lemma edited_png (answer : Outcome GenResponse) (image : string) :
  edited answer = Value image -> PngDataUrl image.
Proof.
  unfold edited. destruct answer as [res|e]; [|discriminate].
  destruct (firstImageOf res) as [i|] eqn:E; [|discriminate].
  intros V. injection V as <-. exact (firstImageOf_png _ _ E).
Qed.

Lemma finalized_png (answer : Outcome GenResponse) (image : string) :
  finalized answer = Value image -> PngDataUrl image.
Proof.
  unfold finalized. destruct answer as [res|e]; [|discriminate].
  destruct (firstImageOf res) as [i|] eqn:E; [|discriminate].
  intros V. injection V as <-. exact (firstImageOf_png _ _ E).
Qed.

(** [editAsset] of the first revision, seen from outside. *)
Lemma editAsset_V1_run (h : Host) (originalImage : string) (maskImage : jstr)
    (instruction : string) (w : World) :
  truthy (API_KEY h) = true ->
  exists logs,
    V1.editAsset h originalImage maskImage instruction w =
      (edited (generateContent h (calls w) (V1.editRequest originalImage maskImage instruction)),
       mkWorld (console w ++ logs)
               (calls w ++ [GenerateContent (V1.editRequest originalImage maskImage instruction)])).
Proof.
  intros Hkey. unfold V1.editAsset, edited.
  rewrite bind_run, getClient_run, Hkey. log_step. log_step. log_step.
  rewrite bind_run. unfold generate, issue. cbn [console calls].
  destruct (generateContent h (calls w) _) as [res|e].
  - log_step. destruct (firstImageOf res); unfold ret, throw;
      rewrite <- !app_assoc; eexists; reflexivity.
  - rewrite <- !app_assoc. eexists. reflexivity.
Qed.

(** [finalizeAsset] seen from outside. *)
Lemma finalizeAsset_run (h : Host) (size : string) (dna : BrandDNA) (draftImage subtype : string)
    (w : World) :
  truthy (API_KEY h) = true ->
  exists logs,
    finalizeAsset h size dna draftImage subtype w =
      (finalized (generateContent h (calls w) (finalizeRequest size dna draftImage subtype)),
       mkWorld (console w ++ logs)
               (calls w ++ [GenerateContent (finalizeRequest size dna draftImage subtype)])).
Proof.
  intros Hkey. unfold finalizeAsset, finalized.
  rewrite bind_run, getClient_run, Hkey. cbv zeta. log_step. log_step. log_step. log_step.
  rewrite bind_run. unfold generate, issue. cbn [console calls].
  destruct (generateContent h (calls w) _) as [res|e].
  - log_step. destruct (firstImageOf res).
    + log_step. unfold ret. rewrite <- !app_assoc. eexists. reflexivity.
    + rewrite bind_run. unfold console_error. rewrite emit_run. unfold throw.
      cbn [console calls]. rewrite <- !app_assoc. eexists. reflexivity.
  - rewrite <- !app_assoc. eexists. reflexivity.
Qed.

(** The images of a draft generator are those of the responses. *)
Lemma collect_images (h : Host) (onImage : nat -> IO unit) (final : list string -> LogArg)
    (reqs : list GenRequest) (past : list Call) (w : World) (images : list string) :
  length reqs = 4 ->
  (forall i, i < 4 -> OnlyLogs (onImage i) tt) ->
  result (collect h onImage final (answers h past reqs) w) = Value images ->
  exists responses,
    settleAll (answers h past reqs) = Value responses /\ images = flat_map imagesOf responses.
Proof.
  intros Hlen Hlog E.
  destruct (collect_run h onImage final reqs past w Hlen Hlog) as [_ R].
  destruct (settleAll (answers h past reqs)) as [responses|e].
  - destruct R as [R _]. exists responses. split; [reflexivity|]. congruence.
  - congruence.
Qed.

(** X5. Every image the pipeline returns is a PNG data URL: each draft of
    [generateDrafts], the result of [editAsset] and the result of
    [finalizeAsset] start with "data:image/png;base64,", so the payload the
    next phase reads from them with [split(',')[1]] is always defined. *)
Theorem images_are_png_data_urls (h : Host) (w : World) :
  (forall dna inspirations type subtype images,
     result (V1.generateDrafts h dna inspirations type subtype w) = Value images \/
     result (V3.generateDrafts h dna inspirations type subtype w) = Value images ->
     Forall PngDataUrl images) /\
  (forall originalImage maskImage instruction image,
     result (V1.editAsset h originalImage maskImage instruction w) = Value image \/
     result (V3.editAsset h originalImage maskImage instruction w) = Value image ->
     PngDataUrl image) /\
  (forall size dna draftImage subtype image,
     result (finalizeAsset h size dna draftImage subtype w) = Value image ->
     PngDataUrl image).
Proof.
  destruct (truthy (API_KEY h)) eqn:Hkey.
  - split; [|split].
    + intros dna inspirations type subtype images [E|E].
      * destruct (generateDrafts_V1_run h dna inspirations type subtype w Hkey)
          as (logs & parts & final & R).
        rewrite R in E.
        destruct (collect_images h _ _ (repeat (V1.draftRequest parts) 4) _ _ _ eq_refl
                    (fun i _ => onlyLogs_emit _ _) E)
          as (responses & _ & ->).
        apply flat_map_imagesOf_png.
      * destruct (generateDrafts_V3_run h dna inspirations type subtype w Hkey)
          as (logs & reqs & final & Hlen & R).
        rewrite R in E.
        destruct (collect_images h _ _ _ _ _ _ Hlen (draftLogged_V3_onlyLogs dna inspirations) E)
          as (responses & _ & ->).
        apply flat_map_imagesOf_png.
    + intros originalImage maskImage instruction image [E|E].
      * destruct (editAsset_V1_run h originalImage maskImage instruction w Hkey) as [logs R].
        rewrite R in E. exact (edited_png _ _ E).
      * destruct (editAsset_run h originalImage maskImage instruction w Hkey) as [logs R].
        cbv zeta in R. rewrite R in E. clear R.
        destruct (truthy maskImage).
        -- destruct (generateContent h (calls w) _) as [res|e]; [|discriminate E].
           exact (edited_png _ _ E).
        -- exact (edited_png _ _ E).
    + intros size dna draftImage subtype image E.
      destruct (finalizeAsset_run h size dna draftImage subtype w Hkey) as [logs R].
      rewrite R in E. exact (finalized_png _ _ E).
  - split; [|split]; intros; exfalso;
      repeat match goal with H : _ \/ _ |- _ => destruct H end;
      match goal with H : result (?f) = Value _ |- _ =>
        unfold V1.generateDrafts, V3.generateDrafts, V1.editAsset, V3.editAsset, finalizeAsset in H;
        rewrite bind_run, getClient_run, Hkey in H; discriminate H end.
Qed.

(** An edit answered with one inline image. *)
Lemma images_are_png_data_urls_witness : PngDataUrl "data:image/png;base64,AAAA".
Proof.
  exact (proj1 (proj2 (images_are_png_data_urls (Examples.painting [Demo.image "AAAA"]) emptyWorld))
           "data:image/png;base64,XXXX" null "make it blue" "data:image/png;base64,AAAA"
           (or_introl eq_refl)).
Defined.

(** ** The requests of the phases *)

Lemma contains_refl (s : string) : contains s s.
Proof.
  exists "", "". cbn. induction s as [|c s IH]; cbn; [reflexivity | f_equal; exact IH].
Qed.

(** The instruction line is part of every prompt. *)
Lemma finalPromptOf_line (dna : BrandDNA) (basePrompt instructionLine inspirationCues : string) :
  contains (finalPromptOf dna basePrompt instructionLine inspirationCues) instructionLine.
Proof.
  unfold finalPromptOf. do 5 apply contains_app_r. apply contains_app_l. apply contains_refl.
Qed.

(** X6. With a key, [finalizeAsset] sends one request to
    gemini-3-pro-image-preview at the image size of its revision; the request
    carries the draft's bytes and, exactly when the brand has a logo, the
    logo's bytes as its second image.  It returns the first inline image of
    the answer, fails with "Finalization failed" when the answer holds none,
    and passes a rejection of the service on to the caller. *)
Theorem finalizeAsset_outcome (h : Host) (size : string) (dna : BrandDNA)
    (draftImage subtype : string) (w : World) :
  truthy (API_KEY h) = true ->
  let run := finalizeAsset h size dna draftImage subtype w in
  exists req,
    calls (world run) = (calls w ++ [GenerateContent req])%list /\
    model req = "gemini-3-pro-image-preview" /\
    config req = Some (mkImageConfig None (Some size)) /\
    inlineOf req = (payload draftImage ::
                    if truthy (logoImage dna) then [payload (show (logoImage dna))] else [])%list /\
    match generateContent h (calls w) req with
    | Throw e => result run = Throw e
    | Value response =>
        match firstImageOf response with
        | Some image => result run = Value image
        | None => result run = Throw (Error "Finalization failed")
        end
    end.
Proof.
  intros Hkey. cbv zeta.
  destruct (finalizeAsset_run h size dna draftImage subtype w Hkey) as [logs E].
  rewrite E. unfold result, world. cbn [fst snd calls].
  exists (finalizeRequest size dna draftImage subtype).
  split; [reflexivity|]. split; [reflexivity|]. split; [reflexivity|]. split.
  - unfold finalizeRequest, inlineOf. cbn [contents].
    destruct (truthy (logoImage dna)); reflexivity.
  - unfold finalized. destruct (generateContent h (calls w) _) as [res|e]; [|reflexivity].
    destruct (firstImageOf res); reflexivity.
Qed.

(** The model answers a finalize request with text only. *)
Lemma finalizeAsset_outcome_witness :
  exists req,
    calls (world (finalizeAsset (Examples.painting [textPart "I cannot do that."]) "2K" Demo.acme
                    "data:image/png;base64,AAAA" "Hoodie" emptyWorld))
      = [GenerateContent req] /\
    inlineOf req = [str "AAAA"] /\
    result (finalizeAsset (Examples.painting [textPart "I cannot do that."]) "2K" Demo.acme
              "data:image/png;base64,AAAA" "Hoodie" emptyWorld)
      = Throw (Error "Finalization failed").
Proof.
  destruct (finalizeAsset_outcome (Examples.painting [textPart "I cannot do that."]) "2K"
              Demo.acme "data:image/png;base64,AAAA" "Hoodie" emptyWorld eq_refl)
    as (req & C & _ & _ & I & R).
  exists req. split; [exact C|]. split; [exact I|].
  exact R.
Defined.

(** The four requests of the first revision's [generateDrafts], written out. *)
Lemma generateDrafts_V1_calls (h : Host) (dna : BrandDNA) (inspirations : list Inspiration)
    (type : AssetType) (subtype : string) (w : World) :
  truthy (API_KEY h) = true ->
  let prompt := V1.promptText h dna inspirations type subtype (str "Create 4 distinct variations.") in
  let parts :=
    if truthy (logoImage dna)
    then [textPart prompt; imagePart (show (logoImage dna));
          textPart "Use the image above as the Brand Logo referenced in the prompt. Place it naturally on the product."]
    else [textPart prompt] in
  calls (world (V1.generateDrafts h dna inspirations type subtype w)) =
    (calls w ++ repeat (GenerateContent (V1.draftRequest parts)) 4)%list.
Proof.
  intros Hkey. cbv zeta. unfold V1.generateDrafts.
  rewrite bind_run, getClient_run, Hkey.
  logs_step (buildPrompt_onlyLogs h dna inspirations type subtype (str "Create 4 distinct variations.")).
  set (promptText := V1.promptText h dna inspirations type subtype _).
  log_step.
  set (parts := if truthy (logoImage dna)
                then [textPart promptText; imagePart (show (logoImage dna));
                      textPart "Use the image above as the Brand Logo referenced in the prompt. Place it naturally on the product."]
                else [textPart promptText]).
  assert (Hparts : OnlyLogs
            (if truthy (logoImage dna)
             then console_log [AStr "🖼️  [DRAFT GENERATION] Adding logo to parts"] ;;
                  ret [textPart promptText; imagePart (show (logoImage dna));
                       textPart "Use the image above as the Brand Logo referenced in the prompt. Place it naturally on the product."]
             else ret [textPart promptText]) parts).
  { unfold parts. destruct (truthy (logoImage dna)).
    - eapply onlyLogs_bind; [apply onlyLogs_emit | apply onlyLogs_ret].
    - apply onlyLogs_ret. }
  logs_step Hparts. log_step. rewrite bind_run.
  match goal with |- context [spawnEach h ?rq 0 (repeat 0 4) ?w1] =>
    destruct (@spawnEach_run h nat rq (fun _ => V1.draftRequest parts)
                (fun idx x => onlyLogs_ret _) (repeat 0 4) 0 w1) as [l2 E2] end.
  rewrite E2; clear E2; cbn [console calls].
  match goal with |- context [bind (Promise_all ?ps) ?k ?w1] =>
    change (bind (Promise_all ps) k w1)
      with (collect h V1.draftLogged
              (fun images => AStr ("🎨 [DRAFT GENERATION] Complete. Generated " ++ showNat (length images) ++ " images"))
              ps w1);
    destruct (collect_run h V1.draftLogged
                (fun images => AStr ("🎨 [DRAFT GENERATION] Complete. Generated " ++ showNat (length images) ++ " images"))
                (repeat (V1.draftRequest parts) 4) (calls w) w1 eq_refl
                (fun i _ => onlyLogs_emit _ _)) as [C _]
  end.
  cbn [map repeat] in C |- *. rewrite C. cbn [calls]. reflexivity.
Qed.

(** X7. With a key, [generateDrafts] of the first revision sends the same
    request four times: one prompt, which carries the line "Instruction:
    Create 4 distinct variations.", at aspect ratio 1:1, with the logo's
    bytes attached exactly when the brand has a logo.  The four drafts differ
    by what the model makes of one request. *)
Theorem generateDrafts_V1_same_request (h : Host) (dna : BrandDNA)
    (inspirations : list Inspiration) (type : AssetType) (subtype : string) (w : World) :
  truthy (API_KEY h) = true ->
  exists req prompt others,
    calls (world (V1.generateDrafts h dna inspirations type subtype w)) =
      (calls w ++ [GenerateContent req; GenerateContent req;
                   GenerateContent req; GenerateContent req])%list /\
    model req = "gemini-3-pro-image-preview" /\
    config req = Some (mkImageConfig (Some "1:1") None) /\
    contents req = textPart prompt :: others /\
    contains prompt "Instruction: Create 4 distinct variations." /\
    inlineOf req = (if truthy (logoImage dna) then [payload (show (logoImage dna))] else []).
Proof.
  intros Hkey.
  pose proof (generateDrafts_V1_calls h dna inspirations type subtype w Hkey) as C.
  cbv zeta in C. rewrite C. clear C.
  eexists. exists (V1.promptText h dna inspirations type subtype (str "Create 4 distinct variations.")).
  exists (if truthy (logoImage dna)
          then [imagePart (show (logoImage dna));
                textPart "Use the image above as the Brand Logo referenced in the prompt. Place it naturally on the product."]
          else []).
  split; [reflexivity|]. split; [reflexivity|]. split; [reflexivity|]. split.
  - cbn [V1.draftRequest contents]. destruct (truthy (logoImage dna)); reflexivity.
  - split.
    + unfold V1.promptText. apply (finalPromptOf_line dna _ _ _).
    + unfold inlineOf. cbn [V1.draftRequest contents].
      destruct (truthy (logoImage dna)); reflexivity.
Qed.

(** A brand without a logo: the request is the prompt alone. *)
Lemma generateDrafts_V1_same_request_witness :
  exists req prompt others,
    calls (world (V1.generateDrafts Demo.stalled Demo.acme [] MERCHANDISE "Hoodie" emptyWorld)) =
      [GenerateContent req; GenerateContent req; GenerateContent req; GenerateContent req] /\
    model req = "gemini-3-pro-image-preview" /\
    config req = Some (mkImageConfig (Some "1:1") None) /\
    contents req = textPart prompt :: others /\
    contains prompt "Instruction: Create 4 distinct variations." /\
    inlineOf req = [].
Proof.
  exact (generateDrafts_V1_same_request Demo.stalled Demo.acme [] MERCHANDISE "Hoodie"
           emptyWorld eq_refl).
Defined.

(** The four requests of the third revision's [generateDrafts], written out. *)
Lemma generateDrafts_V3_calls (h : Host) (dna : BrandDNA) (inspirations : list Inspiration)
    (type : AssetType) (subtype : string) (w : World) :
  truthy (API_KEY h) = true ->
  let parts :=
    if truthy (logoImage dna)
    then [imagePart (show (logoImage dna));
          textPart "Use the image above as the Brand Logo. Incorporate it into the design."]
    else [] in
  let reqOf := fun variation : V3.Variation =>
    V3.draftRequest
      (parts ++ [textPart (V1.promptText h dna inspirations type subtype
                             (str (V3.instruction variation)))])%list in
  calls (world (V3.generateDrafts h dna inspirations type subtype w)) =
    (calls w ++ map GenerateContent (map reqOf (V3.variations dna inspirations)))%list.
Proof.
  intros Hkey. cbv zeta. unfold V3.generateDrafts.
  rewrite bind_run, getClient_run, Hkey.
  log_step. cbv zeta.
  set (parts := if truthy (logoImage dna)
                then [imagePart (show (logoImage dna));
                      textPart "Use the image above as the Brand Logo. Incorporate it into the design."]
                else []).
  assert (Hparts : OnlyLogs
            (if truthy (logoImage dna)
             then console_log [AStr "🖼️  [DRAFT GENERATION] Adding logo to parts"] ;;
                  ret [imagePart (show (logoImage dna));
                       textPart "Use the image above as the Brand Logo. Incorporate it into the design."]
             else ret []) parts).
  { unfold parts. destruct (truthy (logoImage dna)).
    - eapply onlyLogs_bind; [apply onlyLogs_emit | apply onlyLogs_ret].
    - apply onlyLogs_ret. }
  logs_step Hparts. log_step. rewrite bind_run.
  set (reqOf := fun variation : V3.Variation =>
         V3.draftRequest
           (parts ++ [textPart (V1.promptText h dna inspirations type subtype
                                  (str (V3.instruction variation)))])%list).
  match goal with |- context [spawnEach h ?rq 0 ?vs ?w1] =>
    assert (Hreq : forall idx x, OnlyLogs (rq idx x) (reqOf x));
      [| destruct (spawnEach_run h reqOf Hreq vs 0 w1) as [l2 E2] ]
  end.
  { intros idx x. unfold V3.buildPrompt.
    eapply onlyLogs_bind; [apply buildPrompt_onlyLogs|].
    eapply onlyLogs_bind; [apply onlyLogs_emit | apply onlyLogs_ret]. }
  rewrite E2; clear E2; cbn [console calls].
  match goal with |- context [bind (Promise_all ?ps) ?k ?w1] =>
    change (bind (Promise_all ps) k w1)
      with (collect h (V3.draftLogged (V3.variations dna inspirations))
              (fun images => AStr ("🎨 [DRAFT GENERATION] Complete. Generated " ++ showNat (length images) ++ " images"))
              ps w1);
    destruct (collect_run h (V3.draftLogged (V3.variations dna inspirations))
                (fun images => AStr ("🎨 [DRAFT GENERATION] Complete. Generated " ++ showNat (length images) ++ " images"))
                (map reqOf (V3.variations dna inspirations)) (calls w) w1 eq_refl
                (draftLogged_V3_onlyLogs dna inspirations)) as [C _]
  end.
  rewrite C. cbn [calls]. reflexivity.
Qed.

(** The instruction of a variation is never empty. *)
Lemma variations_instructed (dna : BrandDNA) (inspirations : list Inspiration) :
  Forall (fun v => truthy (str (V3.instruction v)) = true) (V3.variations dna inspirations).
Proof.
  unfold V3.variations. repeat constructor.
  destruct inspirations; reflexivity.
Qed.

(** X8. With a key, [generateDrafts] of the third revision sends one
    request for each of its four creative angles (Minimal, Bold, Artistic,
    Vibrant), in this order: each request asks for a 512-pixel square image,
    ends with a prompt that carries the angle's own instruction line, and
    holds the logo's bytes exactly when the brand has a logo. *)
Theorem generateDrafts_V3_variations (h : Host) (dna : BrandDNA)
    (inspirations : list Inspiration) (type : AssetType) (subtype : string) (w : World) :
  truthy (API_KEY h) = true ->
  exists reqs,
    calls (world (V3.generateDrafts h dna inspirations type subtype w)) =
      (calls w ++ map GenerateContent reqs)%list /\
    map V3.v_name (V3.variations dna inspirations) = ["Minimal"; "Bold"; "Artistic"; "Vibrant"] /\
    Forall2 (fun req variation =>
               model req = "gemini-3-pro-image-preview" /\
               config req = Some (mkImageConfig (Some "1:1") (Some "512")) /\
               inlineOf req =
                 (if truthy (logoImage dna) then [payload (show (logoImage dna))] else []) /\
               exists before prompt,
                 contents req = (before ++ [textPart prompt])%list /\
                 contains prompt ("Instruction: " ++ V3.instruction variation))
            reqs (V3.variations dna inspirations).
Proof.
  intros Hkey.
  pose proof (generateDrafts_V3_calls h dna inspirations type subtype w Hkey) as C.
  cbv zeta in C. rewrite C. clear C.
  eexists. split; [reflexivity|]. split; [reflexivity|].
  pose proof (variations_instructed dna inspirations) as I.
  induction I as [|v vs Hv _ IH]; cbn [map]; constructor; [|exact IH].
  split; [reflexivity|]. split; [reflexivity|]. split.
  - unfold inlineOf. cbn [V3.draftRequest contents].
    rewrite flat_map_app. cbn [flat_map textPart inlineData app].
    rewrite app_nil_r. destruct (truthy (logoImage dna)); reflexivity.
  - eexists. eexists. split; [reflexivity|].
    unfold V1.promptText.
    replace ("Instruction: " ++ V3.instruction v)
      with (instructionLineOf (str (V3.instruction v)))
      by (unfold instructionLineOf; rewrite Hv; reflexivity).
    apply finalPromptOf_line.
Qed.

(** A brand with two keywords and no inspiration. *)
Lemma generateDrafts_V3_variations_witness :
  exists reqs,
    calls (world (V3.generateDrafts Demo.stalled Demo.acme [] MERCHANDISE "Hoodie" emptyWorld)) =
      map GenerateContent reqs /\
    map V3.v_name (V3.variations Demo.acme []) = ["Minimal"; "Bold"; "Artistic"; "Vibrant"] /\
    Forall2 (fun req variation =>
               model req = "gemini-3-pro-image-preview" /\
               config req = Some (mkImageConfig (Some "1:1") (Some "512")) /\
               inlineOf req = [] /\
               exists before prompt,
                 contents req = (before ++ [textPart prompt])%list /\
                 contains prompt ("Instruction: " ++ V3.instruction variation))
            reqs (V3.variations Demo.acme []).
Proof.
  exact (generateDrafts_V3_variations Demo.stalled Demo.acme [] MERCHANDISE "Hoodie"
           emptyWorld eq_refl).
Defined.

(** X9. Which image an edit sends.  With a key, [editAsset] of the first
    revision sends one request holding the original image and, when a mask is
    given, the mask after it.  In the third revision a request never holds
    both: with a composite every request of the call, the interpreter's and
    the edit's, holds the composite alone, and the original image is not sent
    at all; without one the single request holds the original image. *)
Theorem editAsset_images (h : Host) (originalImage : string) (maskImage : jstr)
    (instruction : string) (w : World) :
  truthy (API_KEY h) = true ->
  (exists req,
     calls (world (V1.editAsset h originalImage maskImage instruction w)) =
       (calls w ++ [GenerateContent req])%list /\
     inlineOf req = (payload originalImage ::
                     if truthy maskImage then [payload (show maskImage)] else [])%list) /\
  (exists reqs,
     calls (world (V3.editAsset h originalImage maskImage instruction w)) =
       (calls w ++ map GenerateContent reqs)%list /\
     if truthy maskImage then
       1 <= length reqs <= 2 /\
       Forall (fun req => inlineOf req = [payload (show maskImage)]) reqs
     else
       exists req, reqs = [req] /\ inlineOf req = [payload originalImage]).
Proof.
  intros Hkey. split.
  - destruct (editAsset_V1_run h originalImage maskImage instruction w Hkey) as [logs E].
    rewrite E. unfold world. cbn [snd calls]. eexists. split; [reflexivity|].
    unfold inlineOf, V1.editRequest. cbn [contents]. destruct (truthy maskImage); reflexivity.
  - destruct (editAsset_run h originalImage maskImage instruction w Hkey) as [logs E].
    cbv zeta in E. rewrite E. clear E.
    destruct (truthy maskImage) eqn:Hmask.
    + destruct (generateContent h (calls w) _) as [res|e]; unfold world; cbn [snd calls].
      * eexists [_; _]. split; [reflexivity|]. split; [cbn; lia|].
        repeat constructor.
      * eexists [_]. split; [reflexivity|]. split; [cbn; lia|].
        repeat constructor.
    + unfold world. cbn [snd calls]. eexists [_]. split; [reflexivity|].
      eexists. split; reflexivity.
Qed.

(** An edit with a composite, answered by a model that returns no image. *)
Lemma editAsset_images_witness :
  exists reqs,
    calls (world (V3.editAsset Demo.stalled "data:image/png;base64,DRAFT"
                    (str "data:image/png;base64,COMPOSITE") "make the logo blue" emptyWorld)) =
      map GenerateContent reqs /\
    1 <= length reqs <= 2 /\
    Forall (fun req => inlineOf req = [str "COMPOSITE"]) reqs.
Proof.
  exact (proj2 (editAsset_images Demo.stalled "data:image/png;base64,DRAFT"
                  (str "data:image/png;base64,COMPOSITE") "make the logo blue" emptyWorld
                  eq_refl)).
Defined.

(** ** Video jobs that complete *)

Lemma polls_app (a b : list Call) : polls (a ++ b) = polls a + polls b.
Proof. unfold polls. rewrite filter_app, length_app. reflexivity. Qed.

Lemma polls_pollCalls (ops : list Operation) : polls (flat_map pollCalls ops) = length ops.
Proof.
  induction ops as [|op ops IH]; [reflexivity|].
  cbn [flat_map]. rewrite polls_app, IH. reflexivity.
Qed.

(** While the answers are pending the bounded loop keeps polling. *)
Lemma previewLoop_pending (h : Host) (ans : nat -> Operation) :
  PollsAnswer h ans ->
  forall m n op w p,
    polls (calls w) = p ->
    n + m <= 60 ->
    done op = false ->
    (forall i, i < m -> done (ans (p + i)) = false) ->
    exists ops logs,
      length ops = m /\
      V3.previewLoop h op n w =
        V3.previewLoop h (latest ans p op m) (n + m)
          (mkWorld (console w ++ logs) (calls w ++ flat_map pollCalls ops)).
Proof.
  intros PA. induction m as [|m IH]; intros n op w p Hw Hn Hd Hp.
  - exists [], []. cbn [length flat_map latest]. rewrite !app_nil_r, Nat.add_0_r.
    destruct w; split; reflexivity.
  - rewrite previewLoop_unfold, Hd. cbn [negb andb].
    replace (n <? 60)%nat with true by (symmetry; apply Nat.ltb_lt; lia).
    rewrite pollOnce_run, PA, polls_app, Hw. cbn [polls filter length app]. rewrite Nat.add_0_r.
    unfold console_log. rewrite emit_run. unfold world. cbn [snd console calls].
    pose proof (Hp 0 ltac:(lia)) as H0. rewrite Nat.add_0_r in H0.
    match goal with |- context [V3.previewLoop h ?o (S n) ?w1] =>
      destruct (IH (S n) o w1 (S p)) as (ops & logs & L & E) end.
    { cbn [calls]. rewrite polls_app, Hw. cbn [pollCalls polls filter length]. lia. }
    { lia. }
    { exact H0. }
    { intros i Hi. replace (S p + i) with (p + S i) by lia. apply Hp. lia. }
    cbn [console calls] in E. rewrite E.
    exists (op :: ops). eexists. split; [cbn [length]; lia|].
    cbn [flat_map]. rewrite <- !app_assoc.
    replace (S n + m) with (n + S m) by lia.
    destruct m as [|m]; cbn [latest].
    + rewrite Nat.add_0_r. reflexivity.
    + replace (S p + m) with (p + S m) by lia. reflexivity.
Qed.

Lemma latest_pending (ans : nat -> Operation) (p : nat) (op : Operation) (m : nat) :
  done op = false ->
  (forall i, i < m -> done (ans (p + i)) = false) ->
  done (latest ans p op m) = false.
Proof.
  intros Hd Hp. destruct m as [|m]; cbn [latest]; [exact Hd | apply Hp; lia].
Qed.

(** X10. The sixty-poll bound of [generateRealWorldPreview] is exact.
    Against a service that answers each poll by its number, for a job that
    was pending when started and is first reported done, with a video, on its
    [k]-th poll: when [k] is at most 60 the call makes exactly [k] polls and
    returns the video's address with the key appended; when [k] is more than
    60 and the sixtieth answer carries no video, the call stops after sixty
    polls and fails with "Preview generation failed", although the job would
    have completed. *)
Theorem generateRealWorldPreview_completion (h : Host)
    (sceneJson : V3.Scene -> string -> BrandDNA -> string)
    (assetImage subtype : string) (dna : BrandDNA) (w : World)
    (ans : nat -> Operation) (op0 : Operation) (k : nat) (videoUri key : string) :
  API_KEY h = str key ->
  truthy (str key) = true ->
  generateVideos h (calls w)
    (videoRequest "veo-3.1-generate-preview" (V3.previewPrompt h sceneJson subtype dna) assetImage)
    = Value op0 ->
  done op0 = false ->
  PollsAnswer h ans ->
  CompletesAt ans (polls (calls w)) k videoUri ->
  let run := V3.generateRealWorldPreview h sceneJson assetImage subtype dna w in
  (k <= 60 ->
   result run = Value (videoUri ++ "&key=" ++ key) /\
   polls (calls (world run)) = polls (calls w) + k) /\
  (60 < k ->
   truthy (videoUriOf (ans (polls (calls w) + 59))) = false ->
   result run = Throw (Error "Preview generation failed") /\
   polls (calls (world run)) = polls (calls w) + 60).
Proof.
  intros Hkey Hk Hstart Hd0 PA (Hpos & Hpend & Hdone & Huri & Hu). cbv zeta.
  assert (Hkey' : truthy (API_KEY h) = true) by (rewrite Hkey; exact Hk).
  destruct (generateRealWorldPreview_run h sceneJson assetImage subtype dna w op0 Hkey' Hstart)
    as (w1 & logs & Hw1 & E).
  rewrite E. clear E. unfold result at 1 3, world at 1 3 5 7. cbn [fst snd calls].
  assert (Hp1 : polls (calls w1) = polls (calls w)).
  { rewrite Hw1, polls_app. cbn. lia. }
  split.
  - intros Hle.
    destruct (previewLoop_pending h ans PA (k - 1) 0 op0 w1 (polls (calls w)) Hp1
                ltac:(lia) Hd0 Hpend) as (ops & lg & L & P).
    rewrite P. clear P. cbn [Nat.add].
    rewrite previewLoop_unfold, (latest_pending _ _ _ _ Hd0 Hpend). cbn [negb andb].
    replace (k - 1 <? 60)%nat with true by (symmetry; apply Nat.ltb_lt; lia).
    rewrite pollOnce_run, PA. cbn [calls].
    rewrite !polls_app, polls_pollCalls, Hp1, L. cbn [polls filter length]. rewrite Nat.add_0_r.
    unfold console_log. rewrite emit_run. unfold world at 1 2. cbn [snd console calls].
    rewrite previewLoop_unfold, Hdone. cbn [negb andb].
    unfold result, world. cbn [fst snd calls]. rewrite Huri, Hu.
    split.
    + unfold keyed. rewrite Hkey. reflexivity.
    + rewrite !polls_app, polls_pollCalls, Hp1, L. cbn [pollCalls polls filter length]. lia.
  - intros Hlt Hno.
    destruct (previewLoop_pending h ans PA 60 0 op0 w1 (polls (calls w)) Hp1
                ltac:(lia) Hd0) as (ops & lg & L & P).
    { intros i Hi. apply Hpend. lia. }
    rewrite P. clear P. cbn [Nat.add latest].
    rewrite previewLoop_unfold. rewrite andb_false_r.
    unfold result, world. cbn [fst snd calls]. rewrite Hno.
    split; [reflexivity|].
    rewrite polls_app, polls_pollCalls, Hp1, L. reflexivity.
Qed.

(** A job that completes after three polls. *)
Lemma generateRealWorldPreview_completion_witness :
  result (V3.generateRealWorldPreview
            (Examples.renderingAfter 3 "https://videos.example/v1?alt=media") Demo.scene
            "data:image/png;base64,AAAA" "Hoodie" Demo.acme emptyWorld)
    = Value "https://videos.example/v1?alt=media&key=KEY" /\
  polls (calls (world (V3.generateRealWorldPreview
            (Examples.renderingAfter 3 "https://videos.example/v1?alt=media") Demo.scene
            "data:image/png;base64,AAAA" "Hoodie" Demo.acme emptyWorld))) = 3.
Proof.
  refine (proj1 (generateRealWorldPreview_completion
                   (Examples.renderingAfter 3 "https://videos.example/v1?alt=media") Demo.scene
                   "data:image/png;base64,AAAA" "Hoodie" Demo.acme emptyWorld
                   (Examples.progress 3 "https://videos.example/v1?alt=media")
                   (mkOperation false None) 3 "https://videos.example/v1?alt=media" "KEY"
                   eq_refl eq_refl eq_refl eq_refl (fun _ _ => eq_refl) _) _).
  - split; [lia|]. split; [|repeat split].
    intros i Hi. do 2 (destruct i as [|i]; [reflexivity|]). cbn in Hi. lia.
  - lia.
Defined.

(** While the answers are pending the unbounded loop keeps polling, and it
    stops at the first answer that is done. *)
Lemma pollUntilDone_completes (h : Host) (ans : nat -> Operation) :
  PollsAnswer h ans ->
  forall m fuel n op w p,
    polls (calls w) = p ->
    done op = false ->
    (forall i, i < m -> done (ans (p + i)) = false) ->
    done (ans (p + m)) = true ->
    m < fuel ->
    exists ops logs,
      length ops = S m /\
      pollUntilDone h fuel op n w =
        (Value (Some (ans (p + m), n + S m)),
         mkWorld (console w ++ logs) (calls w ++ flat_map pollCalls ops)).
Proof.
  intros PA. induction m as [|m IH]; intros fuel n op w p Hw Hd Hp Hdone Hf;
    (destruct fuel as [|fuel]; [lia|]);
    cbn [pollUntilDone]; rewrite Hd, bind_run, pollOnce_run, PA, polls_app, Hw;
    cbn [polls filter length app]; rewrite Nat.add_0_r; log_step.
  - rewrite Nat.add_0_r in Hdone.
    destruct fuel; cbn [pollUntilDone]; rewrite Hdone; unfold ret;
      exists [op]; eexists; (split; [reflexivity|]);
      cbn [flat_map]; rewrite ?Nat.add_0_r, (app_nil_r (pollCalls op)), Nat.add_1_r; reflexivity.
  - pose proof (Hp 0 ltac:(lia)) as H0. rewrite Nat.add_0_r in H0.
    match goal with |- context [pollUntilDone h fuel ?o (S n) ?w1] =>
      destruct (IH fuel (S n) o w1 (S p)) as (ops & logs & L & E) end.
    { cbn [calls]. rewrite polls_app, Hw. cbn [pollCalls polls filter length]. lia. }
    { exact H0. }
    { intros i Hi. replace (S p + i) with (p + S i) by lia. apply Hp. lia. }
    { replace (S p + m) with (p + S m) by lia. exact Hdone. }
    { lia. }
    cbn [console calls] in E. rewrite E.
    exists (op :: ops). eexists. split; [cbn [length]; lia|].
    cbn [flat_map]. rewrite <- !app_assoc.
    replace (S p + m) with (p + S m) by lia.
    replace (S n + S m) with (n + S (S m)) by lia. reflexivity.
Qed.

(** X11. [generateVisualizationVideo] waits as long as it takes.  Against a
    service that answers each poll by its number, for a job that was pending
    when started and is first reported done, with a video, on its [k]-th
    poll, the call makes exactly [k] polls, whatever [k] is, and returns the
    video's address with the key appended. *)
Theorem generateVisualizationVideo_completion (h : Host) (model : string) (fuel : nat)
    (assetImage subtype : string) (w : World)
    (ans : nat -> Operation) (op0 : Operation) (k : nat) (videoUri key : string) :
  API_KEY h = str key ->
  truthy (str key) = true ->
  generateVideos h (calls w) (videoRequest model (visualizationPrompt h subtype) assetImage)
    = Value op0 ->
  done op0 = false ->
  PollsAnswer h ans ->
  CompletesAt ans (polls (calls w)) k videoUri ->
  k <= fuel ->
  let run := visualizationVideo h model fuel assetImage subtype w in
  result run = Value (Some (videoUri ++ "&key=" ++ key)) /\
  polls (calls (world run)) = polls (calls w) + k.
Proof.
  intros Hkey Hk Hstart Hd0 PA (Hpos & Hpend & Hdone & Huri & Hu) Hfuel. cbv zeta.
  assert (Hkey' : truthy (API_KEY h) = true) by (rewrite Hkey; exact Hk).
  assert (E : exists ops logs,
            length ops = k /\
            visualizationVideo h model fuel assetImage subtype w =
              (Value (Some (videoUri ++ "&key=" ++ key)),
               mkWorld (console w ++ logs)
                 (calls w ++
                  GenerateVideos (videoRequest model (visualizationPrompt h subtype) assetImage)
                  :: flat_map pollCalls ops))).
  { unfold visualizationVideo. rewrite bind_run, getClient_run, Hkey'. cbv zeta.
    log_step. log_step. log_step.
    rewrite bind_run. unfold startVideo, issue. cbn [console calls]. rewrite Hstart.
    log_step. rewrite bind_run.
    match goal with |- context [pollUntilDone h fuel op0 0 ?w1] =>
      destruct (pollUntilDone_completes h ans PA (k - 1) fuel 0 op0 w1 (polls (calls w)))
        as (ops & logs & L & E) end.
    { cbn [calls]. rewrite polls_app. cbn. lia. }
    { exact Hd0. }
    { exact Hpend. }
    { exact Hdone. }
    { lia. }
    rewrite E. clear E. cbn [console calls]. rewrite Huri, Hu. cbn [negb].
    log_step. unfold ret, keyed. rewrite Hkey. cbn [show].
    exists ops. eexists. split; [lia|]. rewrite <- !app_assoc. reflexivity. }
  destruct E as (ops & logs & L & E). rewrite E. unfold result, world. cbn [fst snd calls].
  split; [reflexivity|].
  rewrite polls_app. change (GenerateVideos ?r :: ?l) with ([GenerateVideos r] ++ l)%list.
  rewrite polls_app, polls_pollCalls, L. cbn [polls filter length app]. lia.
Qed.

(** A job that completes after a hundred polls. *)
Lemma generateVisualizationVideo_completion_witness :
  result (V3.generateVisualizationVideo
            (Examples.renderingAfter 100 "https://videos.example/v1?alt=media") 100
            "data:image/png;base64,AAAA" "Hoodie" emptyWorld)
    = Value (Some "https://videos.example/v1?alt=media&key=KEY") /\
  polls (calls (world (V3.generateVisualizationVideo
            (Examples.renderingAfter 100 "https://videos.example/v1?alt=media") 100
            "data:image/png;base64,AAAA" "Hoodie" emptyWorld))) = 100.
Proof.
  refine (generateVisualizationVideo_completion
            (Examples.renderingAfter 100 "https://videos.example/v1?alt=media")
            "veo-3.1-generate-preview" 100
            "data:image/png;base64,AAAA" "Hoodie" emptyWorld
            (Examples.progress 100 "https://videos.example/v1?alt=media")
            (mkOperation false None) 100 "https://videos.example/v1?alt=media" "KEY"
            eq_refl eq_refl eq_refl eq_refl (fun _ _ => eq_refl) _ _).
  - split; [lia|]. split; [|repeat split].
    intros i Hi. unfold Examples.progress.
    change (polls (calls emptyWorld)) with 0. cbn [Nat.add].
    replace (S i <? 100)%nat with true by (symmetry; apply Nat.ltb_lt; lia).
    reflexivity.
  - lia.
Defined.

(** ** Which scene, which clip *)

Lemma prefix_app (p r : string) : String.prefix p (p ++ r) = true.
Proof.
  induction p as [|c p IH]; cbn; [destruct r; reflexivity|].
  destruct (Ascii.ascii_dec c c) as [_|N]; [exact IH | contradiction].
Qed.

Lemma contains_includes (s p : string) : contains s p -> includes s p = true.
Proof.
  intros (before & after & ->). induction before as [|c before IH].
  - cbn [append]. destruct (p ++ after) eqn:E; cbn [includes].
    + rewrite <- E, prefix_app. reflexivity.
    + rewrite <- E, prefix_app. reflexivity.
  - cbn [append includes]. rewrite IH. apply orb_true_r.
Qed.

(** A text that holds [q] holds every text [q] holds. *)
Lemma includes_trans (s q p : string) :
  includes s q = true -> includes q p = true -> includes s p = true.
Proof.
  intros Hq Hp. apply contains_includes.
  destruct (includes_contains _ _ Hq) as (b1 & a1 & ->).
  destruct (includes_contains _ _ Hp) as (b2 & a2 & ->).
  exists (b1 ++ b2), (a2 ++ a1). rewrite !append_assoc. reflexivity.
Qed.

(** X12. The two video functions sort the subtypes alike.  The preview's
    scene is the office scene for apparel exactly when the lower-cased
    subtype holds "hoodie" or "shirt" (its tests for "tshirt" and "t-shirt"
    add nothing), which is exactly when [generateVisualizationVideo] asks for
    the fashion clip; the scene is the billboard scene exactly when the clip
    is the billboard clip; every other scene goes with the showcase clip. *)
Theorem scene_and_clip_agree (h : Host) (subtype : string) :
  let st := toLowerCase h subtype in
  (V3.sceneOf h subtype = V3.Apparel <->
   includes st "hoodie" || includes st "shirt" = true) /\
  (V3.sceneOf h subtype = V3.Apparel <-> visualizationPrompt h subtype = fashionClip) /\
  (V3.sceneOf h subtype = V3.Billboard <-> visualizationPrompt h subtype = billboardClip) /\
  (V3.sceneOf h subtype <> V3.Apparel -> V3.sceneOf h subtype <> V3.Billboard ->
   visualizationPrompt h subtype = showcaseClip).
Proof.
  cbv zeta. unfold V3.sceneOf, visualizationPrompt, fashionClip, billboardClip, showcaseClip.
  cbv zeta.
  set (st := toLowerCase h subtype).
  assert (A : includes st "hoodie" || includes st "shirt" || includes st "tshirt"
              || includes st "t-shirt" = includes st "hoodie" || includes st "shirt").
  { pose proof (fun H => includes_trans st "tshirt" "shirt" H eq_refl) as T1.
    pose proof (fun H => includes_trans st "t-shirt" "shirt" H eq_refl) as T2.
    destruct (includes st "hoodie"); [reflexivity|].
    destruct (includes st "shirt"); [reflexivity|].
    destruct (includes st "tshirt"); [discriminate (T1 eq_refl)|].
    destruct (includes st "t-shirt"); [discriminate (T2 eq_refl) | reflexivity]. }
  rewrite A. clear A.
  match goal with |- context [if includes st "billboard" then V3.Billboard else ?r] =>
    set (rest := r);
    assert (R : rest <> V3.Apparel /\ rest <> V3.Billboard)
  end.
  { unfold rest.
    destruct (includes st "banner" || includes st "poster"); [split; discriminate|].
    destruct (includes st "cap" || includes st "hat"); [split; discriminate|].
    destruct (includes st "tote" || includes st "bag"); split; discriminate. }
  destruct R as [R1 R2].
  destruct (includes st "hoodie" || includes st "shirt");
    destruct (includes st "billboard");
    repeat split; intros; try reflexivity; try discriminate; try contradiction; try congruence.
Qed.

(** ** What a prompt carries *)

Lemma contains_join (sep : string) (l : list string) (x : string) :
  In x l -> contains (join sep l) x.
Proof.
  induction l as [|y l IH]; intros H; [contradiction|].
  destruct l as [|z l].
  - destruct H as [->|[]]. cbn [join]. apply contains_refl.
  - change (join sep (y :: z :: l)) with (y ++ sep ++ join sep (z :: l)).
    destruct H as [->|H].
    + apply contains_app_l. apply contains_refl.
    + do 2 apply contains_app_r. apply IH. exact H.
Qed.

Lemma contains_trans (s q p : string) : contains s q -> contains q p -> contains s p.
Proof.
  intros (b1 & a1 & ->) (b2 & a2 & ->).
  exists (b1 ++ b2), (a2 ++ a1). rewrite !append_assoc. reflexivity.
Qed.

(** Find one operand of a concatenation. *)
Ltac find_part :=
  first [ apply contains_refl
        | apply contains_app_l; apply contains_refl
        | apply contains_app_r; find_part ].

(** X13. What a prompt is sure to carry.  The prompt [buildPrompt] returns
    holds the subtype, every keyword of the brand, every cue of every
    inspiration, the line "Instruction: ..." when an instruction is given,
    the logo instruction for every asset type but VIDEO, and the brand's name
    for every type but MERCHANDISE and, when the brand has no logo, for
    MERCHANDISE too.  For a brand with a logo the merchandise prompt is built
    without the name: it is the same prompt under any other name, so the name
    is in it only where a keyword, a cue or another field spells it. *)
Theorem buildPrompt_carries_the_brand (h : Host) (dna : BrandDNA)
    (inspirations : list Inspiration) (type : AssetType) (subtype : string)
    (specificInstruction : jstr) (w : World) :
  exists prompt,
    result (V1.buildPrompt h dna inspirations type subtype specificInstruction w) = Value prompt /\
    contains prompt subtype /\
    (forall keyword, In keyword (keywords dna) -> contains prompt keyword) /\
    (forall insp cue, In insp inspirations -> In cue (extractedCues insp) ->
       contains prompt cue) /\
    (truthy specificInstruction = true ->
       contains prompt ("Instruction: " ++ show specificInstruction)) /\
    (type <> VIDEO -> contains prompt (logoInstructionOf dna)) /\
    (type <> MERCHANDISE \/ truthy (logoImage dna) = false -> contains prompt (name dna)) /\
    (type = MERCHANDISE -> truthy (logoImage dna) = true ->
     forall other,
       result (V1.buildPrompt h (renamed dna other) inspirations type subtype
                 specificInstruction w) = Value prompt).
Proof.
  exists (V1.promptText h dna inspirations type subtype specificInstruction).
  destruct (buildPrompt_onlyLogs h dna inspirations type subtype specificInstruction w)
    as [logs E].
  rewrite E. unfold result. cbn [fst]. split; [reflexivity|].
  unfold V1.promptText. cbv zeta.
  set (base := match type with
               | MERCHANDISE => _ | MARKETING => _ | DIGITAL => _ | VIDEO => _ end).
  assert (B : forall p, contains base p ->
                contains (finalPromptOf dna base (instructionLineOf specificInstruction)
                            (cuesOf inspirations)) p).
  { intros p Hp. unfold finalPromptOf. do 2 apply contains_app_r. apply contains_app_l.
    exact Hp. }
  assert (L : contains (logoInstructionOf dna) (name dna) \/ truthy (logoImage dna) = true).
  { unfold logoInstructionOf. destruct (truthy (logoImage dna)); [right; reflexivity|].
    left. find_part. }
  split; [|split; [|split; [|split; [|split; [|split]]]]].
  - apply B. unfold base, V1.merchandisePrompt, marketingPrompt, digitalPrompt, defaultPrompt.
    destruct type; find_part.
  - intros keyword Hk. unfold finalPromptOf.
    apply (contains_trans _ (join ", " (keywords dna))); [find_part|].
    apply contains_join. exact Hk.
  - intros insp cue Hi Hc. unfold finalPromptOf.
    apply (contains_trans _ (cuesOf inspirations)); [find_part|]. unfold cuesOf.
    apply (contains_trans _ (join ", " (extractedCues insp))).
    + apply contains_join. apply in_map_iff. exists insp. split; [reflexivity | exact Hi].
    + apply contains_join. exact Hc.
  - intros Ht.
    replace ("Instruction: " ++ show specificInstruction)
      with (instructionLineOf specificInstruction)
      by (unfold instructionLineOf; rewrite Ht; reflexivity).
    apply finalPromptOf_line.
  - intros Hv. apply B. unfold base, V1.merchandisePrompt, marketingPrompt, digitalPrompt.
    destruct type; [| | |contradiction]; find_part.
  - intros Hn. apply B. unfold base.
    destruct type.
    + destruct Hn as [Hn|Hn]; [contradiction|].
      destruct L as [L|L]; [|congruence].
      apply (contains_trans _ (logoInstructionOf dna)); [|exact L].
      unfold V1.merchandisePrompt. find_part.
    + unfold marketingPrompt. find_part.
    + unfold digitalPrompt. find_part.
    + unfold defaultPrompt. find_part.
  - intros Ht Hlogo other.
    destruct (buildPrompt_onlyLogs h (renamed dna other) inspirations type subtype
                specificInstruction w) as [logs' E'].
    rewrite E'. cbn [fst]. f_equal. unfold base. rewrite Ht.
    unfold V1.promptText, V1.merchandisePrompt, finalPromptOf, logoInstructionOf, renamed.
    cbn [logoImage colors visualEssence keywords]. rewrite Hlogo. reflexivity.
Qed.

(** One inspiration with two cues. *)
Lemma buildPrompt_carries_the_brand_witness :
  exists prompt,
    result (V1.buildPrompt Demo.stalled Demo.acme
              [mkInspiration "a" "data:image/png;base64,AAAA" "neon" ["glow"; "grain"]]
              MERCHANDISE "Hoodie" undefined emptyWorld) = Value prompt /\
    contains prompt "grain" /\ contains prompt "Acme".
Proof.
  destruct (buildPrompt_carries_the_brand Demo.stalled Demo.acme
              [mkInspiration "a" "data:image/png;base64,AAAA" "neon" ["glow"; "grain"]]
              MERCHANDISE "Hoodie" undefined emptyWorld)
    as (prompt & R & _ & _ & C & _ & _ & N & _).
  exists prompt. split; [exact R|]. split.
  - apply (C (mkInspiration "a" "data:image/png;base64,AAAA" "neon" ["glow"; "grain"]) "grain").
    + left. reflexivity.
    + right. left. reflexivity.
  - apply N. right. reflexivity.
Defined.

(** ** The calls of the unbounded loop *)

Lemma pollUntilDone_run (h : Host) :
  forall (fuel : nat) (op : Operation) (n : nat) (w : World),
    exists ops logs r,
      length ops <= fuel /\
      pollUntilDone h fuel op n w
        = (r, mkWorld (console w ++ logs) (calls w ++ flat_map pollCalls ops)) /\
      match r with
      | Value (Some (final, n')) => done final = true /\ n' = n + length ops
      | Value None => length ops = fuel
      | Throw _ => True
      end.
Proof.
  induction fuel as [|fuel IH]; intros op n w; cbn [pollUntilDone].
  - exists [], []. cbn [length flat_map]. rewrite !app_nil_r.
    destruct (done op) eqn:Hd; unfold ret; eexists;
      (split; [lia|]); (split; [destruct w; reflexivity|]); cbn; auto.
  - destruct (done op) eqn:Hd.
    + exists [], []. cbn [length flat_map]. rewrite !app_nil_r.
      unfold ret. eexists. split; [lia|]. split; [destruct w; reflexivity|]. cbn. auto.
    + rewrite bind_run, pollOnce_run.
      destruct (getVideosOperation h (calls w ++ [SetTimeout 5000]) op) as [op'|e].
      * log_step.
        match goal with |- context [pollUntilDone h fuel op' (S n) ?w1] =>
          destruct (IH op' (S n) w1) as (ops & logs & r & L & W & R) end.
        exists (op :: ops). eexists. exists r. split; [cbn [length]; lia|].
        rewrite W. cbn [console calls flat_map]. rewrite <- !app_assoc.
        split; [reflexivity|].
        destruct r as [[[final n']|]|e]; cbn [length]; try exact I;
          [destruct R as [R1 R2]; split; [exact R1 | lia] | lia].
      * exists [op], []. eexists. cbn [length flat_map].
        rewrite !app_nil_r. split; [lia|]. split; [reflexivity | exact I].
Qed.

(** X14. What [generateVisualizationVideo] sends.  It asks for one 720p
    video at 16:9 of the asset's bytes, with one of its three clips as the
    prompt.  Without a key it sends nothing.  With a key it sends the start
    request once and after it nothing but pairs of a five-second sleep and a
    poll; there is no other bound on their number than the job's completion:
    a run that is still polling after [fuel] turns has made [fuel] polls. *)
Theorem generateVisualizationVideo_calls (h : Host) (model : string) (fuel : nat)
    (assetImage subtype : string) (w : World) :
  let run := visualizationVideo h model fuel assetImage subtype w in
  let req := videoRequest model (visualizationPrompt h subtype) assetImage in
  imageBytes req = payload assetImage /\
  numberOfVideos req = 1 /\ resolution req = "720p" /\ v_aspectRatio req = "16:9" /\
  In (prompt req) [fashionClip; billboardClip; showcaseClip] /\
  if truthy (API_KEY h) then
    exists ops,
      length ops <= fuel /\
      calls (world run) = (calls w ++ GenerateVideos req :: flat_map pollCalls ops)%list /\
      (result run = Value None -> length ops = fuel)
  else calls (world run) = calls w.
Proof.
  cbv zeta. split; [reflexivity|]. split; [reflexivity|]. split; [reflexivity|].
  split; [reflexivity|]. split.
  - cbn [prompt videoRequest]. unfold visualizationPrompt, fashionClip, billboardClip, showcaseClip.
    destruct (includes _ "hoodie" || includes _ "shirt"); [left; reflexivity|].
    destruct (includes _ "billboard"); [right; left; reflexivity | right; right; left; reflexivity].
  - destruct (truthy (API_KEY h)) eqn:Hkey.
    + assert (E : exists ops logs r,
                length ops <= fuel /\
                visualizationVideo h model fuel assetImage subtype w =
                  (r, mkWorld (console w ++ logs)
                        (calls w ++
                         GenerateVideos (videoRequest model (visualizationPrompt h subtype)
                                           assetImage)
                         :: flat_map pollCalls ops)) /\
                (r = Value None -> length ops = fuel)).
      { unfold visualizationVideo. rewrite bind_run, getClient_run, Hkey. cbv zeta.
        log_step. log_step. log_step.
        rewrite bind_run. unfold startVideo, issue. cbn [console calls].
        destruct (generateVideos h (calls w) _) as [op0|e].
        - log_step. rewrite bind_run.
          match goal with |- context [pollUntilDone h fuel op0 0 ?w1] =>
            destruct (pollUntilDone_run h fuel op0 0 w1) as (ops & logs & r & L & W & R)
          end; rewrite W; clear W; cbn [console calls];
            destruct r as [[[final n']|]|e].
          + exists ops.
            destruct (truthy (videoUriOf final)); cbn [negb].
            * log_step. unfold ret. rewrite <- !app_assoc.
              eexists. eexists. split; [exact L|].
              split; [reflexivity | intros N; discriminate N].
            * rewrite bind_run. unfold console_error. rewrite emit_run.
              unfold throw. cbn [console calls].
              rewrite <- !app_assoc. eexists. eexists. split; [exact L|].
              split; [reflexivity | intros N; discriminate N].
          + exists ops. eexists. eexists. unfold ret.
            rewrite <- !app_assoc. split; [exact L|]. split; [reflexivity|]. intros _. exact R.
          + exists ops. eexists. eexists.
            rewrite <- !app_assoc. split; [exact L|].
            split; [reflexivity | intros N; discriminate N].
        - exists []. eexists. eexists. cbn [length flat_map].
          rewrite <- !app_assoc. split; [lia|].
          split; [reflexivity | intros N; discriminate N]. }
      destruct E as (ops & logs & r & L & W & N). exists ops. rewrite W.
      unfold result, world. cbn [fst snd calls].
      split; [exact L|]. split; [reflexivity | exact N].
    + unfold visualizationVideo. rewrite bind_run, getClient_run, Hkey. reflexivity.
Qed.

(** ** The second revision *)

Lemma spawnEach_ret (h : Host) (req : GenRequest) :
  forall (items : list nat) (idx : nat) (w : World),
    spawnEach h (fun _ _ => ret req) idx items w =
      (Value (answers h (calls w) (map (fun _ => req) items)),
       mkWorld (console w) (calls w ++ map GenerateContent (map (fun _ => req) items))).
Proof.
  induction items as [|x rest IH]; intros idx w.
  - cbn. rewrite app_nil_r. destruct w; reflexivity.
  - cbn [spawnEach map answers]. unfold ret at 1. rewrite bind_run. rewrite bind_run.
    unfold spawn at 1. cbn [console calls]. rewrite bind_run, IH. unfold ret.
    cbn [console calls]. rewrite <- app_assoc. reflexivity.
Qed.

Lemma pushParts_images (l : list Part) :
  forall images,
    V2Service.pushParts l images =
      (images ++ flat_map (fun part => match inlineData part with
                                       | Some d => [dataUrl d]
                                       | None => []
                                       end) l)%list.
Proof.
  induction l as [|part rest IH]; intros images; cbn [V2Service.pushParts flat_map].
  - rewrite app_nil_r. reflexivity.
  - destruct (inlineData part) as [d|]; rewrite IH.
    + rewrite <- app_assoc. reflexivity.
    + reflexivity.
Qed.

Lemma pushResponses_images (responses : list GenResponse) :
  forall images,
    V2Service.pushResponses responses images = (images ++ flat_map imagesOf responses)%list.
Proof.
  induction responses as [|res rest IH]; intros images;
    cbn [V2Service.pushResponses flat_map].
  - rewrite app_nil_r. reflexivity.
  - rewrite IH. unfold imagesOf at 2. destruct (firstParts res) as [l|].
    + rewrite pushParts_images, <- app_assoc. reflexivity.
    + reflexivity.
Qed.

Lemma pollUntilDone_V2_silent (h : Host) :
  forall (fuel : nat) (op : Operation) (w : World),
    console (world (V2Service.pollUntilDone h fuel op w)) = console w.
Proof.
  induction fuel as [|fuel IH]; intros op w; cbn [V2Service.pollUntilDone];
    destruct (done op); try reflexivity.
  rewrite bind_run, pollOnce_run.
  destruct (getVideosOperation h _ op) as [op'|e]; [|reflexivity].
  rewrite IH. reflexivity.
Qed.

(** X15. The second text of the service file is silent: drafting, editing,
    finalizing and the video function leave the console as they found it,
    whatever the service answers. *)
Theorem second_revision_is_silent (h : Host) (w : World) :
  (forall dna inspirations type subtype,
     console (world (V2Service.generateDrafts h dna inspirations type subtype w)) = console w) /\
  (forall originalImage maskImage instruction,
     console (world (V2Service.editAsset h originalImage maskImage instruction w)) = console w) /\
  (forall dna draftImage subtype,
     console (world (V2Service.finalizeAsset h dna draftImage subtype w)) = console w) /\
  (forall fuel assetImage subtype,
     console (world (V2Service.generateVisualizationVideo h fuel assetImage subtype w))
     = console w).
Proof.
  split; [|split; [|split]].
  - intros dna inspirations type subtype. unfold V2Service.generateDrafts.
    rewrite bind_run, getClient_run. destruct (truthy (API_KEY h)); [|reflexivity].
    unfold V2.buildPrompt. unfold ret at 1. rewrite bind_run. cbv zeta.
    rewrite bind_run, spawnEach_ret, bind_run. unfold Promise_all, await.
    destruct (settleAll _); reflexivity.
  - intros originalImage maskImage instruction. unfold V2Service.editAsset.
    rewrite bind_run, getClient_run. destruct (truthy (API_KEY h)); [|reflexivity].
    rewrite bind_run. unfold generate, issue.
    destruct (generateContent h (calls w) _) as [res|e]; [|reflexivity].
    destruct (firstImageOf res); reflexivity.
  - intros dna draftImage subtype. unfold V2Service.finalizeAsset.
    rewrite bind_run, getClient_run. destruct (truthy (API_KEY h)); [|reflexivity].
    rewrite bind_run. unfold generate, issue.
    destruct (generateContent h (calls w) _) as [res|e]; [|reflexivity].
    destruct (firstImageOf res); reflexivity.
  - intros fuel assetImage subtype. unfold V2Service.generateVisualizationVideo.
    rewrite bind_run, getClient_run. destruct (truthy (API_KEY h)); [|reflexivity].
    cbv zeta. rewrite bind_run. unfold startVideo, issue.
    destruct (generateVideos h (calls w) _) as [op0|e]; [|reflexivity].
    rewrite bind_run.
    match goal with |- context [V2Service.pollUntilDone h fuel op0 ?w1] =>
      pose proof (pollUntilDone_V2_silent h fuel op0 w1) as S;
      destruct (V2Service.pollUntilDone h fuel op0 w1) as [[[final|]|e] w2]
    end; unfold world in S; cbn [snd console] in S; try exact S.
    destruct (truthy (videoUriOf final)); exact S.
Qed.

(** X16. The second text does what the first does, without the console.
    Its [finalizeAsset] returns what the first revision's returns and sends
    the same request.  Its [editAsset] sends the first revision's parts to
    another model, gemini-2.5-flash-image, and returns the first inline image
    of the answer or fails with "Editing failed".  Its [generateDrafts] sends
    one request four times to that model, is rejected when one of the four
    is, and otherwise returns the images of the four answers in order.
    Without a key the two are refused before anything is sent. *)
Theorem second_revision_same_phases (h : Host) (w : World) :
  (forall dna draftImage subtype,
     result (V2Service.finalizeAsset h dna draftImage subtype w)
       = result (finalizeAsset h "1K" dna draftImage subtype w) /\
     calls (world (V2Service.finalizeAsset h dna draftImage subtype w))
       = calls (world (finalizeAsset h "1K" dna draftImage subtype w))) /\
  (forall originalImage maskImage instruction,
     contents (V2Service.editRequest originalImage maskImage instruction)
       = contents (V1.editRequest originalImage maskImage instruction) /\
     config (V2Service.editRequest originalImage maskImage instruction)
       = config (V1.editRequest originalImage maskImage instruction) /\
     if truthy (API_KEY h) then
       result (V2Service.editAsset h originalImage maskImage instruction w)
         = edited (generateContent h (calls w)
                     (V2Service.editRequest originalImage maskImage instruction)) /\
       calls (world (V2Service.editAsset h originalImage maskImage instruction w))
         = (calls w ++ [GenerateContent
                          (V2Service.editRequest originalImage maskImage instruction)])%list
     else Refused w (V2Service.editAsset h originalImage maskImage instruction w)) /\
  (forall dna inspirations type subtype,
     if truthy (API_KEY h) then
       exists req,
         calls (world (V2Service.generateDrafts h dna inspirations type subtype w))
           = (calls w ++ [GenerateContent req; GenerateContent req;
                          GenerateContent req; GenerateContent req])%list /\
         model req = "gemini-2.5-flash-image" /\
         match settleAll (answers h (calls w) [req; req; req; req]) with
         | Value responses =>
             result (V2Service.generateDrafts h dna inspirations type subtype w)
               = Value (flat_map imagesOf responses)
         | Throw e =>
             result (V2Service.generateDrafts h dna inspirations type subtype w) = Throw e
         end
     else Refused w (V2Service.generateDrafts h dna inspirations type subtype w)).
Proof.
  split; [|split].
  - intros dna draftImage subtype.
    destruct (truthy (API_KEY h)) eqn:Hkey.
    + destruct (finalizeAsset_run h "1K" dna draftImage subtype w Hkey) as [logs E].
      rewrite E. unfold V2Service.finalizeAsset, finalized.
      rewrite bind_run, getClient_run, Hkey, bind_run. unfold generate, issue.
      destruct (generateContent h (calls w) _) as [res|e]; [|split; reflexivity].
      destruct (firstImageOf res); split; reflexivity.
    + unfold V2Service.finalizeAsset, finalizeAsset.
      rewrite !bind_run, getClient_run, Hkey. split; reflexivity.
  - intros originalImage maskImage instruction.
    split; [reflexivity|]. split; [reflexivity|].
    destruct (truthy (API_KEY h)) eqn:Hkey.
    + unfold V2Service.editAsset, edited.
      rewrite bind_run, getClient_run, Hkey, bind_run. unfold generate, issue.
      destruct (generateContent h (calls w) _) as [res|e]; [|split; reflexivity].
      destruct (firstImageOf res); split; reflexivity.
    + apply refused_bind. exact Hkey.
  - intros dna inspirations type subtype.
    destruct (truthy (API_KEY h)) eqn:Hkey; [|apply refused_bind; exact Hkey].
    assert (E : exists req,
              model req = "gemini-2.5-flash-image" /\
              V2Service.generateDrafts h dna inspirations type subtype w =
                (match settleAll (answers h (calls w) [req; req; req; req]) with
                 | Value responses => Value (flat_map imagesOf responses)
                 | Throw e => Throw e
                 end,
                 mkWorld (console w)
                   (calls w ++ [GenerateContent req; GenerateContent req;
                                GenerateContent req; GenerateContent req]))).
    { unfold V2Service.generateDrafts.
      rewrite bind_run, getClient_run, Hkey.
      unfold V2.buildPrompt. unfold ret at 1. rewrite bind_run. cbv zeta.
      rewrite bind_run, spawnEach_ret, bind_run. unfold Promise_all, await.
      cbn [map repeat console calls].
      match goal with |- context [answers h (calls w) (?r :: _)] => exists r end.
      split; [reflexivity|].
      destruct (settleAll _) as [responses|e]; [|reflexivity].
      unfold ret. rewrite pushResponses_images. reflexivity. }
    destruct E as (req & M & E). exists req. rewrite E. unfold result, world.
    cbn [fst snd calls]. split; [reflexivity|]. split; [exact M|].
    destruct (settleAll _); reflexivity.
Qed.

(** ** The logo field of the brand form *)

Lemma fetchLogoFromUrl_value (h : Host) (websiteUrl : string) (w : World) :
  exists v, result (fetchLogoFromUrl h websiteUrl w) = Value v.
Proof.
  unfold fetchLogoFromUrl, try_catch.
  destruct (hostname h websiteUrl) as [domain|].
  - destruct (trySources_firstResolved h domain (sources domain) w) as [logs E].
    rewrite E. eexists. reflexivity.
  - unfold throw. rewrite bind_run. unfold console_warn. rewrite emit_run.
    eexists. reflexivity.
Qed.

(** X17. [handleUrlBlur], run with nothing else updating the form in
    between, never fails.  When the address field is empty or the render the
    handler belongs to already shows a logo it does nothing: no request, no
    console line, the same state.  Otherwise it runs [fetchLogoFromUrl] on
    the field and always clears the fetching flag afterwards, since that call
    cannot throw; a logo that was found becomes the preview and clears the
    logo error, and when none was found the preview and the error stay as
    they were.  The form's fields are never touched. *)
Theorem handleUrlBlur_outcome (h : Host) (s : BrandManager.State) (w : World) :
  let run := handleUrlBlur h s w in
  let field := BrandManager.url (BrandManager.formData s) in
  exists after,
    result run = Value after /\
    BrandManager.formData after = BrandManager.formData s /\
    BrandManager.isEditing after = BrandManager.isEditing s /\
    (truthy (BrandManager.logoPreview s) = true ->
     after = s /\ world run = w) /\
    (field = "" -> after = s /\ world run = w) /\
    (truthy (BrandManager.logoPreview s) = false -> field <> "" ->
     world run = world (fetchLogoFromUrl h field w) /\
     BrandManager.isFetchingLogo after = false /\
     match result (fetchLogoFromUrl h field w) with
     | Value logo =>
         if truthy logo
         then BrandManager.logoPreview after = logo /\ BrandManager.logoError after = None
         else BrandManager.logoPreview after = BrandManager.logoPreview s /\
              BrandManager.logoError after = BrandManager.logoError s
     | Throw _ => False
     end).
Proof.
  cbv zeta. unfold handleUrlBlur.
  destruct (BrandManager.url (BrandManager.formData s) =? "") eqn:Hu; cbn [negb andb].
  - apply String.eqb_eq in Hu. exists s. unfold ret, result, world. cbn [fst snd].
    repeat split; intros; try reflexivity; try contradiction.
  - apply String.eqb_neq in Hu.
    destruct (truthy (BrandManager.logoPreview s)) eqn:Hp; cbn [negb].
    + exists s. unfold ret, result, world. cbn [fst snd].
      repeat split; intros; try reflexivity; try discriminate; try contradiction.
    + rewrite bind_run.
      destruct (fetchLogoFromUrl_value h (BrandManager.url (BrandManager.formData s)) w)
        as [logo E].
      destruct (fetchLogoFromUrl h (BrandManager.url (BrandManager.formData s)) w)
        as [[v|e] w1]; unfold result in E; cbn [fst] in E; [|discriminate E].
      clear E. destruct (truthy v) eqn:Hv; unfold ret, result, world; cbn [fst snd];
        eexists; (split; [reflexivity|]); cbn;
        repeat split; intros; try reflexivity; try discriminate; try contradiction;
        rewrite Hv; split; reflexivity.
Qed.

(** The field holds an address and no logo is shown; the third source
    serves one. *)
Lemma handleUrlBlur_outcome_witness :
  exists after,
    result (handleUrlBlur
              (Demo.web (fun past _ => if (length past <? 2)%nat then Value Demo.notFound
                                       else Value (Demo.png "LOGO")))
              (BrandManager.mkState true false false "Initializing..." (Some "old")
                 (BrandManager.mkFormData "Nike" "Shoes" "https://nike.com/us") undefined)
              emptyWorld) = Value after /\
    BrandManager.logoPreview after = str "data:image/png;base64,LOGO" /\
    BrandManager.logoError after = None.
Proof.
  destruct (handleUrlBlur_outcome
              (Demo.web (fun past _ => if (length past <? 2)%nat then Value Demo.notFound
                                       else Value (Demo.png "LOGO")))
              (BrandManager.mkState true false false "Initializing..." (Some "old")
                 (BrandManager.mkFormData "Nike" "Shoes" "https://nike.com/us") undefined)
              emptyWorld) as (after & R & _ & _ & _ & _ & F).
  exists after. split; [exact R|].
  destruct (F eq_refl ltac:(discriminate)) as (_ & _ & M). exact M.
Defined.

(** X18. What [handleSubmit] leaves behind.  In every case the generating
    flag is cleared, the form's fields are kept, at most one brand is saved,
    and a logo shown in the form is still shown.  A brand that is saved closes
    the form, clears the logo error and makes the saved logo the preview,
    without any alert.  When [generateBrandDNA] is rejected nothing is saved:
    the error goes to the console, the user is alerted with "Failed to create
    Brand DNA. Please try again.", and the form stays as it was. *)
Theorem handleSubmit_outcomes
    (generateBrandDNA : string -> string -> string -> list string * Outcome BrandDNA)
    (s : BrandManager.State) :
  let form := BrandManager.formData s in
  let answer := snd (generateBrandDNA (BrandManager.f_name form) (BrandManager.f_description form)
                       (BrandManager.url form)) in
  let after := fst (BrandManager.handleSubmit generateBrandDNA s) in
  let effects := snd (BrandManager.handleSubmit generateBrandDNA s) in
  BrandManager.isGenerating after = false /\
  BrandManager.formData after = form /\
  length (BrandManager.saved effects) <= 1 /\
  (truthy (BrandManager.logoPreview s) = true ->
   BrandManager.logoPreview after = BrandManager.logoPreview s) /\
  (forall brand, In brand (BrandManager.saved effects) ->
     BrandManager.isEditing after = false /\
     BrandManager.logoError after = None /\
     BrandManager.logoPreview after = logoImage brand /\
     BrandManager.alerts effects = []) /\
  (forall e, answer = Throw e ->
     BrandManager.saved effects = [] /\
     BrandManager.alerts effects = ["Failed to create Brand DNA. Please try again."] /\
     BrandManager.errors effects = [e] /\
     BrandManager.isEditing after = BrandManager.isEditing s /\
     BrandManager.logoPreview after = BrandManager.logoPreview s /\
     BrandManager.logoError after = None).
Proof.
  cbv zeta. unfold BrandManager.handleSubmit, BrandManager.jor.
  destruct (generateBrandDNA _ _ _) as [statuses [brand|e]]; cbn [snd].
  - destruct (truthy (BrandManager.logoPreview s)) eqn:Hp;
      destruct (truthy (logoImage brand)) eqn:Hx;
      destruct (BrandManager.url (BrandManager.formData s) =? "") eqn:Hu;
      cbn [negb andb fst snd BrandManager.saved BrandManager.alerts BrandManager.isGenerating
           BrandManager.formData BrandManager.logoPreview BrandManager.logoError
           BrandManager.isEditing length In];
      repeat split; intros; try reflexivity; try discriminate; try lia;
      try (destruct H as [<-|[]]; reflexivity); try contradiction.
  - cbn [fst snd BrandManager.saved BrandManager.alerts BrandManager.isGenerating
         BrandManager.formData BrandManager.logoPreview BrandManager.logoError
         BrandManager.isEditing BrandManager.errors length In].
    repeat split; intros; try reflexivity; try lia; try contradiction;
      try (injection H as <-; reflexivity).
Qed.

(** X19. A logo fetched when the address field lost focus is the logo of
    the brand that is saved.  If [handleUrlBlur] ran on a form without a logo
    and left one in the preview, that logo is what [fetchLogoFromUrl]
    returned for the address, and a following [handleSubmit] whose
    [generateBrandDNA] succeeds saves the brand with exactly this logo,
    whatever logo the model extracted. *)
Theorem blur_then_submit (h : Host)
    (generateBrandDNA : string -> string -> string -> list string * Outcome BrandDNA)
    (s afterBlur : BrandManager.State) (w : World)
    (statuses : list string) (extracted : BrandDNA) :
  result (handleUrlBlur h s w) = Value afterBlur ->
  truthy (BrandManager.logoPreview s) = false ->
  truthy (BrandManager.logoPreview afterBlur) = true ->
  generateBrandDNA (BrandManager.f_name (BrandManager.formData s))
                   (BrandManager.f_description (BrandManager.formData s))
                   (BrandManager.url (BrandManager.formData s))
    = (statuses, Value extracted) ->
  result (fetchLogoFromUrl h (BrandManager.url (BrandManager.formData s)) w)
    = Value (BrandManager.logoPreview afterBlur) /\
  BrandManager.saved (snd (BrandManager.handleSubmit generateBrandDNA afterBlur))
    = [BrandManager.withLogo extracted (BrandManager.logoPreview afterBlur)].
Proof.
  intros R Hp Ha G. unfold handleUrlBlur in R. rewrite Hp in R. cbn [negb] in R.
  destruct (BrandManager.url (BrandManager.formData s) =? "") eqn:Hu; cbn [negb andb] in R.
  - unfold ret, result in R. cbn [fst] in R. injection R as <-. congruence.
  - rewrite bind_run in R.
    destruct (fetchLogoFromUrl h (BrandManager.url (BrandManager.formData s)) w)
      as [[v|e] w1]; [|discriminate R].
    destruct (truthy v) eqn:Hv; unfold ret, result in R |- *; cbn [fst] in R |- *;
      injection R as <-; cbn [BrandManager.logoPreview] in *; [|congruence].
    split; [reflexivity|].
    unfold BrandManager.handleSubmit, BrandManager.jor.
    cbn [BrandManager.formData BrandManager.logoPreview]. rewrite G, Hv.
    rewrite !andb_false_r. reflexivity.
Qed.

(** The third source serves a logo; the model extracts another. *)
Lemma blur_then_submit_witness :
  BrandManager.saved
    (snd (BrandManager.handleSubmit
            (fun _ _ _ => (["Brand DNA Forged."],
                           Value (mkBrandDNA "Nike" "Shoes" (str "https://nike.com/us") ["#111111"]
                                    "Futura" "bold" "rules" ["sport"]
                                    (str "data:image/png;base64,EXTRACTED"))))
            (BrandManager.mkState true false false "Initializing..." None
               (BrandManager.mkFormData "Nike" "Shoes" "https://nike.com/us")
               (str "data:image/png;base64,LOGO"))))
  = [mkBrandDNA "Nike" "Shoes" (str "https://nike.com/us") ["#111111"]
       "Futura" "bold" "rules" ["sport"] (str "data:image/png;base64,LOGO")].
Proof.
  exact (proj2 (blur_then_submit
                  (Demo.web (fun past _ => if (length past <? 2)%nat then Value Demo.notFound
                                           else Value (Demo.png "LOGO")))
                  (fun _ _ _ => (["Brand DNA Forged."],
                                 Value (mkBrandDNA "Nike" "Shoes" (str "https://nike.com/us")
                                          ["#111111"] "Futura" "bold" "rules" ["sport"]
                                          (str "data:image/png;base64,EXTRACTED"))))
                  (BrandManager.mkState true false false "Initializing..." None
                     (BrandManager.mkFormData "Nike" "Shoes" "https://nike.com/us") undefined)
                  (BrandManager.mkState true false false "Initializing..." None
                     (BrandManager.mkFormData "Nike" "Shoes" "https://nike.com/us")
                     (str "data:image/png;base64,LOGO"))
                  emptyWorld ["Brand DNA Forged."] _ eq_refl eq_refl eq_refl eq_refl)).
Defined.

(** X29. The logo test of [handleUrlBlur] is made before the fetch only.
    When nothing else updates the form during the fetch the handler behaves
    as [handleUrlBlur] above.  When a file is uploaded while
    [fetchLogoFromUrl] is awaited, which the form allows since the upload
    field stays in view, a logo that is found still becomes the preview and
    replaces the uploaded one; the upload is kept only when no logo is found.
    In both cases the handler does not fail, the fetching flag and the logo
    error end up cleared, and the form's fields are kept. *)
Theorem upload_during_fetch_is_replaced (h : Host) (s : BrandManager.State) (w : World)
    (file : string) :
  let field := BrandManager.url (BrandManager.formData s) in
  let run := handleUrlBlurWhile h (logoUploaded file) s w in
  handleUrlBlurWhile h (fun current => current) s w = handleUrlBlur h s w /\
  (field <> "" -> truthy (BrandManager.logoPreview s) = false ->
   exists logo after,
     result (fetchLogoFromUrl h field w) = Value logo /\
     result run = Value after /\
     world run = world (fetchLogoFromUrl h field w) /\
     BrandManager.isFetchingLogo after = false /\
     BrandManager.logoError after = None /\
     BrandManager.formData after = BrandManager.formData s /\
     BrandManager.logoPreview after = if truthy logo then logo else str file).
Proof.
  cbv zeta. split.
  - unfold handleUrlBlurWhile, handleUrlBlur, logoFetched, fetchingLogo.
    destruct (negb _ && negb _); [|reflexivity].
    rewrite !bind_run. destruct (fetchLogoFromUrl h _ w) as [[logo|e] w1]; [|reflexivity].
    destruct (truthy logo); reflexivity.
  - intros Hu Hp. unfold handleUrlBlurWhile.
    apply String.eqb_neq in Hu. rewrite Hu, Hp. cbn [negb andb].
    rewrite bind_run.
    destruct (fetchLogoFromUrl_value h (BrandManager.url (BrandManager.formData s)) w)
      as [logo E].
    destruct (fetchLogoFromUrl h (BrandManager.url (BrandManager.formData s)) w)
      as [[v|e] w1]; unfold result in E; cbn [fst] in E; [|discriminate E].
    clear E. exists v. eexists. unfold ret, result, world. cbn [fst snd].
    split; [reflexivity|]. split; [reflexivity|]. split; [reflexivity|].
    unfold logoFetched. destruct (truthy v); repeat split.
Qed.

(** The third source serves a logo while the user uploads one. *)
Lemma upload_during_fetch_is_replaced_witness :
  exists logo after,
    result (fetchLogoFromUrl
              (Demo.web (fun past _ => if (length past <? 2)%nat then Value Demo.notFound
                                       else Value (Demo.png "LOGO")))
              "https://nike.com/us" emptyWorld) = Value logo /\
    result (handleUrlBlurWhile
              (Demo.web (fun past _ => if (length past <? 2)%nat then Value Demo.notFound
                                       else Value (Demo.png "LOGO")))
              (logoUploaded "data:image/png;base64,MINE")
              (BrandManager.mkState true false false "Initializing..." None
                 (BrandManager.mkFormData "Nike" "Shoes" "https://nike.com/us") undefined)
              emptyWorld) = Value after /\
    logo = str "data:image/png;base64,LOGO" /\
    BrandManager.logoPreview after = str "data:image/png;base64,LOGO".
Proof.
  destruct (proj2 (upload_during_fetch_is_replaced
              (Demo.web (fun past _ => if (length past <? 2)%nat then Value Demo.notFound
                                       else Value (Demo.png "LOGO")))
              (BrandManager.mkState true false false "Initializing..." None
                 (BrandManager.mkFormData "Nike" "Shoes" "https://nike.com/us") undefined)
              emptyWorld "data:image/png;base64,MINE")
              ltac:(discriminate) eq_refl)
    as (logo & after & F & R & _ & _ & _ & _ & P).
  exists logo, after. split; [exact F|]. split; [exact R|].
  assert (L : logo = str "data:image/png;base64,LOGO").
  { cbn in F. unfold result in F. vm_compute in F. injection F as <-. reflexivity. }
  split; [exact L|]. rewrite P, L. reflexivity.
Defined.

(** ** The studio *)

(** X20. A click on an item of the studio asks for drafts of the subtype
    that was selected before the click, not of the item clicked: the calls
    made are those of [generateDrafts] for the old subtype, which is the
    empty string on the first click of a session, so what is sent does not
    depend on the item at all.  The item clicked is the selection only
    afterwards.  When [generateDrafts] returns, the studio shows its images
    at step 3 without an alert; when it fails, the studio goes back to step 1,
    keeps its drafts and alerts "Failed to generate drafts.". *)
Theorem selectItem_uses_previous_subtype
    (dna : BrandDNA) (inspirations : list Inspiration)
    (generateDrafts : BrandDNA -> list Inspiration -> AssetType -> string -> IO (list string))
    (item : string) (s : Studio.State) (w : World) :
  let run := Studio.selectItem dna inspirations generateDrafts item s w in
  let asked := generateDrafts dna inspirations (Studio.selectedType s) (Studio.selectedSubtype s) w in
  calls (world run) = calls (world asked) /\
  (forall other,
     world (Studio.selectItem dna inspirations generateDrafts other s w) = world run) /\
  exists after effects,
    result run = Value (after, effects) /\
    Studio.selectedSubtype after = item /\
    match result asked with
    | Value images =>
        Studio.step after = 3 /\ Studio.drafts after = map str images /\
        Studio.alerts effects = []
    | Throw _ =>
        Studio.step after = 1 /\ Studio.drafts after = Studio.drafts s /\
        Studio.alerts effects = ["Failed to generate drafts."]
    end.
Proof.
  cbv zeta. unfold Studio.selectItem, Studio.handleGenerateDrafts, try_catch.
  split; [|split].
  - rewrite !bind_run.
    destruct (generateDrafts dna inspirations _ _ w) as [[images|e] w1];
      unfold ret, world; cbn [snd]; [reflexivity|].
    rewrite bind_run. unfold console_error. rewrite emit_run. reflexivity.
  - intros other. rewrite !bind_run.
    destruct (generateDrafts dna inspirations _ _ w) as [[images|e] w1];
      unfold ret, world; cbn [snd]; [reflexivity|].
    rewrite !bind_run. unfold console_error. rewrite emit_run. reflexivity.
  - rewrite !bind_run.
    destruct (generateDrafts dna inspirations _ _ w) as [[images|e] w1];
      unfold ret, result; cbn [fst snd].
    + eexists. eexists. split; [reflexivity|]. repeat split.
    + rewrite bind_run. unfold console_error. rewrite emit_run. cbn [fst snd].
      eexists. eexists. split; [reflexivity|]. repeat split.
Qed.

(** The first click of a session: the drafts asked for are those of the
    empty subtype, whichever item was clicked. *)
Lemma selectItem_uses_previous_subtype_witness :
  calls (world (Studio.selectItem Demo.acme [] (V1.generateDrafts Demo.stalled) "Hoodie"
                  (Studio.selectCategory MERCHANDISE Studio.initial) emptyWorld))
  = calls (world (V1.generateDrafts Demo.stalled Demo.acme [] MERCHANDISE "" emptyWorld)).
Proof.
  exact (proj1 (selectItem_uses_previous_subtype Demo.acme [] (V1.generateDrafts Demo.stalled)
                  "Hoodie" (Studio.selectCategory MERCHANDISE Studio.initial) emptyWorld)).
Defined.

(** Answers without an image settle to responses without an image. *)
Lemma answers_blank (h : Host) :
  (forall past req, exists res, generateContent h past req = Value res /\ imagesOf res = []) ->
  forall reqs past, exists responses,
    settleAll (answers h past reqs) = Value responses /\ flat_map imagesOf responses = [].
Proof.
  intros Hb. induction reqs as [|r reqs IH]; intros past; cbn [answers settleAll].
  - exists []. split; reflexivity.
  - destruct (Hb past r) as (res & E & I). rewrite E.
    destruct (IH (past ++ [GenerateContent r])%list) as (rs & S & F). rewrite S.
    exists (res :: rs). split; [reflexivity|]. cbn [flat_map]. rewrite I, F. reflexivity.
Qed.

(** X21. An empty generation is shown, not reported.  With a key, when the
    model answers every request but no answer holds an image,
    [handleGenerateDrafts] over the first or the third revision's
    [generateDrafts] ends at step 3, the selection screen, with no drafts,
    the loading flag cleared and no alert. *)
Theorem empty_generation_is_shown (h : Host) (dna : BrandDNA) (inspirations : list Inspiration)
    (s : Studio.State) (w : World) :
  truthy (API_KEY h) = true ->
  (forall past req, exists res, generateContent h past req = Value res /\ imagesOf res = []) ->
  forall generateDrafts,
    generateDrafts = V1.generateDrafts h \/ generateDrafts = V3.generateDrafts h ->
    exists after,
      result (Studio.handleGenerateDrafts dna inspirations generateDrafts s w)
        = Value (after, Studio.quiet) /\
      Studio.step after = 3 /\ Studio.drafts after = [] /\ Studio.isLoading after = false.
Proof.
  intros Hkey Hb generateDrafts Hg.
  assert (R : result (generateDrafts dna inspirations (Studio.selectedType s)
                        (Studio.selectedSubtype s) w) = Value []).
  { destruct Hg as [->| ->].
    - destruct (generateDrafts_V1_run h dna inspirations (Studio.selectedType s)
                  (Studio.selectedSubtype s) w Hkey) as (logs & parts & final & E).
      rewrite E.
      match goal with |- context [collect h ?on ?fin ?ps ?w1] =>
        destruct (collect_run h on fin (repeat (V1.draftRequest parts) 4) (calls w) w1
                    eq_refl (fun i _ => onlyLogs_emit _ _)) as [_ C] end.
      destruct (answers_blank h Hb (repeat (V1.draftRequest parts) 4) (calls w))
        as (rs & S & F).
      rewrite S in C. destruct C as [C _]. rewrite C, F. reflexivity.
    - destruct (generateDrafts_V3_run h dna inspirations (Studio.selectedType s)
                  (Studio.selectedSubtype s) w Hkey) as (logs & reqs & final & Hlen & E).
      rewrite E.
      match goal with |- context [collect h ?on ?fin ?ps ?w1] =>
        destruct (collect_run h on fin reqs (calls w) w1
                    Hlen (draftLogged_V3_onlyLogs dna inspirations)) as [_ C] end.
      destruct (answers_blank h Hb reqs (calls w)) as (rs & S & F).
      rewrite S in C. destruct C as [C _]. rewrite C, F. reflexivity. }
  unfold Studio.handleGenerateDrafts, try_catch. rewrite bind_run.
  destruct (generateDrafts dna inspirations _ _ w) as [[images|e] w1];
    unfold result in R; cbn [fst] in R; [|discriminate R].
  injection R as ->. unfold ret, result. cbn [fst map].
  eexists. split; [reflexivity|]. repeat split.
Qed.

(** A model that answers every request with text only. *)
Lemma empty_generation_is_shown_witness :
  exists after,
    result (Studio.handleGenerateDrafts Demo.acme [] (V3.generateDrafts Demo.stalled)
              (Studio.mkState 1 MERCHANDISE "Hoodie" [] false None false) emptyWorld)
      = Value (after, Studio.quiet) /\
    Studio.step after = 3 /\ Studio.drafts after = [] /\ Studio.isLoading after = false.
Proof.
  apply (empty_generation_is_shown Demo.stalled Demo.acme []
           (Studio.mkState 1 MERCHANDISE "Hoodie" [] false None false) emptyWorld eq_refl).
  - intros past req. exists (mkGenResponse None). split; reflexivity.
  - right. reflexivity.
Defined.

Lemma at_index_setAt (a : list jstr) (i : nat) (v : jstr) : at_index (setAt a i v) i = v.
Proof.
  unfold at_index. revert a. induction i as [|i IH]; intros [|x a]; cbn; auto.
Qed.

Lemma at_index_setAt_other (a : list jstr) (i j : nat) (v : jstr) :
  j <> i -> at_index (setAt a i v) j = at_index a j.
Proof.
  unfold at_index. revert a j. induction i as [|i IH]; intros [|x a] [|j] N; cbn;
    try reflexivity; try contradiction.
  - destruct j; reflexivity.
  - rewrite IH by lia. destruct j; reflexivity.
  - apply IH. lia.
Qed.

Lemma length_setAt (a : list jstr) (i : nat) (v : jstr) :
  length (setAt a i v) = Nat.max (length a) (S i).
Proof.
  revert a. induction i as [|i IH]; intros [|x a]; cbn [setAt length].
  - reflexivity.
  - lia.
  - rewrite IH. cbn [length]. lia.
  - rewrite IH. lia.
Qed.

(** X22. [handleUpdateDraft] changes one draft or none.  It never fails and
    never touches the step, the selection or the editor's index.  With no
    draft open it does nothing.  Otherwise it clears the processing flag;
    when [editAsset] returns an image, that image takes the place of the open
    draft, every other draft is what it was, and the number of drafts is
    unchanged when the index was within them (an index past the end would
    extend the list); when [editAsset] fails the drafts are untouched and the
    user is alerted with "Edit failed". *)
Theorem handleUpdateDraft_outcome (editAsset : jstr -> jstr -> string -> IO string)
    (mask : jstr) (instruction : string) (s : Studio.State) (w : World) :
  let run := Studio.handleUpdateDraft editAsset mask instruction s w in
  exists after effects,
    result run = Value (after, effects) /\
    Studio.step after = Studio.step s /\
    Studio.selectedSubtype after = Studio.selectedSubtype s /\
    Studio.editingIndex after = Studio.editingIndex s /\
    match Studio.editingIndex s with
    | None => after = s /\ effects = Studio.quiet /\ world run = w
    | Some i =>
        Studio.isProcessingEdit after = false /\
        match result (editAsset (at_index (Studio.drafts s) i) mask instruction w) with
        | Value newImage =>
            Studio.alerts effects = [] /\
            at_index (Studio.drafts after) i = str newImage /\
            (forall j, j <> i ->
               at_index (Studio.drafts after) j = at_index (Studio.drafts s) j) /\
            length (Studio.drafts after) = Nat.max (length (Studio.drafts s)) (S i)
        | Throw _ =>
            Studio.alerts effects = ["Edit failed"] /\
            Studio.drafts after = Studio.drafts s
        end
    end.
Proof.
  cbv zeta. unfold Studio.handleUpdateDraft.
  destruct (Studio.editingIndex s) as [i|] eqn:Hi.
  - unfold try_catch. rewrite bind_run.
    destruct (editAsset _ mask instruction w) as [[newImage|e] w1];
      unfold result; cbn [fst].
    + unfold ret. cbn [fst]. eexists. eexists. split; [reflexivity|].
      cbn [Studio.step Studio.selectedSubtype Studio.editingIndex Studio.isProcessingEdit
           Studio.drafts Studio.alerts Studio.quiet].
      repeat split; try assumption.
      * apply at_index_setAt.
      * intros j N. apply at_index_setAt_other. exact N.
      * apply length_setAt.
    + rewrite bind_run. unfold console_error. rewrite emit_run. unfold ret. cbn [fst].
      eexists. eexists. split; [reflexivity|].
      cbn [Studio.step Studio.selectedSubtype Studio.editingIndex Studio.isProcessingEdit
           Studio.drafts Studio.alerts].
      repeat split; assumption.
  - exists s, Studio.quiet. unfold ret, result, world. cbn [fst snd].
    repeat split; assumption.
Qed.

(** X23. [handleFinalize] does not depend on the key check.  With no draft
    open it does nothing.  Otherwise [finalizeAsset] is called for the open
    draft and the selected subtype whatever the key check or the key dialog
    did (their failure is a console warning); the processing flag is cleared;
    on success exactly one asset is created, marked final, with the returned
    address, the selected type and subtype, and the studio goes back to step 0
    with no drafts and the editor closed; on failure nothing is created, the
    user is alerted with "Finalization failed", and the step, the drafts and
    the open draft stay. *)
Theorem handleFinalize_outcome (dna : BrandDNA)
    (finalizeAsset : BrandDNA -> jstr -> string -> IO string) (b : Browser)
    (s : Studio.State) (w : World) :
  let run := Studio.handleFinalize dna finalizeAsset b s w in
  exists after effects,
    result run = Value (after, effects) /\
    match Studio.editingIndex s with
    | None => after = s /\ effects = Studio.quiet /\ world run = w
    | Some i =>
        exists logs,
          (logs = [] \/ exists e, logs = [mkLog Warn [AStr "Key check skipped"; AExn e]]) /\
          let asked := finalizeAsset dna (at_index (Studio.drafts s) i) (Studio.selectedSubtype s)
                         (mkWorld (console w ++ logs) (calls w)) in
          calls (world run) = calls (world asked) /\
          Studio.isProcessingEdit after = false /\
          match result asked with
          | Value highResUrl =>
              Studio.created effects =
                [mkGeneratedAsset (randomUUID b) (Studio.selectedType s) (Studio.selectedSubtype s)
                   highResUrl "Finalized from draft" (now b) false None] /\
              Studio.alerts effects = [] /\
              Studio.step after = 0 /\ Studio.drafts after = [] /\
              Studio.editingIndex after = None
          | Throw _ =>
              Studio.created effects = [] /\
              Studio.alerts effects = ["Finalization failed"] /\
              Studio.step after = Studio.step s /\ Studio.drafts after = Studio.drafts s /\
              Studio.editingIndex after = Studio.editingIndex s
          end
    end.
Proof.
  cbv zeta. unfold Studio.handleFinalize.
  destruct (Studio.editingIndex s) as [i|] eqn:Hi.
  - assert (K : exists logs,
              (logs = [] \/ exists e, logs = [mkLog Warn [AStr "Key check skipped"; AExn e]]) /\
              Studio.keyCheck b w = (Value tt, mkWorld (console w ++ logs) (calls w))).
    { unfold Studio.keyCheck, try_catch. rewrite bind_run. unfold await.
      destruct (hasSelectedApiKey b) as [[|]|e]; cbn [negb].
      - exists []. split; [left; reflexivity|]. unfold ret. rewrite app_nil_r.
        destruct w; reflexivity.
      - destruct (openSelectKey b) as [[]|e].
        + exists []. split; [left; reflexivity|]. rewrite app_nil_r. destruct w; reflexivity.
        + eexists. split; [right; eexists; reflexivity|].
          unfold console_warn. rewrite emit_run. reflexivity.
      - eexists. split; [right; eexists; reflexivity|].
        unfold console_warn. rewrite emit_run. reflexivity. }
    destruct K as (logs & Hlogs & K). rewrite bind_run, K. unfold try_catch. rewrite bind_run.
    destruct (finalizeAsset dna _ _ (mkWorld (console w ++ logs) (calls w)))
      as [[url|e] w1] eqn:F.
    + unfold ret, result, world. cbn [fst snd]. eexists. eexists. split; [reflexivity|].
      exists logs. split; [exact Hlogs|]. rewrite F. cbn [fst snd].
      repeat split.
    + rewrite bind_run. unfold console_error. rewrite emit_run.
      unfold ret, result, world. cbn [fst snd calls]. eexists. eexists.
      split; [reflexivity|].
      exists logs. split; [exact Hlogs|]. rewrite F. cbn [fst snd].
      repeat split; assumption.
  - exists s, Studio.quiet. unfold ret, result, world. cbn [fst snd]. repeat split.
Qed.

(** ** The gallery and the editor's preview *)

(** X24. The gallery's button and the clip.  An asset gets its "Visualize
    with Veo" button when its lower-cased subtype holds "hoodie" or
    "billboard"; for such an asset [generateVisualizationVideo] asks for the
    fashion clip or the billboard clip, so the showcase clip is never asked
    for from the gallery.  A shirt that is not a hoodie has a clip of its own,
    the fashion clip, but no button. *)
Theorem gallery_button_and_clip (h : Host) (asset : GeneratedAsset) :
  let st := toLowerCase h (a_subtype asset) in
  let clip := visualizationPrompt h (a_subtype asset) in
  (Gallery.canVisualize h asset = true -> clip = fashionClip \/ clip = billboardClip) /\
  (clip = showcaseClip -> Gallery.canVisualize h asset = false) /\
  (includes st "shirt" = true -> includes st "hoodie" = false ->
   includes st "billboard" = false ->
   clip = fashionClip /\ Gallery.canVisualize h asset = false).
Proof.
  cbv zeta. unfold Gallery.canVisualize, visualizationPrompt, fashionClip, billboardClip,
    showcaseClip.
  destruct (includes (toLowerCase h (a_subtype asset)) "hoodie");
    destruct (includes (toLowerCase h (a_subtype asset)) "shirt");
    destruct (includes (toLowerCase h (a_subtype asset)) "billboard");
    cbn [orb]; repeat split; intros; try discriminate; try reflexivity; auto.
Qed.

(** X25. [handleVisualize] never fails; it opens a window or alerts.  When
    the key check or the key dialog is rejected, nothing is sent and the
    user is alerted with "Visualization failed. " and the error's message.
    Otherwise the calls are those of [generateVisualizationVideo]: the address
    it returns is opened, alone and without an alert; its failure is alerted in
    the same way and opens nothing; and while it is still polling the asset
    stays the one being visualized. *)
Theorem handleVisualize_outcome (b : Browser)
    (generateVisualizationVideo : string -> string -> IO (option string))
    (asset : GeneratedAsset) (w : World) :
  let run := Gallery.handleVisualize b generateVisualizationVideo asset w in
  let asked := generateVisualizationVideo (a_url asset) (a_subtype asset) w in
  let refused (e : exn) :=
    result run = Value (None, Gallery.mkEffects [] ["Visualization failed. " ++ messageOf e]) in
  match hasSelectedApiKey b with
  | Throw e => refused e /\ calls (world run) = calls w
  | Value hasKey =>
      match (if hasKey then Value tt else openSelectKey b) with
      | Throw e => refused e /\ calls (world run) = calls w
      | Value _ =>
          calls (world run) = calls (world asked) /\
          match result asked with
          | Value (Some url) => result run = Value (None, Gallery.mkEffects [url] [])
          | Value None => result run = Value (Some (a_id asset), Gallery.mkEffects [] [])
          | Throw e => refused e
          end
      end
  end.
Proof.
  cbv zeta. unfold Gallery.handleVisualize. run_io.
  destruct (hasSelectedApiKey b) as [[|]|e]; cbn [negb fst snd].
  - destruct (generateVisualizationVideo _ _ w) as [[[url|]|e] w1]; cbn; split; reflexivity.
  - destruct (openSelectKey b) as [[]|e]; cbn; [|split; reflexivity].
    destruct (generateVisualizationVideo _ _ w) as [[[url|]|e] w1]; cbn; split; reflexivity.
  - cbn. split; reflexivity.
Qed.

(** What [generateRealWorldPreview] does when the job never completes. *)
Lemma generateRealWorldPreview_stalled (h : Host)
    (sceneJson : V3.Scene -> string -> BrandDNA -> string)
    (assetImage subtype : string) (dna : BrandDNA) (w : World) (op0 : Operation) :
  truthy (API_KEY h) = true ->
  generateVideos h (calls w)
    (videoRequest "veo-3.1-generate-preview" (V3.previewPrompt h sceneJson subtype dna) assetImage)
    = Value op0 ->
  done op0 = false -> videoUriOf op0 = undefined -> Stalled h ->
  result (V3.generateRealWorldPreview h sceneJson assetImage subtype dna w)
    = Throw (Error "Preview generation failed") /\
  polls (calls (world (V3.generateRealWorldPreview h sceneJson assetImage subtype dna w)))
    = polls (calls w) + 60.
Proof.
  intros Hkey Hstart Hd Hu Hst.
  destruct (generateRealWorldPreview_run h sceneJson assetImage subtype dna w op0 Hkey Hstart)
    as (w1 & logs & Hw1 & E).
  rewrite E. clear E.
  destruct (previewLoop_stalled h 60 Hst 0 op0 w1 ltac:(lia) Hd Hu)
    as (final & ops & lg & B & L & U).
  rewrite L. unfold result, world. cbn [fst snd console calls]. rewrite U. cbn [truthy].
  split; [reflexivity|].
  rewrite Hw1, !polls_app, polls_pollCalls. cbn [polls filter length] in *. lia.
Qed.

(** X26. A preview that times out reaches the user as a failure.  With a
    key, when the job is pending at the start and the service never reports
    completion, [handleRealWorldPreview] over [generateRealWorldPreview]
    makes sixty polls and then alerts "Failed to generate preview: Preview
    generation failed"; the flag is cleared and the preview shown before
    stays. *)
Theorem preview_timeout_reaches_the_user (h : Host)
    (sceneJson : V3.Scene -> string -> BrandDNA -> string)
    (imageUrl subtype : string) (brandDNA : BrandDNA) (s : AssetEditor.State) (w : World)
    (op0 : Operation) :
  truthy (API_KEY h) = true ->
  generateVideos h (calls w)
    (videoRequest "veo-3.1-generate-preview" (V3.previewPrompt h sceneJson subtype brandDNA)
       imageUrl)
    = Value op0 ->
  done op0 = false -> videoUriOf op0 = undefined -> Stalled h ->
  let run := AssetEditor.handleRealWorldPreview imageUrl subtype brandDNA
               (V3.generateRealWorldPreview h sceneJson) s w in
  result run =
    Value (AssetEditor.mkState false (AssetEditor.previewVideoUrl s),
           ["Failed to generate preview: Preview generation failed"]) /\
  polls (calls (world run)) = polls (calls w) + 60.
Proof.
  intros Hkey Hstart Hd Hu Hst. cbv zeta.
  destruct (generateRealWorldPreview_stalled h sceneJson imageUrl subtype brandDNA w op0
              Hkey Hstart Hd Hu Hst) as [R P].
  unfold AssetEditor.handleRealWorldPreview, try_catch. rewrite bind_run.
  destruct (V3.generateRealWorldPreview h sceneJson imageUrl subtype brandDNA w)
    as [[url|e] w1]; unfold result in R; cbn [fst] in R; [discriminate R|].
  injection R as ->. unfold world in P. cbn [snd] in P.
  rewrite bind_run. unfold console_error. rewrite emit_run.
  unfold ret, result, world. cbn [fst snd calls messageOf]. split; [reflexivity | exact P].
Qed.

(** A preview is on screen; the next one never completes. *)
Lemma preview_timeout_reaches_the_user_witness :
  result (AssetEditor.handleRealWorldPreview "data:image/png;base64,AAAA" "Hoodie" Demo.acme
            (V3.generateRealWorldPreview Demo.stalled Demo.scene)
            (AssetEditor.mkState false (str "https://videos.example/v0&key=KEY")) emptyWorld)
  = Value (AssetEditor.mkState false (str "https://videos.example/v0&key=KEY"),
           ["Failed to generate preview: Preview generation failed"]) /\
  polls (calls (world (AssetEditor.handleRealWorldPreview "data:image/png;base64,AAAA" "Hoodie"
            Demo.acme (V3.generateRealWorldPreview Demo.stalled Demo.scene)
            (AssetEditor.mkState false (str "https://videos.example/v0&key=KEY")) emptyWorld)))
  = 60.
Proof.
  exact (preview_timeout_reaches_the_user Demo.stalled Demo.scene "data:image/png;base64,AAAA"
           "Hoodie" Demo.acme (AssetEditor.mkState false (str "https://videos.example/v0&key=KEY"))
           emptyWorld (mkOperation false None) eq_refl eq_refl eq_refl eq_refl
           (fun past op => ex_intro _ (mkOperation false None)
                             (conj eq_refl (conj eq_refl eq_refl)))).
Defined.

(** ** The application *)

Lemma navigable_react (s : App.State) (e : App.Event) :
  Navigable s -> Navigable (App.react s e).
Proof.
  intros N. destruct e as [newDna|n|insp|removed|asset]; cbn [App.react]; try exact N.
  - split; [cbn; auto|]. intros _. reflexivity.
  - destruct (nth_error (App.items (App.hasDNA s)) n) as [[tab [|]]|] eqn:E; try exact N.
    unfold App.items in E.
    do 4 (destruct n as [|n]; cbn [nth_error] in E;
          [injection E; clear E; intros; subst tab; split; [cbn; auto 6|];
           intros I; unfold App.hasDNA in *; cbn [App.dna];
           first [ exfalso; apply I; reflexivity
                 | destruct (App.dna s); [reflexivity | discriminate] ] |]).
    destruct n; discriminate E.
Qed.

Lemma navigable_run (events : list App.Event) :
  forall s, Navigable s -> Navigable (App.run events s).
Proof.
  induction events as [|e events IH]; intros s N; [exact N|].
  apply IH. apply navigable_react. exact N.
Qed.

(** X27. The studio is never shown without a brand.  After any sequence of
    events from the initial state, the active tab is one of the four sidebar
    items and, unless it is the identity tab, a brand is present: a disabled
    item cannot be selected and the brand is never cleared.  So the studio is
    drawn exactly when its tab is active, the gallery exactly when the studio
    tab is active and an asset exists, and saving a brand always leads to the
    studio. *)
Theorem studio_needs_a_brand (events : list App.Event) :
  let s := App.run events App.initial in
  In (App.activeTab s) ["identity"; "inspirations"; "studio"; "ads"] /\
  (App.activeTab s <> "identity" -> App.hasDNA s = true) /\
  (In App.StudioView (App.views s) <-> App.activeTab s = "studio") /\
  (In App.GalleryView (App.views s) <-> App.activeTab s = "studio" /\ App.assets s <> []) /\
  (forall newDna, App.views (App.react s (App.SaveDNA newDna)) =
                  App.StudioView :: if (0 <? length (App.assets s))%nat
                                    then [App.GalleryView] else []).
Proof.
  cbv zeta.
  assert (N : Navigable (App.run events App.initial)).
  { apply navigable_run. split; [cbn; auto|]. intros H. contradiction. }
  destruct N as [T D]. split; [exact T|]. split; [exact D|].
  set (s := App.run events App.initial) in *.
  assert (V : App.views s =
              if App.activeTab s =? "identity" then [App.BrandManagerView]
              else if App.activeTab s =? "inspirations" then [App.InspirationsView]
              else if App.activeTab s =? "studio"
                   then App.StudioView :: (if (0 <? length (App.assets s))%nat
                                           then [App.GalleryView] else [])
                   else []).
  { unfold App.views.
    destruct T as [E|[E|[E|[E|[]]]]]; rewrite <- E in *;
      cbn [String.eqb Ascii.eqb Bool.eqb andb app]; try reflexivity.
    rewrite (D ltac:(discriminate)). reflexivity. }
  split; [|split].
  - rewrite V. destruct T as [E|[E|[E|[E|[]]]]]; rewrite <- E;
      cbn [String.eqb Ascii.eqb Bool.eqb]; split; intros H;
      try discriminate H; try reflexivity; try (left; reflexivity);
      cbn in H; intuition discriminate.
  - rewrite V. destruct T as [E|[E|[E|[E|[]]]]]; rewrite <- E;
      cbn [String.eqb Ascii.eqb Bool.eqb];
      try (split; intros H; [| destruct H as [H _]; discriminate H];
           cbn in H; intuition discriminate).
    destruct (App.assets s) as [|a l]; cbn [length Nat.ltb Nat.leb]; split; intros H.
    + cbn in H. intuition discriminate.
    + destruct H as [_ H]. contradiction.
    + split; [reflexivity | discriminate].
    + right. left. reflexivity.
  - intros newDna. reflexivity.
Qed.




